(** * Array-to-array assignment (numpy/core/src/multiarray/array_assign_array.c)

    A shallow embedding of the three raw transfer routines
    [raw_array_assign_array], [raw_array_wheremasked_assign_array],
    [raw_array_wheremasked_assign_array_preservena] and of the orchestrator
    [PyArray_AssignArray], followed by the properties of the specification
    that concern them.

    Conventions.
    - A [char *] is an address in [Z]; [NULL] is [0].  [npy_intp] values are
      integers in [Z]; the pointer arithmetic of the source is written out
      and assumed not to overflow.
    - Memory is a total map from addresses to bytes.
    - Every routine is a computation in the monad [M]: it threads the
      interpreter state (memory and the pending Python error) and records,
      in order, the calls it makes to its collaborators.
    - [NPY_BEGIN_THREADS] / [NPY_END_THREADS] (the release of the global
      lock around the loop) and [NPY_AUXDATA_FREE] do not act on that state
      and are left out. *)

From Stdlib Require Import ZArith List Bool Lia.
From Stdlib Require String.
Import ListNotations.
Import String.StringSyntax.
Abbreviation string := String.string.
Delimit Scope string_scope with string.
Open Scope Z_scope.

Set Implicit Arguments.

(** ** Data model *)

Definition ptr := Z.
Definition NULL : ptr := 0.

Definition memory := Z -> Z.

(** [PyArray_Descr]: the dtype object.  [descr_addr] is the address of the
    object; the source compares dtypes by pointer. *)
Record PyArray_Descr := mkDescr {
  descr_addr : Z;
  elsize : Z;
  alignment : Z
}.

Inductive NPY_CASTING :=
| NPY_NO_CASTING
| NPY_EQUIV_CASTING
| NPY_SAFE_CASTING
| NPY_SAME_KIND_CASTING
| NPY_UNSAFE_CASTING.

(** [PyArrayObject], with the fields this file reads through the accessor
    macros [PyArray_NDIM], [PyArray_DIMS], [PyArray_STRIDES], [PyArray_DATA],
    [PyArray_DESCR], [PyArray_ISWRITEABLE], [PyArray_HASMASKNA],
    [PyArray_MASKNA_DTYPE], [PyArray_MASKNA_DATA], [PyArray_MASKNA_STRIDES]. *)
Record PyArrayObject := mkArray {
  PyArray_DATA : ptr;
  PyArray_NDIM : nat;
  PyArray_DIMS : list Z;
  PyArray_STRIDES : list Z;
  PyArray_DESCR : PyArray_Descr;
  PyArray_ISWRITEABLE : bool;
  PyArray_HASMASKNA : bool;
  PyArray_MASKNA_DTYPE : PyArray_Descr;
  PyArray_MASKNA_DATA : ptr;
  PyArray_MASKNA_STRIDES : list Z
}.

(** The Python error indicator.  The constructors name the exception class
    the source raises; the specification's error kinds are given below. *)
Inductive PyErr :=
| PyExc_RuntimeError (msg : string)
| PyExc_ValueError (msg : string)
| PyExc_ValueError_broadcast (strides_name : string)
| PyExc_TypeError_cast (src_dtype dst_dtype : PyArray_Descr) (casting : NPY_CASTING)
| PyExc_MemoryError
| PyExc_raised_by_callee.

Definition ReadOnlyTarget : PyErr :=
  PyExc_RuntimeError "cannot assign to a read-only array"%string.
Definition UnsafeCast (s d : PyArray_Descr) (c : NPY_CASTING) : PyErr :=
  PyExc_TypeError_cast s d c.
Definition NotImplemented : PyErr :=
  PyExc_RuntimeError "multi-NA support is not yet implemented"%string.
Definition UnsupportedNA : PyErr :=
  PyExc_ValueError "Cannot assign NA to an array which does not support NAs"%string.
Definition UnsupportedNA_wheremask : PyErr :=
  PyExc_ValueError "A where mask with NA values is not supported yet"%string.
Definition ShapeMismatch (strides_name : string) : PyErr :=
  PyExc_ValueError_broadcast strides_name.

Record state := mkState {
  st_mem : memory;
  st_err : option PyErr
}.

(** The calls a routine makes to its collaborators, with their arguments. *)
Inductive event :=
| Call_GetDTypeTransferFunction
    (aligned : bool) (src_stride dst_stride : Z)
    (src_dtype dst_dtype : PyArray_Descr)
| Call_GetMaskedDTypeTransferFunction
    (aligned : bool) (src_stride dst_stride mask_stride : Z)
    (src_dtype dst_dtype mask_dtype : PyArray_Descr)
| Call_GetMaskAndFunction
    (mask0_stride : Z) (mask0_dtype : PyArray_Descr)
    (mask1_stride : Z) (mask1_dtype : PyArray_Descr)
| Call_stransfer
    (dst : ptr) (dst_stride : Z) (src : ptr) (src_stride : Z)
    (N src_itemsize : Z)
| Call_masked_stransfer
    (dst : ptr) (dst_stride : Z) (src : ptr) (src_stride : Z)
    (mask : ptr) (mask_stride : Z) (N src_itemsize : Z)
| Call_maskand_stransfer
    (dst : ptr) (dst_stride : Z) (src0 : ptr) (src0_stride : Z)
    (src1 : ptr) (src1_stride : Z) (N : Z)
| Call_malloc (size : Z) (result : ptr)
| Call_free (p : ptr)
| Call_NewLikeArray (prototype : PyArrayObject) (result : option PyArrayObject)
| Call_AllocateMaskNA (arr : PyArrayObject) (ok : bool)
| Call_AssignArray (dst src : PyArrayObject) (wheremask : option PyArrayObject)
    (casting : NPY_CASTING) (preservena : bool)
    (preservewhichna : option (list bool))
| Return_AssignArray (retcode : Z)
| Call_Py_DECREF (arr : PyArrayObject)
| Call_ContainsNA (arr : PyArrayObject) (wheremask : option PyArrayObject)
| Call_AssignNA (dst : PyArrayObject)
| Call_AssignRawScalar (dst : PyArrayObject)
| Call_AssignMaskNA (dst : PyArrayObject) (wheremask : option PyArrayObject).

(** ** The monad of the routines *)

Definition M (A : Type) : Type := state -> A * state * list event.

Definition ret {A} (a : A) : M A := fun s => (a, s, []).

Definition bind {A B} (m : M A) (f : A -> M B) : M B :=
  fun s =>
    let '(a, s1, l1) := m s in
    let '(b, s2, l2) := f a s1 in
    (b, s2, l1 ++ l2).

Definition emit (e : event) : M unit := fun s => (tt, s, [e]).

Definition PyErr_Set (e : PyErr) : M unit :=
  fun s => (tt, mkState (st_mem s) (Some e), []).

Definition PyErr_Occurred : M bool :=
  fun s => (match st_err s with Some _ => true | None => false end, s, []).

(** A collaborator that only transforms the state. *)
Definition run (f : state -> state) : M unit := fun s => (tt, f s, []).

(** Modelled from the spec: the answer of a resolver.  The resolvers are
    defined outside this file; by section 4.4 of the specification a
    resolver that fails has raised the error it fails with, and the
    routines propagate it.  The routines themselves set no error on this
    path (lines 83-90, 174-183 and 292-313 only return -1):
    [PyExc_raised_by_callee] stands for the resolver's error. *)
Definition resolved {A} (answer : option A) : M (option A) :=
  fun s =>
    match answer with
    | Some a => (Some a, s, [])
    | None => (None, mkState (st_mem s) (Some PyExc_raised_by_callee), [])
    end.

(** A collaborator that answers from the state and may change it. *)
Definition ask {A} (f : state -> A * state) : M A :=
  fun s => let '(a, s') := f s in (a, s', []).

Declare Scope m_scope.
Delimit Scope m_scope with M.
Notation "x <- m ;; k" := (bind m (fun x => k))
  (at level 61, m at next level, right associativity) : m_scope.
Notation "m ;;; k" := (bind m (fun _ => k))
  (at level 61, right associativity) : m_scope.
Open Scope m_scope.

Definition result_of {A} (r : A * state * list event) : A := fst (fst r).
Definition state_of {A} (r : A * state * list event) : state := snd (fst r).
Definition log_of {A} (r : A * state * list event) : list event := snd r.

(** ** Transfer callables

    [PyArray_StridedUnaryOp], [PyArray_MaskedStridedUnaryOp] and
    [PyArray_StridedBinaryOp] with their auxiliary data bound. *)

Definition PyArray_StridedUnaryOp :=
  ptr -> Z -> ptr -> Z -> Z -> Z -> state -> state.
Definition PyArray_MaskedStridedUnaryOp :=
  ptr -> Z -> ptr -> Z -> ptr -> Z -> Z -> Z -> state -> state.
Definition PyArray_StridedBinaryOp :=
  ptr -> Z -> ptr -> Z -> ptr -> Z -> Z -> state -> state.

(** ** Collaborators defined outside this file

    The functions below are declared in the headers this file includes and
    defined elsewhere; the routines are stated over any implementation of
    them.  [None] (or [NULL]) is the failure return of the C function. *)

Definition prepared2 := (nat * list Z * ptr * list Z * ptr * list Z)%type.
Definition prepared3 := (prepared2 * ptr * list Z)%type.
Definition prepared4 := (prepared3 * ptr * list Z)%type.

Record Collaborators := mkCollaborators {
  raw_array_is_aligned : nat -> ptr -> list Z -> Z -> bool;
  PyArray_PrepareTwoRawArrayIter :
    nat -> list Z -> ptr -> list Z -> ptr -> list Z -> option prepared2;
  PyArray_PrepareThreeRawArrayIter :
    nat -> list Z -> ptr -> list Z -> ptr -> list Z -> ptr -> list Z ->
    option prepared3;
  PyArray_PrepareFourRawArrayIter :
    nat -> list Z -> ptr -> list Z -> ptr -> list Z -> ptr -> list Z ->
    ptr -> list Z -> option prepared4;
  (** The resolvers: the callable and its [needs_api] flag, or [None] when
      the resolver fails (it has then raised an error). *)
  PyArray_GetDTypeTransferFunction :
    bool -> Z -> Z -> PyArray_Descr -> PyArray_Descr ->
    option (PyArray_StridedUnaryOp * bool);
  PyArray_GetMaskedDTypeTransferFunction :
    bool -> Z -> Z -> Z -> PyArray_Descr -> PyArray_Descr -> PyArray_Descr ->
    option (PyArray_MaskedStridedUnaryOp * bool);
  PyArray_GetMaskAndFunction :
    Z -> PyArray_Descr -> Z -> PyArray_Descr ->
    option PyArray_StridedBinaryOp;
  PyArray_malloc : Z -> state -> ptr;
  NpyNA_FromObject : PyArrayObject -> state -> option Z * state;
  PyArray_AssignNA :
    PyArrayObject -> Z -> option PyArrayObject -> bool ->
    option (list bool) -> state -> Z * state;
  PyArray_AssignRawScalar :
    PyArrayObject -> PyArray_Descr -> ptr -> option PyArrayObject ->
    NPY_CASTING -> bool -> option (list bool) -> state -> Z * state;
  PyArray_CanCastTypeTo :
    PyArray_Descr -> PyArray_Descr -> NPY_CASTING -> bool;
  PyArray_ContainsNA :
    PyArrayObject -> option PyArrayObject -> state -> Z * state;
  arrays_overlap : PyArrayObject -> PyArrayObject -> bool;
  PyArray_NewLikeArray : PyArrayObject -> state -> option PyArrayObject * state;
  PyArray_AllocateMaskNA :
    PyArrayObject -> state -> option PyArrayObject * state;
  PyArray_AssignMaskNA :
    PyArrayObject -> Z -> option PyArrayObject -> bool ->
    option (list bool) -> state -> Z * state;
  (** [NPY_ARRAY_ASSIGN_BUFFERSIZE] of array_assign.h: the capacity, in
      elements, of the scratch buffer; a positive constant. *)
  NPY_ARRAY_ASSIGN_BUFFERSIZE : positive
}.

(** ** Raw iteration *)

Definition advance (data : list ptr) (strides : list (list Z))
    (idim : nat) (c : Z) : list ptr :=
  map (fun ds => fst ds + c * nth idim (snd ds) 0) (combine data strides).

(** [for (c = i; c < i + n; ++c) body(c)]. *)
Fixpoint for_loop (n : nat) (i : Z) (body : Z -> M unit) : M unit :=
  match n with
  | O => ret tt
  | S n' => body i ;;; for_loop n' (i + 1) body
  end.

(** Modelled from the spec: [NPY_RAW_ITER_START] and
    [NPY_RAW_ITER_TWO_NEXT], [.._THREE_NEXT], [.._FOUR_NEXT] of
    lowlevel_strided_loops.h, which are not part of this file.  They loop
    over the outer dimensions [1 .. ndim-1] of the prepared shape, dimension
    1 varying fastest, and run the body once per step with every data
    pointer moved by its own stride.  [idims] lists the outer dimensions
    from the slowest to the fastest. *)
Fixpoint NPY_RAW_ITER (idims : list nat) (shape : list Z)
    (strides : list (list Z)) (data : list ptr)
    (body : list ptr -> M unit) : M unit :=
  match idims with
  | [] => body data
  | idim :: rest =>
      for_loop (Z.to_nat (nth idim shape 0)) 0
        (fun c => NPY_RAW_ITER rest shape strides
                    (advance data strides idim c) body)
  end.

Definition outer_dims (ndim : nat) : list nat := rev (seq 1 (ndim - 1)).

(** [strides_it[0] = -strides_it[0]]. *)
Definition negate0 (strides_it : list Z) : list Z :=
  match strides_it with
  | [] => []
  | s :: rest => - s :: rest
  end.

Section Raw.

Variable env : Collaborators.

Definition GetDTypeTransferFunction (aligned : bool) (src_stride dst_stride : Z)
    (src_dtype dst_dtype : PyArray_Descr)
    : M (option (PyArray_StridedUnaryOp * bool)) :=
  emit (Call_GetDTypeTransferFunction aligned src_stride dst_stride
          src_dtype dst_dtype) ;;;
  resolved (PyArray_GetDTypeTransferFunction env aligned src_stride
              dst_stride src_dtype dst_dtype).

Definition GetMaskedDTypeTransferFunction (aligned : bool)
    (src_stride dst_stride mask_stride : Z)
    (src_dtype dst_dtype mask_dtype : PyArray_Descr)
    : M (option (PyArray_MaskedStridedUnaryOp * bool)) :=
  emit (Call_GetMaskedDTypeTransferFunction aligned src_stride dst_stride
          mask_stride src_dtype dst_dtype mask_dtype) ;;;
  resolved (PyArray_GetMaskedDTypeTransferFunction env aligned src_stride
              dst_stride mask_stride src_dtype dst_dtype mask_dtype).

Definition GetMaskAndFunction (mask0_stride : Z) (mask0_dtype : PyArray_Descr)
    (mask1_stride : Z) (mask1_dtype : PyArray_Descr)
    : M (option PyArray_StridedBinaryOp) :=
  emit (Call_GetMaskAndFunction mask0_stride mask0_dtype
          mask1_stride mask1_dtype) ;;;
  resolved (PyArray_GetMaskAndFunction env mask0_stride mask0_dtype
              mask1_stride mask1_dtype).

Definition call_stransfer (stransfer : PyArray_StridedUnaryOp)
    (dst : ptr) (dst_stride : Z) (src : ptr) (src_stride : Z)
    (N src_itemsize : Z) : M unit :=
  emit (Call_stransfer dst dst_stride src src_stride N src_itemsize) ;;;
  run (stransfer dst dst_stride src src_stride N src_itemsize).

Definition call_masked_stransfer (stransfer : PyArray_MaskedStridedUnaryOp)
    (dst : ptr) (dst_stride : Z) (src : ptr) (src_stride : Z)
    (mask : ptr) (mask_stride : Z) (N src_itemsize : Z) : M unit :=
  emit (Call_masked_stransfer dst dst_stride src src_stride
          mask mask_stride N src_itemsize) ;;;
  run (stransfer dst dst_stride src src_stride mask mask_stride
         N src_itemsize).

Definition call_maskand_stransfer (stransfer : PyArray_StridedBinaryOp)
    (dst : ptr) (dst_stride : Z) (src0 : ptr) (src0_stride : Z)
    (src1 : ptr) (src1_stride : Z) (N : Z) : M unit :=
  emit (Call_maskand_stransfer dst dst_stride src0 src0_stride
          src1 src1_stride N) ;;;
  run (stransfer dst dst_stride src0 src0_stride src1 src1_stride N).

(** The overlap check for the 1D case, shared by the three routines:
    [ndim == 1 && src_data < dst_data &&
     src_data + shape_it[0] * src_strides_it[0] > dst_data]. *)
Definition overlap_1d (ndim : nat) (shape_it : list Z)
    (dst_data src_data : ptr) (src_strides_it : list Z) : bool :=
  (ndim =? 1)%nat && (src_data <? dst_data) &&
  (src_data + nth 0 shape_it 0 * nth 0 src_strides_it 0 >? dst_data).

(** [return (needs_api && PyErr_Occurred()) ? -1 : 0]. *)
Definition return_status (needs_api : bool) : M Z :=
  err <- PyErr_Occurred ;;
  ret (if needs_api && err then -1 else 0).

(** *** [raw_array_assign_array] *)

Definition raw_array_assign_array (ndim : nat) (shape : list Z)
    (dst_dtype : PyArray_Descr) (dst_data : ptr) (dst_strides : list Z)
    (src_dtype : PyArray_Descr) (src_data : ptr) (src_strides : list Z)
    : M Z :=
  let src_itemsize := elsize src_dtype in
  let aligned :=
    raw_array_is_aligned env ndim dst_data dst_strides (alignment dst_dtype)
    && raw_array_is_aligned env ndim src_data src_strides
         (alignment src_dtype) in
  match PyArray_PrepareTwoRawArrayIter env ndim shape
          dst_data dst_strides src_data src_strides with
  | None => ret (-1)
  | Some (ndim, shape_it, dst_data, dst_strides_it,
          src_data, src_strides_it) =>
    let reversed :=
      overlap_1d ndim shape_it dst_data src_data src_strides_it in
    let src_data' :=
      if reversed
      then src_data + (nth 0 shape_it 0 - 1) * nth 0 src_strides_it 0
      else src_data in
    let dst_data' :=
      if reversed
      then dst_data + (nth 0 shape_it 0 - 1) * nth 0 dst_strides_it 0
      else dst_data in
    let src_strides_it :=
      if reversed then negate0 src_strides_it else src_strides_it in
    let dst_strides_it :=
      if reversed then negate0 dst_strides_it else dst_strides_it in
    t <- GetDTypeTransferFunction aligned
           (nth 0 src_strides_it 0) (nth 0 dst_strides_it 0)
           src_dtype dst_dtype ;;
    match t with
    | None => ret (-1)
    | Some (stransfer, needs_api) =>
      NPY_RAW_ITER (outer_dims ndim) shape_it
        [dst_strides_it; src_strides_it] [dst_data'; src_data']
        (fun data =>
           call_stransfer stransfer
             (nth 0 data 0) (nth 0 dst_strides_it 0)
             (nth 1 data 0) (nth 0 src_strides_it 0)
             (nth 0 shape_it 0) src_itemsize) ;;;
      return_status needs_api
    end
  end.

(** *** [raw_array_wheremasked_assign_array] *)

Definition raw_array_wheremasked_assign_array (ndim : nat) (shape : list Z)
    (dst_dtype : PyArray_Descr) (dst_data : ptr) (dst_strides : list Z)
    (src_dtype : PyArray_Descr) (src_data : ptr) (src_strides : list Z)
    (wheremask_dtype : PyArray_Descr) (wheremask_data : ptr)
    (wheremask_strides : list Z) : M Z :=
  let src_itemsize := elsize src_dtype in
  let aligned :=
    raw_array_is_aligned env ndim dst_data dst_strides (alignment dst_dtype)
    && raw_array_is_aligned env ndim src_data src_strides
         (alignment src_dtype) in
  match PyArray_PrepareThreeRawArrayIter env ndim shape
          dst_data dst_strides src_data src_strides
          wheremask_data wheremask_strides with
  | None => ret (-1)
  | Some (ndim, shape_it, dst_data, dst_strides_it,
          src_data, src_strides_it,
          wheremask_data, wheremask_strides_it) =>
    let reversed :=
      overlap_1d ndim shape_it dst_data src_data src_strides_it in
    let src_data' :=
      if reversed
      then src_data + (nth 0 shape_it 0 - 1) * nth 0 src_strides_it 0
      else src_data in
    let dst_data' :=
      if reversed
      then dst_data + (nth 0 shape_it 0 - 1) * nth 0 dst_strides_it 0
      else dst_data in
    let wheremask_data' :=
      if reversed
      then wheremask_data
           + (nth 0 shape_it 0 - 1) * nth 0 wheremask_strides_it 0
      else wheremask_data in
    let src_strides_it :=
      if reversed then negate0 src_strides_it else src_strides_it in
    let dst_strides_it :=
      if reversed then negate0 dst_strides_it else dst_strides_it in
    let wheremask_strides_it :=
      if reversed then negate0 wheremask_strides_it
      else wheremask_strides_it in
    t <- GetMaskedDTypeTransferFunction aligned
           (nth 0 src_strides_it 0) (nth 0 dst_strides_it 0)
           (nth 0 wheremask_strides_it 0)
           src_dtype dst_dtype wheremask_dtype ;;
    match t with
    | None => ret (-1)
    | Some (stransfer, needs_api) =>
      NPY_RAW_ITER (outer_dims ndim) shape_it
        [dst_strides_it; src_strides_it; wheremask_strides_it]
        [dst_data'; src_data'; wheremask_data']
        (fun data =>
           call_masked_stransfer stransfer
             (nth 0 data 0) (nth 0 dst_strides_it 0)
             (nth 1 data 0) (nth 0 src_strides_it 0)
             (nth 2 data 0) (nth 0 wheremask_strides_it 0)
             (nth 0 shape_it 0) src_itemsize) ;;;
      return_status needs_api
    end
  end.

(** *** [raw_array_wheremasked_assign_array_preservena] *)

(** The [do { ... } while (count > 0)] loop that processes the innermost
    dimension a buffer size at a time.  [fuel] only makes the recursion
    structural: the routine passes [Z.to_nat count], which the loop never
    exhausts ([buffered_loop_unfold]). *)
Fixpoint buffered_loop (fuel : nat)
    (maskand_stransfer : PyArray_StridedBinaryOp)
    (stransfer : PyArray_MaskedStridedUnaryOp)
    (maskna_buffer : ptr) (maskna_itemsize src_itemsize : Z)
    (dst_stride src_stride maskna_stride wheremask_stride : Z)
    (count : Z) (dst_d src_d maskna_d wheremask_d : ptr) : M unit :=
  let buffered_count :=
    if count <? Z.pos (NPY_ARRAY_ASSIGN_BUFFERSIZE env)
    then count else Z.pos (NPY_ARRAY_ASSIGN_BUFFERSIZE env) in
  (* Prepare the mask into the buffer *)
  call_maskand_stransfer maskand_stransfer maskna_buffer maskna_itemsize
    maskna_d maskna_stride wheremask_d wheremask_stride buffered_count ;;;
  (* Transfer the data based on the buffered mask *)
  call_masked_stransfer stransfer dst_d dst_stride src_d src_stride
    maskna_buffer maskna_itemsize buffered_count src_itemsize ;;;
  if 0 <? count - buffered_count then
    match fuel with
    | O => ret tt
    | S fuel' =>
        buffered_loop fuel' maskand_stransfer stransfer
          maskna_buffer maskna_itemsize src_itemsize
          dst_stride src_stride maskna_stride wheremask_stride
          (count - buffered_count)
          (dst_d + buffered_count * dst_stride)
          (src_d + buffered_count * src_stride)
          (maskna_d + buffered_count * maskna_stride)
          (wheremask_d + buffered_count * wheremask_stride)
    end
  else ret tt.

(** The body of the raw iteration: one innermost run. *)
Definition process_innermost
    (maskand_stransfer : PyArray_StridedBinaryOp)
    (stransfer : PyArray_MaskedStridedUnaryOp)
    (maskna_buffer : ptr) (maskna_itemsize src_itemsize : Z)
    (dst_stride src_stride maskna_stride wheremask_stride : Z)
    (count : Z) (dst_data src_data maskna_data wheremask_data : ptr)
    : M unit :=
  buffered_loop (Z.to_nat count) maskand_stransfer stransfer
    maskna_buffer maskna_itemsize src_itemsize
    dst_stride src_stride maskna_stride wheremask_stride
    count dst_data src_data maskna_data wheremask_data.

Definition raw_array_wheremasked_assign_array_preservena
    (ndim : nat) (shape : list Z)
    (dst_dtype : PyArray_Descr) (dst_data : ptr) (dst_strides : list Z)
    (src_dtype : PyArray_Descr) (src_data : ptr) (src_strides : list Z)
    (maskna_dtype : PyArray_Descr) (maskna_data : ptr)
    (maskna_strides : list Z)
    (wheremask_dtype : PyArray_Descr) (wheremask_data : ptr)
    (wheremask_strides : list Z) : M Z :=
  let src_itemsize := elsize src_dtype in
  let aligned :=
    raw_array_is_aligned env ndim dst_data dst_strides (alignment dst_dtype)
    && raw_array_is_aligned env ndim src_data src_strides
         (alignment src_dtype) in
  match PyArray_PrepareFourRawArrayIter env ndim shape
          dst_data dst_strides src_data src_strides
          maskna_data maskna_strides
          wheremask_data wheremask_strides with
  | None => ret (-1)
  | Some (ndim, shape_it, dst_data, dst_strides_it,
          src_data, src_strides_it,
          maskna_data, maskna_strides_it,
          wheremask_data, wheremask_strides_it) =>
    (* Allocate a buffer for inverting/anding the mask *)
    let maskna_itemsize := elsize maskna_dtype in
    maskna_buffer <-
      (fun s =>
         let size := Z.pos (NPY_ARRAY_ASSIGN_BUFFERSIZE env)
                     * maskna_itemsize in
         let p := PyArray_malloc env size s in
         (p, s, [Call_malloc size p])) ;;
    if maskna_buffer =? NULL then
      PyErr_Set PyExc_MemoryError ;;; ret (-1)
    else
    let reversed :=
      overlap_1d ndim shape_it dst_data src_data src_strides_it in
    let src_data' :=
      if reversed
      then src_data + (nth 0 shape_it 0 - 1) * nth 0 src_strides_it 0
      else src_data in
    let dst_data' :=
      if reversed
      then dst_data + (nth 0 shape_it 0 - 1) * nth 0 dst_strides_it 0
      else dst_data in
    let maskna_data' :=
      if reversed
      then maskna_data + (nth 0 shape_it 0 - 1) * nth 0 maskna_strides_it 0
      else maskna_data in
    let wheremask_data' :=
      if reversed
      then wheremask_data
           + (nth 0 shape_it 0 - 1) * nth 0 wheremask_strides_it 0
      else wheremask_data in
    let src_strides_it :=
      if reversed then negate0 src_strides_it else src_strides_it in
    let dst_strides_it :=
      if reversed then negate0 dst_strides_it else dst_strides_it in
    let maskna_strides_it :=
      if reversed then negate0 maskna_strides_it else maskna_strides_it in
    let wheremask_strides_it :=
      if reversed then negate0 wheremask_strides_it
      else wheremask_strides_it in
    (* Get the function to do the casting; the source stride handed over
       is [src_strides[0]], the caller's array, as the source has it *)
    t <- GetMaskedDTypeTransferFunction aligned
           (nth 0 src_strides 0) (nth 0 dst_strides_it 0) maskna_itemsize
           src_dtype dst_dtype maskna_dtype ;;
    match t with
    | None => emit (Call_free maskna_buffer) ;;; ret (-1)
    | Some (stransfer, needs_api) =>
      a <- GetMaskAndFunction
             (nth 0 maskna_strides_it 0) maskna_dtype
             (nth 0 wheremask_strides_it 0) wheremask_dtype ;;
      match a with
      | None => emit (Call_free maskna_buffer) ;;; ret (-1)
      | Some maskand_stransfer =>
        NPY_RAW_ITER (outer_dims ndim) shape_it
          [dst_strides_it; src_strides_it;
           maskna_strides_it; wheremask_strides_it]
          [dst_data'; src_data'; maskna_data'; wheremask_data']
          (fun data =>
             process_innermost maskand_stransfer stransfer
               maskna_buffer maskna_itemsize src_itemsize
               (nth 0 dst_strides_it 0) (nth 0 src_strides_it 0)
               (nth 0 maskna_strides_it 0) (nth 0 wheremask_strides_it 0)
               (nth 0 shape_it 0)
               (nth 0 data 0) (nth 1 data 0) (nth 2 data 0) (nth 3 data 0))
        ;;;
        emit (Call_free maskna_buffer) ;;;
        return_status needs_api
      end
    end
  end.

End Raw.

(** ** Broadcasting *)

(** Modelled from the spec: [broadcast_strides] (declared in shape.h /
    array_assign.h, defined outside this file).  The source view of
    [strides_ndim] dimensions is aligned to the right of the target shape of
    [ndim] dimensions; a size-1 dimension gets stride 0, a dimension absent
    on the left is treated as size 1 with stride 0, and a non-1 extent that
    differs from the corresponding target extent, or a source with more
    dimensions than the target, is a [ShapeMismatch]. *)
Definition broadcast_strides (ndim : nat) (shape : list Z)
    (strides_ndim : nat) (strides_shape strides : list Z)
    (strides_name : string) : M (option (list Z)) :=
  if (ndim <? strides_ndim)%nat then
    PyErr_Set (ShapeMismatch strides_name) ;;; ret None
  else
    let idim_start := (ndim - strides_ndim)%nat in
    if forallb
         (fun idim =>
            let v := nth (idim - idim_start) strides_shape 0 in
            (v =? 1) || (v =? nth idim shape 0))
         (seq idim_start strides_ndim)
    then
      ret (Some
        (map (fun idim =>
                if (idim <? idim_start)%nat then 0
                else if nth (idim - idim_start) strides_shape 0 =? 1 then 0
                else nth (idim - idim_start) strides 0)
             (seq 0 ndim)))
    else
      PyErr_Set (ShapeMismatch strides_name) ;;; ret None.

(** [while (ndim_tmp > PyArray_NDIM(dst) && src_shape_tmp[0] == 1)
      { --ndim_tmp; ++src_shape_tmp; ++src_strides_tmp; }] *)
Fixpoint strip_unit_dims (ndim_dst ndim_tmp : nat)
    (src_shape_tmp src_strides_tmp : list Z) : nat * list Z * list Z :=
  match ndim_tmp with
  | O => (ndim_tmp, src_shape_tmp, src_strides_tmp)
  | S ndim_tmp' =>
      if (ndim_dst <? ndim_tmp)%nat && (nth 0 src_shape_tmp 0 =? 1)
      then strip_unit_dims ndim_dst ndim_tmp'
             (tl src_shape_tmp) (tl src_strides_tmp)
      else (ndim_tmp, src_shape_tmp, src_strides_tmp)
  end.

(** Broadcast 'src' to 'dst' for raw iteration. *)
Definition broadcast_src (dst src : PyArrayObject) : M (option (list Z)) :=
  if (PyArray_NDIM dst <? PyArray_NDIM src)%nat then
    (* As a special case for backwards compatibility, strip away unit
       dimensions from the left of 'src' *)
    let '(ndim_tmp, src_shape_tmp, src_strides_tmp) :=
      strip_unit_dims (PyArray_NDIM dst) (PyArray_NDIM src)
        (PyArray_DIMS src) (PyArray_STRIDES src) in
    broadcast_strides (PyArray_NDIM dst) (PyArray_DIMS dst)
      ndim_tmp src_shape_tmp src_strides_tmp "input array"%string
  else
    broadcast_strides (PyArray_NDIM dst) (PyArray_DIMS dst)
      (PyArray_NDIM src) (PyArray_DIMS src) (PyArray_STRIDES src)
      "input array"%string.

(** Modelled from the spec: [PyArray_CompareLists] (common.h): the two lists
    agree on their first [n] entries. *)
Definition PyArray_CompareLists (l1 l2 : list Z) (n : nat) : bool :=
  forallb (fun i => nth i l1 0 =? nth i l2 0) (seq 0 n).

(** ** The orchestrator *)

(** The two labels every path past the early returns ends in. *)
Inductive label := finish | fail.

Section Orchestrator.

Variable env : Collaborators.

(** [if (call(...) < 0) goto fail;] *)
Definition check (call : M Z) (k : M label) : M label :=
  r <- call ;;
  if r <? 0 then ret fail else k.

(** [if (call(...)) goto fail;] *)
Definition check_nonzero (call : M Z) (k : M label) : M label :=
  r <- call ;;
  if negb (r =? 0) then ret fail else k.

Definition raise (e : PyErr) : M label := PyErr_Set e ;;; ret fail.

Definition ContainsNA (arr : PyArrayObject)
    (wheremask : option PyArrayObject) : M Z :=
  emit (Call_ContainsNA arr wheremask) ;;;
  ask (PyArray_ContainsNA env arr wheremask).

Definition AssignMaskNA (dst : PyArrayObject) (maskvalue : Z)
    (wheremask : option PyArrayObject) (preservena : bool)
    (preservewhichna : option (list bool)) : M Z :=
  emit (Call_AssignMaskNA dst wheremask) ;;;
  ask (PyArray_AssignMaskNA env dst maskvalue wheremask
         preservena preservewhichna).

(** The redundant-copy test of the performance fix. *)
Definition same_view (dst src : PyArrayObject) : bool :=
  (PyArray_DATA src =? PyArray_DATA dst) &&
  (PyArray_MASKNA_DATA src =? PyArray_MASKNA_DATA dst) &&
  (descr_addr (PyArray_DESCR src) =? descr_addr (PyArray_DESCR dst)) &&
  (PyArray_NDIM src =? PyArray_NDIM dst)%nat &&
  PyArray_CompareLists (PyArray_DIMS src) (PyArray_DIMS dst)
    (PyArray_NDIM src) &&
  PyArray_CompareLists (PyArray_STRIDES src) (PyArray_STRIDES dst)
    (PyArray_NDIM src).

(** The condition under which a temporary copy of 'src' is made. *)
Definition needs_temporary (dst src : PyArrayObject) : bool :=
  (((PyArray_NDIM dst =? 1)%nat && (1 <=? PyArray_NDIM src)%nat &&
    (nth 0 (PyArray_STRIDES dst) 0
     * nth (PyArray_NDIM src - 1) (PyArray_STRIDES src) 0 <? 0))
   || (1 <? PyArray_NDIM dst)%nat)
  && arrays_overlap env src dst.

(** The assignment proper, [wheremask == NULL] (lines 578-660).  On the
    path that keeps NA the source goes to the raw routine with
    [PyArray_STRIDES(src)], the strides it has of its own (line 654), not
    with [src_strides].  The routine reads [PyArray_NDIM(dst)] entries of
    the strides it is handed: the list stands for that array when the
    source has at least the destination's rank, and for a source of lower
    rank the C reads past the end of it, which the list does not
    describe. *)
Definition assign_unmasked (dst src : PyArrayObject)
    (dst_has_maskna src_has_maskna : bool)
    (preservena : bool) (preservewhichna : option (list bool))
    (src_strides src_maskna_strides : list Z) : M label :=
  if negb preservena || negb dst_has_maskna then
    (* A straightforward value assignment *)
    let values :=
      check (raw_array_assign_array env
               (PyArray_NDIM dst) (PyArray_DIMS dst)
               (PyArray_DESCR dst) (PyArray_DATA dst) (PyArray_STRIDES dst)
               (PyArray_DESCR src) (PyArray_DATA src) src_strides)
            (ret finish) in
    if dst_has_maskna then
      if src_has_maskna then
        (* Assign the NA mask *)
        check (raw_array_assign_array env
                 (PyArray_NDIM dst) (PyArray_DIMS dst)
                 (PyArray_MASKNA_DTYPE dst) (PyArray_MASKNA_DATA dst)
                 (PyArray_MASKNA_STRIDES dst)
                 (PyArray_MASKNA_DTYPE src) (PyArray_MASKNA_DATA src)
                 src_maskna_strides)
        (* Assign the values based on the 'src' NA mask *)
        (check (raw_array_wheremasked_assign_array env
                  (PyArray_NDIM dst) (PyArray_DIMS dst)
                  (PyArray_DESCR dst) (PyArray_DATA dst)
                  (PyArray_STRIDES dst)
                  (PyArray_DESCR src) (PyArray_DATA src) src_strides
                  (PyArray_MASKNA_DTYPE src) (PyArray_MASKNA_DATA src)
                  src_maskna_strides)
         (ret finish))
      else
        check (AssignMaskNA dst 1 None preservena preservewhichna) values
    else values
  else
    (* A value assignment without overwriting NA values *)
    let values :=
      check (raw_array_wheremasked_assign_array env
               (PyArray_NDIM dst) (PyArray_DIMS dst)
               (PyArray_DESCR dst) (PyArray_DATA dst) (PyArray_STRIDES dst)
               (PyArray_DESCR src) (PyArray_DATA src) (PyArray_STRIDES src)
               (PyArray_MASKNA_DTYPE dst) (PyArray_MASKNA_DATA dst)
               (PyArray_MASKNA_STRIDES dst))
            (ret finish) in
    if src_has_maskna then
      (* Assign the NA mask, wheremasked with the 'dst' NA mask *)
      check (raw_array_wheremasked_assign_array env
               (PyArray_NDIM dst) (PyArray_DIMS dst)
               (PyArray_MASKNA_DTYPE dst) (PyArray_MASKNA_DATA dst)
               (PyArray_MASKNA_STRIDES dst)
               (PyArray_MASKNA_DTYPE src) (PyArray_MASKNA_DATA src)
               src_maskna_strides
               (PyArray_MASKNA_DTYPE dst) (PyArray_MASKNA_DATA dst)
               (PyArray_MASKNA_STRIDES dst))
            values
    else values.

(** The assignment proper, [wheremask != NULL] (lines 661-798).  On the
    path that keeps NA the source goes to the raw routine with
    [PyArray_STRIDES(src)] (line 790), read as at line 654: the list
    stands for the array when the source has at least the destination's
    rank. *)
Definition assign_wheremasked (dst src wheremask : PyArrayObject)
    (dst_has_maskna src_has_maskna : bool)
    (preservena : bool) (preservewhichna : option (list bool))
    (src_strides src_maskna_strides : list Z) : M label :=
  containsna <- ContainsNA wheremask None ;;
  if containsna =? -1 then ret fail
  else if negb (containsna =? 0) then
    if negb dst_has_maskna then raise UnsupportedNA
    else raise UnsupportedNA_wheremask
  else
  (* Broadcast the wheremask to 'dst' for raw iteration *)
  b <- broadcast_strides (PyArray_NDIM dst) (PyArray_DIMS dst)
         (PyArray_NDIM wheremask) (PyArray_DIMS wheremask)
         (PyArray_STRIDES wheremask) "where mask"%string ;;
  match b with
  | None => ret fail
  | Some wheremask_strides =>
    if negb preservena || negb dst_has_maskna then
      (* A straightforward where-masked assignment *)
      let values :=
        check (raw_array_wheremasked_assign_array env
                 (PyArray_NDIM dst) (PyArray_DIMS dst)
                 (PyArray_DESCR dst) (PyArray_DATA dst) (PyArray_STRIDES dst)
                 (PyArray_DESCR src) (PyArray_DATA src) src_strides
                 (PyArray_DESCR wheremask) (PyArray_DATA wheremask)
                 wheremask_strides)
              (ret finish) in
      if dst_has_maskna then
        if src_has_maskna then
          (* Assign the NA mask *)
          check (raw_array_wheremasked_assign_array env
                   (PyArray_NDIM dst) (PyArray_DIMS dst)
                   (PyArray_MASKNA_DTYPE dst) (PyArray_MASKNA_DATA dst)
                   (PyArray_MASKNA_STRIDES dst)
                   (PyArray_MASKNA_DTYPE src) (PyArray_MASKNA_DATA src)
                   src_maskna_strides
                   (PyArray_DESCR wheremask) (PyArray_DATA wheremask)
                   wheremask_strides)
          (* Assign the values based on the wheremask, not overwriting
             values also masked by the 'src' NA mask *)
          (check_nonzero
             (raw_array_wheremasked_assign_array_preservena env
                (PyArray_NDIM dst) (PyArray_DIMS dst)
                (PyArray_DESCR dst) (PyArray_DATA dst) (PyArray_STRIDES dst)
                (PyArray_DESCR src) (PyArray_DATA src) src_strides
                (PyArray_MASKNA_DTYPE src) (PyArray_MASKNA_DATA src)
                src_maskna_strides
                (PyArray_DESCR wheremask) (PyArray_DATA wheremask)
                wheremask_strides)
             (ret finish))
        else
          check (AssignMaskNA dst 1 (Some wheremask)
                   preservena preservewhichna) values
      else values
    else
      (* A masked value assignment without overwriting NA values *)
      let values :=
        check (raw_array_wheremasked_assign_array_preservena env
                 (PyArray_NDIM dst) (PyArray_DIMS dst)
                 (PyArray_DESCR dst) (PyArray_DATA dst) (PyArray_STRIDES dst)
                 (PyArray_DESCR src) (PyArray_DATA src) (PyArray_STRIDES src)
                 (PyArray_MASKNA_DTYPE dst) (PyArray_MASKNA_DATA dst)
                 (PyArray_MASKNA_STRIDES dst)
                 (PyArray_DESCR wheremask) (PyArray_DATA wheremask)
                 wheremask_strides)
              (ret finish) in
      if src_has_maskna then
        (* Assign the NA mask, wheremasked with the 'dst' NA mask and the
           parameter 'wheremask' *)
        check (raw_array_wheremasked_assign_array_preservena env
                 (PyArray_NDIM dst) (PyArray_DIMS dst)
                 (PyArray_MASKNA_DTYPE dst) (PyArray_MASKNA_DATA dst)
                 (PyArray_MASKNA_STRIDES dst)
                 (PyArray_MASKNA_DTYPE src) (PyArray_MASKNA_DATA src)
                 src_maskna_strides
                 (PyArray_MASKNA_DTYPE dst) (PyArray_MASKNA_DATA dst)
                 (PyArray_MASKNA_STRIDES dst)
                 (PyArray_DESCR wheremask) (PyArray_DATA wheremask)
                 wheremask_strides)
              values
      else values
  end.

(** Everything after the overlap resolution: broadcasting, then the
    assignment proper (lines 538-798).  [src] is the array the rest of the
    call reads: the caller's, or the temporary copy. *)
Definition assign_broadcast (dst src : PyArrayObject)
    (wheremask : option PyArrayObject)
    (dst_has_maskna src_has_maskna : bool)
    (preservena : bool) (preservewhichna : option (list bool)) : M label :=
  b <- broadcast_src dst src ;;
  match b with
  | None => ret fail
  | Some src_strides =>
    bm <- (if src_has_maskna
           then broadcast_strides (PyArray_NDIM dst) (PyArray_DIMS dst)
                  (PyArray_NDIM src) (PyArray_DIMS src)
                  (PyArray_MASKNA_STRIDES src) "input array"%string
           else ret (Some [])) ;;
    match bm with
    | None => ret fail
    | Some src_maskna_strides =>
      match wheremask with
      | None =>
          assign_unmasked dst src dst_has_maskna src_has_maskna
            preservena preservewhichna src_strides src_maskna_strides
      | Some wheremask =>
          assign_wheremasked dst src wheremask dst_has_maskna src_has_maskna
            preservena preservewhichna src_strides src_maskna_strides
      end
    end
  end.

(** [finish:] and [fail:]. *)
Definition cleanup (copied_src : bool) (src : PyArrayObject) (l : label)
    : M Z :=
  (if copied_src then emit (Call_Py_DECREF src) else ret tt) ;;;
  ret (match l with finish => 0 | fail => -1 end).

(** The checks between the redundant-copy test and the overlap resolution
    (lines 452-497).  The answer is the value of [src_has_maskna] the rest
    of the call uses, or the label of the [goto]. *)
Definition assign_checks (dst src : PyArrayObject)
    (wheremask : option PyArrayObject) (casting : NPY_CASTING)
    (preservewhichna : option (list bool)) : M (bool + label) :=
  let dst_has_maskna := PyArray_HASMASKNA dst in
  let src_has_maskna := PyArray_HASMASKNA src in
  (* Check that 'dst' is writeable *)
  if negb (PyArray_ISWRITEABLE dst) then
    PyErr_Set ReadOnlyTarget ;;; ret (inr fail)
  (* Check the casting rule *)
  else if negb (PyArray_CanCastTypeTo env (PyArray_DESCR src)
                  (PyArray_DESCR dst) casting) then
    PyErr_Set (UnsafeCast (PyArray_DESCR src) (PyArray_DESCR dst) casting) ;;;
    ret (inr fail)
  else if match preservewhichna with Some _ => true | None => false end then
    PyErr_Set NotImplemented ;;; ret (inr fail)
  else if src_has_maskna && negb dst_has_maskna then
    containsna <- ContainsNA src wheremask ;;
    if containsna =? -1 then ret (inr fail)
    else if negb (containsna =? 0) then
      PyErr_Set UnsupportedNA ;;; ret (inr fail)
    else ret (inl false)
  else ret (inl src_has_maskna).

(** [PyArray_AssignArray].  The function calls itself to fill the temporary
    copy; [depth] bounds that nesting, and [None] is the answer of a call
    that would nest deeper. *)
Fixpoint PyArray_AssignArray (depth : nat) (dst src : PyArrayObject)
    (wheremask : option PyArrayObject) (casting : NPY_CASTING)
    (preservena : bool) (preservewhichna : option (list bool))
    {struct depth} : M (option Z) :=
  let dst_has_maskna := PyArray_HASMASKNA dst in
  (* Use array_assign_scalar if 'src' NDIM is 0 *)
  if (PyArray_NDIM src =? 0)%nat then
    let scalar :=
      emit (Call_AssignRawScalar dst) ;;;
      r <- ask (PyArray_AssignRawScalar env dst (PyArray_DESCR src)
                  (PyArray_DATA src) wheremask casting
                  preservena preservewhichna) ;;
      ret (Some r) in
    (* If the array is masked, assign to the NA mask *)
    if PyArray_HASMASKNA src then
      na <- ask (NpyNA_FromObject env src) ;;
      match na with
      | Some na =>
          emit (Call_AssignNA dst) ;;;
          retcode <- ask (PyArray_AssignNA env dst na wheremask
                            preservena preservewhichna) ;;
          ret (Some retcode)
      | None => scalar
      end
    else scalar
  else if same_view dst src then
    ret (Some 0)
  else
    c <- assign_checks dst src wheremask casting preservewhichna ;;
    match c with
    | inr l => r <- cleanup false src l ;; ret (Some r)
    | inl src_has_maskna =>
      if needs_temporary dst src then
        (* Allocate a temporary copy array. *)
        tmp <- ask (PyArray_NewLikeArray env dst) ;;
        emit (Call_NewLikeArray dst tmp) ;;;
        match tmp with
        | None => r <- cleanup false src fail ;; ret (Some r)
        | Some tmp =>
          (* Make the temporary copy have an NA mask if necessary *)
          masked <-
            (if PyArray_HASMASKNA src then
               m <- ask (PyArray_AllocateMaskNA env tmp) ;;
               emit (Call_AllocateMaskNA tmp
                       (match m with Some _ => true | None => false end)) ;;;
               ret m
             else ret (Some tmp)) ;;
          match masked with
          | None =>
              emit (Call_Py_DECREF tmp) ;;;
              r <- cleanup false src fail ;; ret (Some r)
          | Some tmp =>
            emit (Call_AssignArray tmp src None NPY_UNSAFE_CASTING
                    false None) ;;;
            copy <-
              match depth with
              | O => ret None
              | S depth' =>
                  PyArray_AssignArray depth' tmp src None
                    NPY_UNSAFE_CASTING false None
              end ;;
            match copy with
            | None => ret None
            | Some retcode =>
              emit (Return_AssignArray retcode) ;;;
              if retcode <? 0 then
                emit (Call_Py_DECREF tmp) ;;;
                r <- cleanup false src fail ;; ret (Some r)
              else
                (* src = tmp; copied_src = 1; *)
                l <- assign_broadcast dst tmp wheremask
                       dst_has_maskna src_has_maskna
                       preservena preservewhichna ;;
                r <- cleanup true tmp l ;; ret (Some r)
            end
          end
        end
      else
        l <- assign_broadcast dst src wheremask
               dst_has_maskna src_has_maskna preservena preservewhichna ;;
        r <- cleanup false src l ;; ret (Some r)
    end.

End Orchestrator.

(** ** The transfer callables of the specification

    The resolvers of lowlevel_strided_loops.h hand back opaque callables.
    The definitions below follow the specification's contract for them and
    are what the examples run. *)

Definition load (m : memory) (p : ptr) (n : Z) : list Z :=
  map (fun j => m (p + Z.of_nat j)) (seq 0 (Z.to_nat n)).

Definition store (m : memory) (p : ptr) (n : Z) (bytes : list Z) : memory :=
  fun a =>
    if (p <=? a) && (a <? p + n)
    then nth (Z.to_nat (a - p)) bytes 0
    else m a.

(** C truth of a mask byte: the where-mask is boolean valued, and an NA-mask
    byte is the exposure flag ([false] means the element is NA). *)
Definition mask_true (b : Z) : bool := negb (b =? 0).

Section Transfer.

(** The conversion of one element: source bytes to destination bytes. *)
Variable cast : list Z -> list Z.
Variable dst_itemsize : Z.

(** Modelled from the spec: the unmasked strided transfer callable, which
    casts and copies a run of [N] elements, one after the other, advancing
    both pointers by their strides. *)
Fixpoint strided_loop (N : nat) (dst : ptr) (dst_stride : Z)
    (src : ptr) (src_stride : Z) (src_itemsize : Z) (m : memory) : memory :=
  match N with
  | O => m
  | S N' =>
      strided_loop N' (dst + dst_stride) dst_stride
        (src + src_stride) src_stride src_itemsize
        (store m dst dst_itemsize (cast (load m src src_itemsize)))
  end.

Definition strided_transfer : PyArray_StridedUnaryOp :=
  fun dst dst_stride src src_stride N src_itemsize s =>
    mkState (strided_loop (Z.to_nat N) dst dst_stride src src_stride
               src_itemsize (st_mem s))
            (st_err s).

(** Modelled from the spec: the masked strided transfer callable; elements
    where the mask is false are left untouched in the destination. *)
Fixpoint masked_strided_loop (N : nat) (dst : ptr) (dst_stride : Z)
    (src : ptr) (src_stride : Z) (mask : ptr) (mask_stride : Z)
    (src_itemsize : Z) (m : memory) : memory :=
  match N with
  | O => m
  | S N' =>
      masked_strided_loop N' (dst + dst_stride) dst_stride
        (src + src_stride) src_stride (mask + mask_stride) mask_stride
        src_itemsize
        (if mask_true (m mask)
         then store m dst dst_itemsize (cast (load m src src_itemsize))
         else m)
  end.

Definition masked_strided_transfer : PyArray_MaskedStridedUnaryOp :=
  fun dst dst_stride src src_stride mask mask_stride N src_itemsize s =>
    mkState (masked_strided_loop (Z.to_nat N) dst dst_stride src src_stride
               mask mask_stride src_itemsize (st_mem s))
            (st_err s).

End Transfer.

(** Modelled from the spec: the mask combination callable, which writes the
    AND of the exposure flag and the where-mask, one byte per element. *)
Fixpoint maskand_loop (N : nat) (dst : ptr) (dst_stride : Z)
    (src0 : ptr) (src0_stride : Z) (src1 : ptr) (src1_stride : Z)
    (m : memory) : memory :=
  match N with
  | O => m
  | S N' =>
      maskand_loop N' (dst + dst_stride) dst_stride
        (src0 + src0_stride) src0_stride (src1 + src1_stride) src1_stride
        (store m dst 1
           [if mask_true (m src0) && mask_true (m src1) then 1 else 0])
  end.

Definition maskand_transfer : PyArray_StridedBinaryOp :=
  fun dst dst_stride src0 src0_stride src1 src1_stride N s =>
    mkState (maskand_loop (Z.to_nat N) dst dst_stride src0 src0_stride
               src1 src1_stride (st_mem s))
            (st_err s).

(** ** A concrete set of collaborators

    The collaborators the examples run with: same-size elements copied byte
    for byte by callables that never need the API, a preparer that neither
    merges nor reorders dimensions, and a scratch buffer at a fixed
    address. *)

(** Modelled from the spec: [PyArray_PrepareTwoRawArrayIter],
    [PyArray_PrepareThreeRawArrayIter] and [PyArray_PrepareFourRawArrayIter]
    (lowlevel_strided_loops.h), which emit the canonical dimension count,
    shape and per-array strides.  Merging and reordering dimensions is an
    optimisation; this preparer hands the arrays back as they are, a 0-d
    iteration as one run of one element. *)
Definition prepare_two (ndim : nat) (shape : list Z)
    (dataA : ptr) (stridesA : list Z) (dataB : ptr) (stridesB : list Z)
    : option prepared2 :=
  match ndim with
  | O => Some (1%nat, [1], dataA, [0], dataB, [0])
  | _ => Some (ndim, shape, dataA, stridesA, dataB, stridesB)
  end.

Definition prepare_three (ndim : nat) (shape : list Z)
    (dataA : ptr) (stridesA : list Z) (dataB : ptr) (stridesB : list Z)
    (dataC : ptr) (stridesC : list Z) : option prepared3 :=
  match ndim with
  | O => Some (1%nat, [1], dataA, [0], dataB, [0], dataC, [0])
  | _ => Some (ndim, shape, dataA, stridesA, dataB, stridesB,
               dataC, stridesC)
  end.

Definition prepare_four (ndim : nat) (shape : list Z)
    (dataA : ptr) (stridesA : list Z) (dataB : ptr) (stridesB : list Z)
    (dataC : ptr) (stridesC : list Z) (dataD : ptr) (stridesD : list Z)
    : option prepared4 :=
  match ndim with
  | O => Some (1%nat, [1], dataA, [0], dataB, [0], dataC, [0], dataD, [0])
  | _ => Some (ndim, shape, dataA, stridesA, dataB, stridesB,
               dataC, stridesC, dataD, stridesD)
  end.

(** Modelled from the spec: the elements of an array view, as the
    coordinate vectors of its shape and the byte offset of each under the
    view's strides. *)
Fixpoint coords (ndim : nat) (shape : list Z) : list (list Z) :=
  match ndim with
  | O => [[]]
  | S n =>
      flat_map
        (fun c => map (cons (Z.of_nat c)) (coords n (tl shape)))
        (seq 0 (Z.to_nat (nth 0 shape 0)))
  end.

Fixpoint offset (coord strides : list Z) : Z :=
  match coord, strides with
  | c :: coord', s :: strides' => c * s + offset coord' strides'
  | _, _ => 0
  end.

(** Modelled from the spec: [PyArray_ContainsNA] (na_mask.h), the scan of an
    array, restricted by the where-mask when there is one, for any NA
    element: 1 when one is found, 0 when none is, -1 when the where-mask
    cannot be broadcast to the array. *)
Definition contains_na (arr : PyArrayObject)
    (wheremask : option PyArrayObject) (s : state) : Z * state :=
  if negb (PyArray_HASMASKNA arr) then (0, s)
  else
    let is_na coord :=
      negb (mask_true (st_mem s (PyArray_MASKNA_DATA arr
                                 + offset coord (PyArray_MASKNA_STRIDES arr))))
    in
    match wheremask with
    | None =>
        (if existsb is_na (coords (PyArray_NDIM arr) (PyArray_DIMS arr))
         then 1 else 0, s)
    | Some wheremask =>
        match broadcast_strides (PyArray_NDIM arr) (PyArray_DIMS arr)
                (PyArray_NDIM wheremask) (PyArray_DIMS wheremask)
                (PyArray_STRIDES wheremask) "where mask"%string s with
        | (None, s', _) => (-1, s')
        | (Some wheremask_strides, s', _) =>
            (if existsb
                  (fun coord =>
                     mask_true (st_mem s (PyArray_DATA wheremask
                                          + offset coord wheremask_strides))
                     && is_na coord)
                  (coords (PyArray_NDIM arr) (PyArray_DIMS arr))
             then 1 else 0, s')
        end
    end.

(** Modelled from the spec: the memory footprint of a view, from the
    lowest to the highest byte it can reach. *)
Fixpoint reach (pick : Z -> Z -> Z) (shape strides : list Z) : Z :=
  match shape, strides with
  | n :: shape', s :: strides' =>
      pick 0 ((n - 1) * s) + reach pick shape' strides'
  | _, _ => 0
  end.

Definition footprint_start (arr : PyArrayObject) : Z :=
  PyArray_DATA arr + reach Z.min (PyArray_DIMS arr) (PyArray_STRIDES arr).
Definition footprint_end (arr : PyArrayObject) : Z :=
  PyArray_DATA arr + reach Z.max (PyArray_DIMS arr) (PyArray_STRIDES arr)
  + elsize (PyArray_DESCR arr).

(** Modelled from the spec: [arrays_overlap] (common.h): the memory
    footprints of the two views intersect. *)
Definition footprints_overlap (arr1 arr2 : PyArrayObject) : bool :=
  (footprint_start arr1 <? footprint_end arr2) &&
  (footprint_start arr2 <? footprint_end arr1).

(** C-order strides of a shape. *)
Fixpoint contiguous_strides (shape : list Z) (itemsize : Z) : list Z :=
  match shape with
  | [] => []
  | _ :: shape' =>
      fold_right Z.mul itemsize shape'
      :: contiguous_strides shape' itemsize
  end.

Definition bool_ : PyArray_Descr := mkDescr 101 1 1.

(** Modelled from the spec: [PyArray_NewLikeArray]: a new array like the
    prototype, in C order at address [fresh], without NA mask. *)
Definition new_like (fresh : ptr) (prototype : PyArrayObject)
    : PyArrayObject :=
  mkArray fresh (PyArray_NDIM prototype) (PyArray_DIMS prototype)
    (contiguous_strides (PyArray_DIMS prototype)
       (elsize (PyArray_DESCR prototype)))
    (PyArray_DESCR prototype) true false bool_ NULL [].

(** Modelled from the spec: [PyArray_AllocateMaskNA]: the array with an NA
    mask of its own at address [fresh]. *)
Definition with_maskna (fresh : ptr) (arr : PyArrayObject) : PyArrayObject :=
  mkArray (PyArray_DATA arr) (PyArray_NDIM arr) (PyArray_DIMS arr)
    (PyArray_STRIDES arr) (PyArray_DESCR arr) (PyArray_ISWRITEABLE arr)
    true bool_ fresh (contiguous_strides (PyArray_DIMS arr) 1).

Definition copy_collaborators (scratch : ptr) (buffersize : positive)
    : Collaborators :=
  {| raw_array_is_aligned := fun _ _ _ _ => true;
     PyArray_PrepareTwoRawArrayIter := prepare_two;
     PyArray_PrepareThreeRawArrayIter := prepare_three;
     PyArray_PrepareFourRawArrayIter := prepare_four;
     PyArray_GetDTypeTransferFunction :=
       fun _ _ _ _ dst_dtype =>
         Some (strided_transfer (fun b => b) (elsize dst_dtype), false);
     PyArray_GetMaskedDTypeTransferFunction :=
       fun _ _ _ _ _ dst_dtype _ =>
         Some (masked_strided_transfer (fun b => b) (elsize dst_dtype),
               false);
     PyArray_GetMaskAndFunction :=
       fun _ _ _ _ => Some maskand_transfer;
     PyArray_malloc := fun _ _ => scratch;
     NpyNA_FromObject := fun _ s => (None, s);
     PyArray_AssignNA := fun _ _ _ _ _ s => (0, s);
     PyArray_AssignRawScalar := fun _ _ _ _ _ _ _ s => (0, s);
     PyArray_CanCastTypeTo := fun _ _ _ => true;
     PyArray_ContainsNA := contains_na;
     arrays_overlap := footprints_overlap;
     PyArray_NewLikeArray := fun prototype s =>
       (Some (new_like (scratch + 1000) prototype), s);
     PyArray_AllocateMaskNA := fun arr s =>
       (Some (with_maskna (scratch + 2000) arr), s);
     PyArray_AssignMaskNA := fun _ _ _ _ _ s => (0, s);
     NPY_ARRAY_ASSIGN_BUFFERSIZE := buffersize |}.

Definition int8 : PyArray_Descr := mkDescr 100 1 1.
(** [np.arange(n, dtype=int8)] laid out from address 0 (the rest is 0). *)
Definition arange_mem : memory := fun a => a.
Definition arange_state : state := mkState arange_mem None.


(** A writeable [int8] view without NA mask. *)
Definition view (data : ptr) (shape strides : list Z) : PyArrayObject :=
  mkArray data (List.length shape) shape strides int8 true false bool_ NULL [].

(** The same view, read-only. *)
Definition readonly (arr : PyArrayObject) : PyArrayObject :=
  mkArray (PyArray_DATA arr) (PyArray_NDIM arr) (PyArray_DIMS arr)
    (PyArray_STRIDES arr) (PyArray_DESCR arr) false
    (PyArray_HASMASKNA arr) (PyArray_MASKNA_DTYPE arr)
    (PyArray_MASKNA_DATA arr) (PyArray_MASKNA_STRIDES arr).

(** The view with the NA mask stored at [maskna_data]. *)
Definition masked (maskna_data : ptr) (maskna_strides : list Z)
    (arr : PyArrayObject) : PyArrayObject :=
  mkArray (PyArray_DATA arr) (PyArray_NDIM arr) (PyArray_DIMS arr)
    (PyArray_STRIDES arr) (PyArray_DESCR arr) (PyArray_ISWRITEABLE arr)
    true bool_ maskna_data maskna_strides.

Definition numpy : Collaborators := copy_collaborators 1000 8192.

(** ** Notions used in the statements *)

(** Every call a computation records satisfies [P]. *)
Definition emits {A} (P : event -> Prop) (m : M A) : Prop :=
  forall s, Forall P (log_of (m s)).

(** The strides the unmasked transfer loop runs with. *)
Definition uses_strides (dst_stride src_stride : Z) (e : event) : Prop :=
  exists dst src N src_itemsize,
    e = Call_stransfer dst dst_stride src src_stride N src_itemsize.

(** The strides the masked transfer loop runs with. *)
Definition uses_masked_strides (dst_stride src_stride mask_stride : Z)
    (e : event) : Prop :=
  exists dst src mask N src_itemsize,
    e = Call_masked_stransfer dst dst_stride src src_stride
          mask mask_stride N src_itemsize.

(** The chunking the specification describes, for a run of [count]
    elements and a buffer of [B]: chunk [k] starts [k * B] elements into
    the run and has the minimum of what remains and [B] elements; there is
    one chunk even for an empty run. *)
Definition chunk_count (B count : Z) : nat :=
  Z.to_nat (Z.max 1 ((count + B - 1) / B)).

Definition chunk_size (B count : Z) (k : nat) : Z :=
  Z.min (count - Z.of_nat k * B) B.

(** The two calls of chunk [k]: the mask combination into the scratch
    buffer, then the transfer under the buffered mask. *)
Definition chunk_calls (B : Z)
    (maskna_buffer : ptr) (maskna_itemsize src_itemsize : Z)
    (dst_stride src_stride maskna_stride wheremask_stride : Z)
    (count : Z) (dst src maskna wheremask : ptr) (k : nat) : list event :=
  let start := Z.of_nat k * B in
  [Call_maskand_stransfer maskna_buffer maskna_itemsize
     (maskna + start * maskna_stride) maskna_stride
     (wheremask + start * wheremask_stride) wheremask_stride
     (chunk_size B count k);
   Call_masked_stransfer
     (dst + start * dst_stride) dst_stride
     (src + start * src_stride) src_stride
     maskna_buffer maskna_itemsize (chunk_size B count k) src_itemsize].

Definition retcode_of (l : label) : Z :=
  match l with finish => 0 | fail => -1 end.

(** What a call does once it has decided to copy the source: the outcomes
    of the request for the temporary, of the request for its NA mask, of
    the nested assignment (made with [depth] levels to spare) and of the
    rest of the call, each with the value returned and the calls made.
    [s1] is the state after the checks. *)
Inductive temporary_copy (env : Collaborators) (depth : nat)
    (dst src : PyArrayObject) (wheremask : option PyArrayObject)
    (src_has_maskna preservena : bool) (s1 : state)
    : option Z * state * list event -> Prop :=
| no_temporary s2 :
    PyArray_NewLikeArray env dst s1 = (None, s2) ->
    temporary_copy env depth dst src wheremask src_has_maskna preservena s1
      (Some (-1), s2, [Call_NewLikeArray dst None])
| no_maskna tmp s2 s3 :
    PyArray_NewLikeArray env dst s1 = (Some tmp, s2) ->
    PyArray_HASMASKNA src = true ->
    PyArray_AllocateMaskNA env tmp s2 = (None, s3) ->
    temporary_copy env depth dst src wheremask src_has_maskna preservena s1
      (Some (-1), s3,
       [Call_NewLikeArray dst (Some tmp); Call_AllocateMaskNA tmp false;
        Call_Py_DECREF tmp])
| copied tmp0 s2 tmp s3 mask_calls retcode s4 copy_calls l s5 rest_calls :
    PyArray_NewLikeArray env dst s1 = (Some tmp0, s2) ->
    (if PyArray_HASMASKNA src
     then PyArray_AllocateMaskNA env tmp0 s2 = (Some tmp, s3) /\
          mask_calls = [Call_AllocateMaskNA tmp0 true]
     else tmp = tmp0 /\ s3 = s2 /\ mask_calls = []) ->
    PyArray_AssignArray env depth tmp src None NPY_UNSAFE_CASTING false None
      s3 = (Some retcode, s4, copy_calls) ->
    (if retcode <? 0
     then l = fail /\ s5 = s4 /\ rest_calls = []
     else assign_broadcast env dst tmp wheremask (PyArray_HASMASKNA dst)
            src_has_maskna preservena None s4 = (l, s5, rest_calls)) ->
    temporary_copy env depth dst src wheremask src_has_maskna preservena s1
      (Some (retcode_of l), s5,
       Call_NewLikeArray dst (Some tmp0) :: mask_calls
       ++ Call_AssignArray tmp src None NPY_UNSAFE_CASTING false None
          :: copy_calls
       ++ Return_AssignArray retcode :: rest_calls
       ++ [Call_Py_DECREF tmp])
| nested_deeper tmp0 s2 tmp s3 mask_calls s4 copy_calls :
    PyArray_NewLikeArray env dst s1 = (Some tmp0, s2) ->
    (if PyArray_HASMASKNA src
     then PyArray_AllocateMaskNA env tmp0 s2 = (Some tmp, s3) /\
          mask_calls = [Call_AllocateMaskNA tmp0 true]
     else tmp = tmp0 /\ s3 = s2 /\ mask_calls = []) ->
    PyArray_AssignArray env depth tmp src None NPY_UNSAFE_CASTING false None
      s3 = (None, s4, copy_calls) ->
    temporary_copy env depth dst src wheremask src_has_maskna preservena s1
      (None, s4,
       Call_NewLikeArray dst (Some tmp0) :: mask_calls
       ++ Call_AssignArray tmp src None NPY_UNSAFE_CASTING false None
          :: copy_calls).

(** Address [a] is one of the [size] bytes of the element at [p]. *)
Definition in_element (p : ptr) (size : Z) (a : Z) : Prop :=
  p <= a < p + size.

(** The contract of a masked transfer callable for destination elements of
    [dst_itemsize] bytes: on a run in which no mask byte is stored in the
    destination element of another position, a byte that belongs to no
    destination element with a true mask keeps its value. *)
Definition masked_frame (dst_itemsize : Z)
    (stransfer : PyArray_MaskedStridedUnaryOp) : Prop :=
  forall dst dst_stride src src_stride mask mask_stride N src_itemsize s a,
    (forall i j, 0 <= i < N -> 0 <= j < N -> i <> j ->
       ~ in_element (dst + i * dst_stride) dst_itemsize
           (mask + j * mask_stride)) ->
    (forall i, 0 <= i < N ->
       in_element (dst + i * dst_stride) dst_itemsize a ->
       mask_true (st_mem s (mask + i * mask_stride)) = false) ->
    st_mem (stransfer dst dst_stride src src_stride mask mask_stride
              N src_itemsize s) a
    = st_mem s a.

(** The byte offset of the outer coordinates [cs], one for each dimension
    of [idims], under [strides]. *)
Fixpoint outer_offset (idims : list nat) (cs : list Z) (strides : list Z)
    : Z :=
  match idims, cs with
  | idim :: idims', c :: cs' =>
      c * nth idim strides 0 + outer_offset idims' cs' strides
  | _, _ => 0
  end.

(** Every coordinate is within its dimension's extent. *)
Definition in_range (shape : list Z) (idims : list nat) (cs : list Z)
    : Prop :=
  Forall2 (fun idim c => 0 <= c < nth idim shape 0) idims cs.

(** The pointers the body is run with: each array's start pointer moved
    by the offset of the outer coordinates under its own strides. *)
Definition at_coords (idims : list nat) (cs : list Z)
    (strides : list (list Z)) (data d : list ptr) : Prop :=
  forall k, nth k d 0 = nth k data 0 + outer_offset idims cs (nth k strides []).

(** ** States and views of the examples *)

(** A source of four elements whose second element is NA. *)
Definition one_na_state : state :=
  mkState (store arange_mem 16 4 [1; 0; 1; 1]) None.

Definition one_na_src : PyArrayObject := masked 16 [1] (view 0 [4] [1]).

(** All four arrays four elements long, the masks all true. *)
Definition masks_state : state :=
  mkState (store (store (store arange_mem 16 4 [1; 1; 1; 1])
                    20 4 [1; 1; 1; 1]) 24 4 [1; 1; 1; 1]) None.

(** Four elements copied from address 0 to address 32 under the where-mask
    [1; 0; 1; 1] stored at address 24. *)
Definition wheremask_state : state :=
  mkState (store arange_mem 24 4 [1; 0; 1; 1]) None.

(** ** Notions used in the further properties *)

Definition uses_scratch (p : ptr) (itemsize B : Z) (e : event) : Prop :=
  match e with
  | Call_maskand_stransfer dst dst_stride _ _ _ _ N =>
      dst = p /\ dst_stride = itemsize /\ N <= B
  | Call_masked_stransfer _ _ _ _ mask mask_stride N _ =>
      mask = p /\ mask_stride = itemsize /\ N <= B
  | Call_malloc _ _ | Call_free _ => False
  | _ => True
  end.


Definition is_some {A} (o : option A) : bool :=
  match o with Some _ => true | None => false end.

(** The outer coordinates in the order the raw iteration takes them: one
    coordinate for each dimension of [idims], the last dimension of [idims]
    varying fastest. *)
Fixpoint iter_coords (idims : list nat) (shape : list Z) : list (list Z) :=
  match idims with
  | [] => [[]]
  | idim :: rest =>
      flat_map (fun c => map (cons (Z.of_nat c)) (iter_coords rest shape))
        (seq 0 (Z.to_nat (nth idim shape 0)))
  end.

(** The data pointers of the step at outer coordinates [cs]. *)
Definition offset_data (idims : list nat) (cs : list Z)
    (strides : list (list Z)) (data : list ptr) : list ptr :=
  map (fun ps => fst ps + outer_offset idims cs (snd ps))
    (combine data strides).

(** One element of a transfer: the address it is written at, the address it
    is read from, and the mask bytes that guard it (none in an unmasked
    transfer, the where-mask byte in a masked one, the NA-mask byte and the
    where-mask byte in one that preserves NA). *)
Record element := mkElement {
  el_dst : ptr;
  el_src : ptr;
  el_masks : list ptr
}.

Definition guard (m : memory) (masks : list ptr) : bool :=
  forallb (fun k => mask_true (m k)) masks.

(** The transfer of one element: read, convert and write, when its guard
    is true. *)
Definition assign_element (cast : list Z -> list Z)
    (dst_itemsize src_itemsize : Z) (m : memory) (e : element) : memory :=
  if guard m (el_masks e)
  then store m (el_dst e) dst_itemsize
         (cast (load m (el_src e) src_itemsize))
  else m.

(** The contract of an unmasked transfer callable for a conversion [cast]
    and destination elements of [dst_itemsize] bytes: on memory it acts as
    the element-by-element loop of the specification. *)
Definition strided_contract (cast : list Z -> list Z) (dst_itemsize : Z)
    (stransfer : PyArray_StridedUnaryOp) : Prop :=
  forall dst dst_stride src src_stride N src_itemsize s,
    st_mem (stransfer dst dst_stride src src_stride N src_itemsize s)
    = strided_loop cast dst_itemsize (Z.to_nat N) dst dst_stride
        src src_stride src_itemsize (st_mem s).

(** The same for a masked transfer callable. *)
Definition masked_contract (cast : list Z -> list Z) (dst_itemsize : Z)
    (stransfer : PyArray_MaskedStridedUnaryOp) : Prop :=
  forall dst dst_stride src src_stride mask mask_stride N src_itemsize s,
    st_mem (stransfer dst dst_stride src src_stride mask mask_stride
              N src_itemsize s)
    = masked_strided_loop cast dst_itemsize (Z.to_nat N) dst dst_stride
        src src_stride mask mask_stride src_itemsize (st_mem s).

(** The positions of a prepared iteration in the order they are
    transferred: the innermost coordinate [c0] under the outer coordinates
    [cs]. *)
Definition positions (n0 : Z) (idims : list nat) (shape : list Z)
    : list (Z * list Z) :=
  flat_map (fun cs => map (fun i => (Z.of_nat i, cs)) (seq 0 (Z.to_nat n0)))
    (iter_coords idims shape).

(** The address of position [(c0, cs)] in an array of the iteration. *)
Definition address (idims : list nat) (data : ptr) (strides : list Z)
    (p : Z * list Z) : ptr :=
  data + fst p * nth 0 strides 0 + outer_offset idims (snd p) strides.

(** The contract of a mask combination callable: on memory it acts as the
    loop of the specification. *)
Definition maskand_contract (maskand : PyArray_StridedBinaryOp) : Prop :=
  forall dst dst_stride src0 src0_stride src1 src1_stride N s,
    st_mem (maskand dst dst_stride src0 src0_stride src1 src1_stride N s)
    = maskand_loop (Z.to_nat N) dst dst_stride src0 src0_stride
        src1 src1_stride (st_mem s).

(** Address [a] is none of the [B] slots of the scratch buffer at [buf]. *)
Definition outside_buffer (buf : ptr) (itemsize B : Z) (a : Z) : Prop :=
  forall i, 0 <= i < B -> a <> buf + i * itemsize.

(** Two memories that agree on every byte outside the scratch buffer. *)
Definition agree_outside (buf : ptr) (itemsize B : Z) (m m' : memory)
    : Prop :=
  forall a, outside_buffer buf itemsize B a -> m a = m' a.

(** The contract of a masked transfer callable for what it was resolved
    for: with the strides and the source element size the resolver was
    given, it acts on memory as the loop of the specification.  Nothing is
    said of a call with other strides. *)
Definition masked_contract_at (cast : list Z -> list Z)
    (dst_itemsize src_itemsize : Z) (src_stride dst_stride mask_stride : Z)
    (stransfer : PyArray_MaskedStridedUnaryOp) : Prop :=
  forall dst src mask N s,
    st_mem (stransfer dst dst_stride src src_stride mask mask_stride
              N src_itemsize s)
    = masked_strided_loop cast dst_itemsize (Z.to_nat N) dst dst_stride
        src src_stride mask mask_stride src_itemsize (st_mem s).

(** The same for a mask combination callable and the strides of the two
    masks it was resolved for. *)
Definition maskand_contract_at (mask0_stride mask1_stride : Z)
    (maskand : PyArray_StridedBinaryOp) : Prop :=
  forall dst dst_stride src0 src1 N s,
    st_mem (maskand dst dst_stride src0 mask0_stride src1 mask1_stride N s)
    = maskand_loop (Z.to_nat N) dst dst_stride src0 mask0_stride
        src1 mask1_stride (st_mem s).

(** One chunk in the words of the specification, as a transformation of
    the state: for the [n] elements at the four pointers of the chunk, the
    combination callable first writes the combined mask into the scratch
    buffer, then the transfer callable moves the elements under the
    buffered mask. *)
Definition chunk_step
    (maskand_stransfer : PyArray_StridedBinaryOp)
    (stransfer : PyArray_MaskedStridedUnaryOp)
    (maskna_buffer : ptr) (maskna_itemsize src_itemsize : Z)
    (dst_stride src_stride maskna_stride wheremask_stride : Z)
    (dst src maskna wheremask : ptr) (n : Z) (st : state) : state :=
  stransfer dst dst_stride src src_stride
    maskna_buffer maskna_itemsize n src_itemsize
    (maskand_stransfer maskna_buffer maskna_itemsize
       maskna maskna_stride wheremask wheremask_stride n st).

(** * Properties *)

(** ** The monad *)

Lemma bind_run {A B} (m : M A) (f : A -> M B) s a s1 l1 :
  m s = (a, s1, l1) ->
  bind m f s = (let '(b, s2, l2) := f a s1 in (b, s2, l1 ++ l2)).
Proof. intros H. unfold bind. rewrite H. reflexivity. Qed.

(** Unfold the monad's operations in the goal. *)
Ltac step_m :=
  cbv beta iota zeta delta
    [bind ret emit ask run PyErr_Set PyErr_Occurred cleanup].

(** ** The redundant-copy short-circuit *)

Lemma PyArray_CompareLists_true l1 l2 n :
  (forall i, (i < n)%nat -> nth i l1 0 = nth i l2 0) ->
  PyArray_CompareLists l1 l2 n = true.
Proof.
  intros H. unfold PyArray_CompareLists. apply forallb_forall.
  intros i Hi. apply in_seq in Hi. apply Z.eqb_eq. apply H. lia.
Qed.

Section Redundant_copy.

Variable env : Collaborators.
Variables dst src : PyArrayObject.

Hypothesis same_data : PyArray_DATA src = PyArray_DATA dst.
Hypothesis same_maskna_data : PyArray_MASKNA_DATA src = PyArray_MASKNA_DATA dst.
Hypothesis same_dtype :
  descr_addr (PyArray_DESCR src) = descr_addr (PyArray_DESCR dst).
Hypothesis same_rank : PyArray_NDIM src = PyArray_NDIM dst.
Hypothesis same_extents :
  forall i, (i < PyArray_NDIM src)%nat ->
    nth i (PyArray_DIMS src) 0 = nth i (PyArray_DIMS dst) 0.
Hypothesis same_strides :
  forall i, (i < PyArray_NDIM src)%nat ->
    nth i (PyArray_STRIDES src) 0 = nth i (PyArray_STRIDES dst) 0.

Lemma same_view_true : same_view dst src = true.
Proof.
  unfold same_view.
  rewrite same_data, same_maskna_data, same_dtype, same_rank.
  rewrite !Z.eqb_refl, Nat.eqb_refl. simpl.
  rewrite <- same_rank.
  rewrite !PyArray_CompareLists_true by assumption. reflexivity.
Qed.

Lemma redundant_copy_returns depth wheremask casting preservena
    preservewhichna s :
  PyArray_NDIM src <> 0%nat ->
  PyArray_AssignArray env depth dst src wheremask casting preservena
    preservewhichna s = (Some 0, s, []).
Proof.
  intros Hnd. apply Nat.eqb_neq in Hnd.
  destruct depth; simpl; rewrite Hnd, same_view_true; reflexivity.
Qed.

End Redundant_copy.

(** C3.  A non-0-dimensional source that has the data pointer, NA-mask data
    pointer, dtype object, rank, extents and strides of the destination is
    assigned by returning success at once: the state (memory and error
    indicator) is the one the call started in and no collaborator is
    called. *)
Theorem self_assignment_is_noop
    (env : Collaborators) (depth : nat) (dst src : PyArrayObject)
    (wheremask : option PyArrayObject) (casting : NPY_CASTING)
    (preservena : bool) (preservewhichna : option (list bool)) (s : state) :
  PyArray_NDIM src <> 0%nat ->
  PyArray_DATA src = PyArray_DATA dst ->
  PyArray_MASKNA_DATA src = PyArray_MASKNA_DATA dst ->
  descr_addr (PyArray_DESCR src) = descr_addr (PyArray_DESCR dst) ->
  PyArray_NDIM src = PyArray_NDIM dst ->
  (forall i, (i < PyArray_NDIM src)%nat ->
     nth i (PyArray_DIMS src) 0 = nth i (PyArray_DIMS dst) 0) ->
  (forall i, (i < PyArray_NDIM src)%nat ->
     nth i (PyArray_STRIDES src) 0 = nth i (PyArray_STRIDES dst) 0) ->
  let r := PyArray_AssignArray env depth dst src wheremask casting
             preservena preservewhichna s in
  result_of r = Some 0 /\ state_of r = s /\ log_of r = [].
Proof.
  intros Hnd H1 H2 H3 H4 H5 H6 r. subst r.
  rewrite (@redundant_copy_returns env dst src H1 H2 H3 H4 H5 H6) by assumption.
  repeat split.
Qed.

Lemma self_assignment_is_noop_witness :
  let a := view 0 [2; 3] [3; 1] in
  let r := PyArray_AssignArray numpy 0 a a None NPY_SAFE_CASTING false None
             arange_state in
  result_of r = Some 0 /\ state_of r = arange_state /\ log_of r = [].
Proof.
  apply (@self_assignment_is_noop numpy 0%nat
           (view 0 [2; 3] [3; 1]) (view 0 [2; 3] [3; 1]));
    try reflexivity; simpl; lia.
Defined.

(** C10.  The short-circuit comes before the writability check: with a
    destination that is not writeable, a non-0-dimensional source passing
    the identity test is still assigned with success, and the error
    indicator is left as it was, so no [ReadOnlyTarget] is raised. *)
Theorem self_assignment_ignores_readonly
    (env : Collaborators) (depth : nat) (dst src : PyArrayObject)
    (wheremask : option PyArrayObject) (casting : NPY_CASTING)
    (preservena : bool) (preservewhichna : option (list bool)) (s : state) :
  PyArray_NDIM src <> 0%nat ->
  same_view dst src = true ->
  PyArray_ISWRITEABLE dst = false ->
  let r := PyArray_AssignArray env depth dst src wheremask casting
             preservena preservewhichna s in
  result_of r = Some 0 /\ st_err (state_of r) = st_err s.
Proof.
  intros Hnd Hsame _ r. subst r. apply Nat.eqb_neq in Hnd.
  assert (E : PyArray_AssignArray env depth dst src wheremask casting
                preservena preservewhichna s = (Some 0, s, [])).
  { destruct depth; simpl; rewrite Hnd, Hsame; reflexivity. }
  rewrite E. split; reflexivity.
Qed.

Lemma self_assignment_ignores_readonly_witness :
  let a := readonly (view 0 [2; 3] [3; 1]) in
  let r := PyArray_AssignArray numpy 0 a a None NPY_SAFE_CASTING false None
             arange_state in
  result_of r = Some 0 /\ st_err (state_of r) = st_err arange_state.
Proof.
  apply (@self_assignment_ignores_readonly numpy 0%nat
           (readonly (view 0 [2; 3] [3; 1]))
           (readonly (view 0 [2; 3] [3; 1])));
    [simpl; lia | reflexivity | reflexivity].
Defined.

(** ** The checks before the overlap resolution *)

(** A call whose checks end in a [goto] returns through the label, having
    allocated nothing. *)
Lemma assign_checks_goto env depth dst src wheremask casting preservena
    preservewhichna s l s' lg :
  PyArray_NDIM src <> 0%nat ->
  same_view dst src = false ->
  assign_checks env dst src wheremask casting preservewhichna s
  = (inr l, s', lg) ->
  PyArray_AssignArray env depth dst src wheremask casting preservena
    preservewhichna s
  = (Some (match l with finish => 0 | fail => -1 end), s', lg).
Proof.
  intros Hnd Hsame Hc. apply Nat.eqb_neq in Hnd.
  destruct depth; simpl; rewrite Hnd, Hsame;
    unfold bind; rewrite Hc; simpl; rewrite app_nil_r; reflexivity.
Qed.

Lemma readonly_target_rejected env depth dst src wheremask casting
    preservena preservewhichna s :
  PyArray_NDIM src <> 0%nat ->
  same_view dst src = false ->
  PyArray_ISWRITEABLE dst = false ->
  PyArray_AssignArray env depth dst src wheremask casting preservena
    preservewhichna s
  = (Some (-1), mkState (st_mem s) (Some ReadOnlyTarget), []).
Proof.
  intros Hnd Hsame Hw.
  apply assign_checks_goto with (l := fail); try assumption.
  unfold assign_checks. rewrite Hw. reflexivity.
Qed.

Lemma unsafe_cast_rejected env depth dst src wheremask casting
    preservena preservewhichna s :
  PyArray_NDIM src <> 0%nat ->
  same_view dst src = false ->
  PyArray_ISWRITEABLE dst = true ->
  PyArray_CanCastTypeTo env (PyArray_DESCR src) (PyArray_DESCR dst) casting
  = false ->
  PyArray_AssignArray env depth dst src wheremask casting preservena
    preservewhichna s
  = (Some (-1),
     mkState (st_mem s)
       (Some (UnsafeCast (PyArray_DESCR src) (PyArray_DESCR dst) casting)),
     []).
Proof.
  intros Hnd Hsame Hw Hc.
  apply assign_checks_goto with (l := fail); try assumption.
  unfold assign_checks. rewrite Hw, Hc. reflexivity.
Qed.

(** C7, as the code has it.  The test of [preservewhichna] is the fourth
    gate, not the first: for a non-0-dimensional source that is not the
    destination's own view, a writeable destination and a permitted cast, a
    [preservewhichna] other than [NULL] makes the call fail with
    [NotImplemented]; memory is untouched and no collaborator has been
    called (no NA scan, no overlap resolution, no broadcasting, no
    transfer). *)
Theorem preservewhichna_rejected
    (env : Collaborators) (depth : nat) (dst src : PyArrayObject)
    (wheremask : option PyArrayObject) (casting : NPY_CASTING)
    (preservena : bool) (which : list bool) (s : state) :
  PyArray_NDIM src <> 0%nat ->
  same_view dst src = false ->
  PyArray_ISWRITEABLE dst = true ->
  PyArray_CanCastTypeTo env (PyArray_DESCR src) (PyArray_DESCR dst) casting
  = true ->
  let r := PyArray_AssignArray env depth dst src wheremask casting
             preservena (Some which) s in
  result_of r = Some (-1) /\
  st_err (state_of r) = Some NotImplemented /\
  st_mem (state_of r) = st_mem s /\
  log_of r = [].
Proof.
  intros Hnd Hsame Hw Hc r. subst r.
  rewrite (@assign_checks_goto env depth dst src wheremask casting preservena
             (Some which) s fail
             (mkState (st_mem s) (Some NotImplemented)) []);
    try assumption.
  - repeat split.
  - unfold assign_checks. rewrite Hw, Hc. reflexivity.
Qed.

Lemma preservewhichna_rejected_witness :
  let r := PyArray_AssignArray numpy 0 (view 8 [4] [1]) (view 0 [4] [1])
             None NPY_SAFE_CASTING false (Some [true]) arange_state in
  result_of r = Some (-1) /\
  st_err (state_of r) = Some NotImplemented /\
  st_mem (state_of r) = st_mem arange_state /\
  log_of r = [].
Proof.
  apply (@preservewhichna_rejected numpy 0%nat
           (view 8 [4] [1]) (view 0 [4] [1]));
    [simpl; lia | reflexivity | reflexivity | reflexivity].
Defined.

(** C7, as stated, fails: a self-assignment with a [preservewhichna] other
    than [NULL] returns success. *)
Lemma preservewhichna_not_checked_first :
  let a := view 0 [4] [1] in
  let r := PyArray_AssignArray numpy 0 a a None NPY_SAFE_CASTING false
             (Some [true]) arange_state in
  result_of r = Some 0 /\ st_err (state_of r) = None /\
  ~ (result_of r = Some (-1) /\ st_err (state_of r) = Some NotImplemented).
Proof.
  vm_compute. repeat split. intros [H _]. discriminate.
Qed.

(** The same gate order with a read-only destination: the error is
    [ReadOnlyTarget], not [NotImplemented]. *)
Example preservewhichna_after_writability :
  let r := PyArray_AssignArray numpy 0 (readonly (view 8 [4] [1]))
             (view 0 [4] [1]) None NPY_SAFE_CASTING false (Some [true])
             arange_state in
  result_of r = Some (-1) /\ st_err (state_of r) = Some ReadOnlyTarget.
Proof. vm_compute. split; reflexivity. Qed.

(** ** NA in the source, none in the destination *)

(** The scan of the specification finds an NA exactly when some element of
    the array has its exposure flag cleared. *)
Lemma contains_na_unrestricted arr s :
  PyArray_HASMASKNA arr = true ->
  snd (contains_na arr None s) = s /\
  (fst (contains_na arr None s) = 1 <->
   exists coord,
     In coord (coords (PyArray_NDIM arr) (PyArray_DIMS arr)) /\
     mask_true (st_mem s (PyArray_MASKNA_DATA arr
                          + offset coord (PyArray_MASKNA_STRIDES arr)))
     = false) /\
  (fst (contains_na arr None s) = 1 \/ fst (contains_na arr None s) = 0).
Proof.
  intros H. unfold contains_na. rewrite H. simpl.
  split; [reflexivity |].
  destruct (existsb _ _) eqn:E; simpl.
  - split; [| now left]. split; [intros _ | reflexivity].
    apply existsb_exists in E. destruct E as [c [Hin Hc]].
    exists c. split; [assumption |]. now apply negb_true_iff in Hc.
  - split; [| now right]. split; [discriminate |].
    intros [c [Hin Hc]].
    assert (E' : existsb
              (fun coord =>
                 negb (mask_true
                         (st_mem s (PyArray_MASKNA_DATA arr
                                    + offset coord
                                        (PyArray_MASKNA_STRIDES arr)))))
              (coords (PyArray_NDIM arr) (PyArray_DIMS arr)) = true).
    { apply existsb_exists. exists c. split; [assumption |].
      now apply negb_true_iff. }
    congruence.
Qed.

(** C6, as the code has it.  For a non-0-dimensional source with NA
    support and a destination without, once the writability, casting and
    [preservewhichna] gates are passed, the call fails with [UnsupportedNA]
    whenever the scan of the source reports an NA; the scan is handed the
    call's where-mask, so it covers every source element only when there
    is no where-mask.  Nothing but the scan has been called. *)
Theorem na_into_array_without_na_support
    (env : Collaborators) (depth : nat) (dst src : PyArrayObject)
    (wheremask : option PyArrayObject) (casting : NPY_CASTING)
    (preservena : bool) (s s' : state) (containsna : Z) :
  PyArray_NDIM src <> 0%nat ->
  same_view dst src = false ->
  PyArray_ISWRITEABLE dst = true ->
  PyArray_CanCastTypeTo env (PyArray_DESCR src) (PyArray_DESCR dst) casting
  = true ->
  PyArray_HASMASKNA src = true ->
  PyArray_HASMASKNA dst = false ->
  PyArray_ContainsNA env src wheremask s = (containsna, s') ->
  containsna <> 0 -> containsna <> -1 ->
  let r := PyArray_AssignArray env depth dst src wheremask casting
             preservena None s in
  result_of r = Some (-1) /\
  st_err (state_of r) = Some UnsupportedNA /\
  st_mem (state_of r) = st_mem s' /\
  log_of r = [Call_ContainsNA src wheremask].
Proof.
  intros Hnd Hsame Hw Hc Hsrc Hdst Hscan Hna Herr r. subst r.
  rewrite (@assign_checks_goto env depth dst src wheremask casting preservena
             None s fail (mkState (st_mem s') (Some UnsupportedNA))
             [Call_ContainsNA src wheremask]);
    try assumption.
  - repeat split.
  - unfold assign_checks. rewrite Hw, Hc, Hsrc, Hdst. simpl.
    unfold ContainsNA. step_m. rewrite Hscan.
    apply Z.eqb_neq in Hna, Herr. rewrite Hna, Herr. reflexivity.
Qed.

Lemma na_into_array_without_na_support_witness :
  let r := PyArray_AssignArray numpy 0 (view 32 [4] [1]) one_na_src
             None NPY_SAFE_CASTING false None one_na_state in
  result_of r = Some (-1) /\
  st_err (state_of r) = Some UnsupportedNA /\
  st_mem (state_of r) = st_mem one_na_state /\
  log_of r = [Call_ContainsNA one_na_src None].
Proof.
  apply (@na_into_array_without_na_support numpy 0%nat
           (view 32 [4] [1]) one_na_src None NPY_SAFE_CASTING false
           one_na_state one_na_state 1);
    try reflexivity; simpl; lia.
Defined.

(** C6, as stated, fails.  The source has NA support and its second element
    is NA, the destinations have no NA support.
    - Under a where-mask that leaves the second element out, the scan finds
      no NA and the call succeeds.
    - Without where-mask and with a destination that is not writeable, the
      call fails with [ReadOnlyTarget], not [UnsupportedNA]. *)
Lemma na_source_not_rejected :
  let wheremask := view 24 [4] [1] in
  let s := mkState (store (st_mem one_na_state) 24 4 [1; 0; 1; 1]) None in
  let r1 := PyArray_AssignArray numpy 0 (view 32 [4] [1]) one_na_src
              (Some wheremask) NPY_SAFE_CASTING false None s in
  let r2 := PyArray_AssignArray numpy 0 (readonly (view 32 [4] [1]))
              one_na_src None NPY_SAFE_CASTING false None one_na_state in
  PyArray_HASMASKNA one_na_src = true /\
  fst (contains_na one_na_src None s) = 1 /\
  fst (contains_na one_na_src None one_na_state) = 1 /\
  PyArray_HASMASKNA (view 32 [4] [1]) = false /\
  (result_of r1 = Some 0 /\ st_err (state_of r1) = None /\
   map (st_mem (state_of r1)) [32; 33; 34; 35] = [0; 33; 2; 3]) /\
  (result_of r2 = Some (-1) /\
   st_err (state_of r2) = Some ReadOnlyTarget /\
   st_err (state_of r2) <> Some UnsupportedNA).
Proof.
  vm_compute. repeat split. discriminate.
Qed.

(** ** Broadcasting the source *)

Lemma nth_tl {A} (l : list A) j d : nth j (tl l) d = nth (S j) l d.
Proof. destruct l; [destruct j |]; reflexivity. Qed.

Lemma forallb_false {A} (f : A -> bool) l :
  forallb f l = false <-> exists x, In x l /\ f x = false.
Proof.
  induction l as [| a l IH]; simpl.
  - split; [discriminate | intros [x [[] _]]].
  - rewrite andb_false_iff, IH. split.
    + intros [H | [x [Hin Hx]]]; [exists a | exists x]; auto.
    + intros [x [[-> | Hin] Hx]]; [left | right; exists x]; auto.
Qed.

Lemma nth_map_seq (f : nat -> Z) n i :
  (i < n)%nat -> nth i (map f (seq 0 n)) 0 = f i.
Proof.
  intros Hi.
  rewrite (nth_indep _ 0 (f 0%nat)) by (rewrite length_map, length_seq; lia).
  rewrite map_nth, seq_nth by lia. reflexivity.
Qed.

(** What the left-strip loop leaves: [k] leading dimensions, all of extent
    1, are gone; it stops at the destination's rank or at the first leading
    extent that is not 1. *)
Lemma strip_unit_dims_spec ndim_dst : forall ndim_tmp shape strides,
  exists k,
    let '(n', shape', strides') :=
      strip_unit_dims ndim_dst ndim_tmp shape strides in
    ndim_tmp = (n' + k)%nat /\
    (forall j d, nth j shape' d = nth (k + j) shape d) /\
    (forall j d, nth j strides' d = nth (k + j) strides d) /\
    (forall j, (j < k)%nat -> nth j shape 0 = 1) /\
    ((ndim_dst < n')%nat -> nth k shape 0 <> 1) /\
    ((ndim_dst <= ndim_tmp)%nat -> (ndim_dst <= n')%nat).
Proof.
  induction ndim_tmp as [| n IH]; intros shape strides.
  - exists 0%nat. simpl. repeat split; auto; lia.
  - simpl. destruct (ndim_dst <? S n)%nat eqn:Hlt; simpl.
    + destruct (nth 0 shape 0 =? 1) eqn:H1.
      * destruct (IH (tl shape) (tl strides)) as [k Hk].
        exists (S k).
        destruct (strip_unit_dims ndim_dst n (tl shape) (tl strides))
          as [[n' shape'] strides'].
        destruct Hk as (Hn & Hs & Ht & Hone & Hstop & Hge).
        apply Nat.ltb_lt in Hlt. apply Z.eqb_eq in H1.
        repeat split.
        -- lia.
        -- intros j d. rewrite Hs, nth_tl. reflexivity.
        -- intros j d. rewrite Ht, nth_tl. reflexivity.
        -- intros [| j] Hj; [assumption |].
           rewrite <- nth_tl. apply Hone. lia.
        -- intros Hn'. rewrite <- nth_tl. auto.
        -- intros _. apply Hge. lia.
      * exists 0%nat. apply Z.eqb_neq in H1. repeat split; auto; lia.
    + exists 0%nat. apply Nat.ltb_ge in Hlt. repeat split; auto; lia.
Qed.

(** [broadcast_strides], result by result. *)
Lemma broadcast_strides_spec ndim shape strides_ndim strides_shape strides
    name s :
  let r := broadcast_strides ndim shape strides_ndim strides_shape strides
             name s in
  st_mem (state_of r) = st_mem s /\ log_of r = [] /\
  match result_of r with
  | None =>
      st_err (state_of r) = Some (ShapeMismatch name) /\
      ((ndim < strides_ndim)%nat \/
       exists i, (i < strides_ndim)%nat /\
         nth i strides_shape 0 <> 1 /\
         nth i strides_shape 0 <> nth (i + (ndim - strides_ndim)) shape 0)
  | Some out =>
      state_of r = s /\
      (strides_ndim <= ndim)%nat /\
      (forall i, (i < strides_ndim)%nat ->
         nth i strides_shape 0 = 1 \/
         nth i strides_shape 0 = nth (i + (ndim - strides_ndim)) shape 0) /\
      List.length out = ndim /\
      forall idim, (idim < ndim)%nat ->
        nth idim out 0 =
          if (idim <? ndim - strides_ndim)%nat then 0
          else if nth (idim - (ndim - strides_ndim)) strides_shape 0 =? 1
               then 0
               else nth (idim - (ndim - strides_ndim)) strides 0
  end.
Proof.
  unfold broadcast_strides.
  destruct (ndim <? strides_ndim)%nat eqn:Hlt.
  - simpl. apply Nat.ltb_lt in Hlt. auto.
  - apply Nat.ltb_ge in Hlt.
    destruct (forallb _ _) eqn:Hall.
    + simpl. repeat split; try assumption.
      * intros i Hi. rewrite forallb_forall in Hall.
        specialize (Hall (i + (ndim - strides_ndim))%nat).
        replace (i + (ndim - strides_ndim) - (ndim - strides_ndim))%nat
          with i in Hall by lia.
        rewrite <- !Z.eqb_eq. apply orb_true_iff.
        apply Hall. apply in_seq. lia.
      * rewrite length_map, length_seq. reflexivity.
      * intros idim Hidim.
        apply (nth_map_seq
                 (fun idim =>
                    if (idim <? ndim - strides_ndim)%nat then 0
                    else if nth (idim - (ndim - strides_ndim))
                                strides_shape 0 =? 1 then 0
                    else nth (idim - (ndim - strides_ndim)) strides 0)).
        assumption.
    + simpl. repeat split. right.
      apply forallb_false in Hall. destruct Hall as [idim [Hin Hf]].
      apply in_seq in Hin. apply orb_false_iff in Hf. destruct Hf as [H1 H2].
      apply Z.eqb_neq in H1, H2.
      exists (idim - (ndim - strides_ndim))%nat. repeat split.
      * lia.
      * assumption.
      * replace (idim - (ndim - strides_ndim) + (ndim - strides_ndim))%nat
          with idim by lia. assumption.
Qed.

(** C4.  Broadcasting the source to the destination's shape (lines
    539-567).  Source dimension [i] corresponds to destination dimension
    [i + nd - ns]; a source dimension with [i + nd < ns] has none.
    - The broadcast fails, with [ShapeMismatch], exactly when some source
      extent other than 1 has no corresponding destination dimension or
      differs from the corresponding destination extent.
    - When it succeeds, the source dimensions without a corresponding
      destination dimension are leading dimensions of extent 1 (they are
      stripped), the result has one stride per destination dimension, a
      destination dimension absent on the left of the source gets stride 0,
      a source dimension of extent 1 gets stride 0, and any other dimension
      keeps the source's stride. *)
Theorem broadcast_src_spec (dst src : PyArrayObject) (s : state) :
  let nd := PyArray_NDIM dst in
  let ns := PyArray_NDIM src in
  let r := broadcast_src dst src s in
  (result_of r = None <->
   exists i, (i < ns)%nat /\
     nth i (PyArray_DIMS src) 0 <> 1 /\
     ((i + nd < ns)%nat \/
      nth i (PyArray_DIMS src) 0
      <> nth (i + nd - ns) (PyArray_DIMS dst) 0)) /\
  (result_of r = None ->
   st_err (state_of r) = Some (ShapeMismatch "input array"%string)) /\
  (forall out, result_of r = Some out ->
     state_of r = s /\
     List.length out = nd /\
     (forall i, (i + nd < ns)%nat -> nth i (PyArray_DIMS src) 0 = 1) /\
     forall idim, (idim < nd)%nat ->
       nth idim out 0 =
         if (idim + ns <? nd)%nat then 0
         else if nth (idim + ns - nd) (PyArray_DIMS src) 0 =? 1 then 0
         else nth (idim + ns - nd) (PyArray_STRIDES src) 0).
Proof.
  intros nd ns r. subst r. unfold broadcast_src. fold nd ns.
  destruct (nd <? ns)%nat eqn:Hlt.
  - (* more source dimensions than destination dimensions *)
    apply Nat.ltb_lt in Hlt.
    destruct (strip_unit_dims_spec nd ns (PyArray_DIMS src)
                (PyArray_STRIDES src)) as [k Hk].
    destruct (strip_unit_dims nd ns (PyArray_DIMS src) (PyArray_STRIDES src))
      as [[n' shape'] strides'].
    destruct Hk as (Hn & Hs & Ht & Hone & Hstop & Hge).
    assert (Hn' : (nd <= n')%nat) by (apply Hge; lia).
    pose proof (broadcast_strides_spec nd (PyArray_DIMS dst) n' shape'
                  strides' "input array"%string s) as B.
    cbv zeta in B.
    destruct (broadcast_strides nd (PyArray_DIMS dst) n' shape' strides'
                "input array"%string s) as [[res st] lg].
    unfold result_of, state_of, log_of in *. simpl in *.
    destruct B as (_ & _ & B). destruct res as [out |].
    + destruct B as (-> & Hle & Hmatch & Hlen & Hout).
      assert (n' = nd) by lia. subst n'.
      assert (Hk : k = (ns - nd)%nat) by lia.
      split; [| split].
      * split; [discriminate |]. intros [i [Hi [H1 Hbad]]]. exfalso.
        destruct (Nat.lt_ge_cases i k) as [Hik | Hik].
        { apply H1. apply Hone. assumption. }
        destruct Hbad as [Hbad | Hbad]; [lia |].
        destruct (Hmatch (i - k)%nat) as [E | E]; [lia | |].
        -- rewrite Hs in E. replace (k + (i - k))%nat with i in E by lia.
           contradiction.
        -- rewrite Hs in E. replace (k + (i - k))%nat with i in E by lia.
           replace (i - k + (nd - nd))%nat with (i + nd - ns)%nat in E by lia.
           contradiction.
      * discriminate.
      * intros out' Hout'. injection Hout' as <-.
        split; [reflexivity |]. split; [assumption |]. split.
        -- intros i Hi. apply Hone. lia.
        -- intros idim Hidim. rewrite (Hout idim Hidim).
           replace (idim <? nd - nd)%nat with false
             by (symmetry; apply Nat.ltb_ge; lia).
           replace (idim + ns <? nd)%nat with false
             by (symmetry; apply Nat.ltb_ge; lia).
           rewrite Hs, Ht.
           replace (k + (idim - (nd - nd)))%nat with (idim + ns - nd)%nat
             by lia.
           reflexivity.
    + destruct B as (Herr & Hwhy).
      split; [| split].
      * split; [intros _ | reflexivity].
        destruct (Nat.lt_ge_cases nd n') as [Hgt | Hgt].
        -- exists k. split; [lia |]. split; [auto |]. left. lia.
        -- assert (n' = nd) by lia. subst n'.
           destruct Hwhy as [Hwhy | [i [Hi [H1 Hbad]]]]; [lia |].
           exists (k + i)%nat. rewrite Hs in H1, Hbad.
           split; [lia |]. split; [assumption |]. right.
           replace (k + i + nd - ns)%nat with (i + (nd - nd))%nat by lia.
           assumption.
      * intros _. assumption.
      * discriminate.
  - (* the source has no more dimensions than the destination *)
    apply Nat.ltb_ge in Hlt.
    pose proof (broadcast_strides_spec nd (PyArray_DIMS dst) ns
                  (PyArray_DIMS src) (PyArray_STRIDES src)
                  "input array"%string s) as B.
    cbv zeta in B.
    destruct (broadcast_strides nd (PyArray_DIMS dst) ns (PyArray_DIMS src)
                (PyArray_STRIDES src) "input array"%string s) as [[res st] lg].
    unfold result_of, state_of, log_of in *. simpl in *.
    destruct B as (_ & _ & B). destruct res as [out |].
    + destruct B as (-> & Hle & Hmatch & Hlen & Hout).
      split; [| split].
      * split; [discriminate |]. intros [i [Hi [H1 Hbad]]]. exfalso.
        destruct Hbad as [Hbad | Hbad]; [lia |].
        destruct (Hmatch i Hi) as [E | E]; [contradiction |].
        replace (i + (nd - ns))%nat with (i + nd - ns)%nat in E by lia.
        contradiction.
      * discriminate.
      * intros out' Hout'. injection Hout' as <-.
        split; [reflexivity |]. split; [assumption |]. split.
        -- intros i Hi. lia.
        -- intros idim Hidim. rewrite (Hout idim Hidim).
           destruct (idim <? nd - ns)%nat eqn:Hleft.
           ++ apply Nat.ltb_lt in Hleft.
              replace (idim + ns <? nd)%nat with true
                by (symmetry; apply Nat.ltb_lt; lia).
              reflexivity.
           ++ apply Nat.ltb_ge in Hleft.
              replace (idim + ns <? nd)%nat with false
                by (symmetry; apply Nat.ltb_ge; lia).
              replace (idim - (nd - ns))%nat with (idim + ns - nd)%nat by lia.
              reflexivity.
    + destruct B as (Herr & Hwhy).
      split; [| split].
      * split; [intros _ | reflexivity].
        destruct Hwhy as [Hwhy | [i [Hi [H1 Hbad]]]]; [lia |].
        exists i. split; [assumption |]. split; [assumption |]. right.
        replace (i + nd - ns)%nat with (i + (nd - ns))%nat by lia.
        assumption.
      * intros _. assumption.
      * discriminate.
Qed.

(** A [(1, 1, 3)] source into a [(2, 3)] destination: the leading unit
    dimension is stripped, the remaining unit dimension gets stride 0. *)
Example broadcast_src_strips_left :
  result_of (broadcast_src (view 0 [2; 3] [3; 1])
               (view 16 [1; 1; 3] [3; 3; 1]) arange_state)
  = Some [0; 1].
Proof. reflexivity. Qed.

(** A [(2, 1, 3)] source into a [(3)] destination: the leading extent 2
    cannot be stripped. *)
Example broadcast_src_too_many_dims :
  let r := broadcast_src (view 0 [3] [1]) (view 16 [2; 1; 3] [3; 3; 1])
             arange_state in
  result_of r = None /\
  st_err (state_of r) = Some (ShapeMismatch "input array"%string).
Proof. split; reflexivity. Qed.

(** ** The calls of the raw routines *)

Lemma emits_ret {A} P (a : A) : emits P (ret a).
Proof. intros s. constructor. Qed.

Lemma emits_bind {A B} P (m : M A) (f : A -> M B) :
  emits P m -> (forall a, emits P (f a)) -> emits P (bind m f).
Proof.
  intros Hm Hf s. unfold bind. specialize (Hm s).
  destruct (m s) as [[a s1] l1]. specialize (Hf a s1).
  destruct (f a s1) as [[b s2] l2]. unfold log_of in *. simpl in *.
  apply Forall_app. split; assumption.
Qed.

Lemma emits_emit (P : event -> Prop) e : P e -> emits P (emit e).
Proof. intros H s. repeat constructor. assumption. Qed.

Lemma emits_run P f : emits P (run f).
Proof. intros s. constructor. Qed.

Lemma emits_resolved {A} P (answer : option A) : emits P (resolved answer).
Proof. intros s. unfold resolved. destruct answer; constructor. Qed.

Lemma emits_for_loop P n : forall i body,
  (forall c, emits P (body c)) -> emits P (for_loop n i body).
Proof.
  induction n as [| n IH]; intros i body Hb; simpl.
  - apply emits_ret.
  - apply emits_bind; [apply Hb | intros _; apply IH; assumption].
Qed.

Lemma emits_NPY_RAW_ITER P idims shape strides : forall data body,
  (forall d, emits P (body d)) ->
  emits P (NPY_RAW_ITER idims shape strides data body).
Proof.
  induction idims as [| idim rest IH]; intros data body Hb; simpl.
  - apply Hb.
  - apply emits_for_loop. intros c. apply IH. assumption.
Qed.

Lemma nth_negate0 l : nth 0 (negate0 l) 0 = - nth 0 l 0.
Proof. destruct l; reflexivity. Qed.

(** In [raw_array_assign_array] the resolver is given the innermost strides
    of the prepared iteration, negated when the 1-D overlap check fires,
    and every call of the transfer function runs with the same two. *)
Lemma raw_array_assign_array_strides_agree env ndim shape
    dst_dtype dst_data dst_strides src_dtype src_data src_strides s :
  match PyArray_PrepareTwoRawArrayIter env ndim shape
          dst_data dst_strides src_data src_strides with
  | None =>
      log_of (raw_array_assign_array env ndim shape dst_dtype dst_data
                dst_strides src_dtype src_data src_strides s) = []
  | Some (ndim', shape_it, dst_data', dst_strides_it,
          src_data', src_strides_it) =>
      let sign :=
        if overlap_1d ndim' shape_it dst_data' src_data' src_strides_it
        then -1 else 1 in
      exists aligned rest,
        log_of (raw_array_assign_array env ndim shape dst_dtype dst_data
                  dst_strides src_dtype src_data src_strides s)
        = Call_GetDTypeTransferFunction aligned
            (sign * nth 0 src_strides_it 0) (sign * nth 0 dst_strides_it 0)
            src_dtype dst_dtype :: rest /\
        Forall (uses_strides (sign * nth 0 dst_strides_it 0)
                             (sign * nth 0 src_strides_it 0)) rest
  end.
Proof.
  unfold raw_array_assign_array.
  destruct (PyArray_PrepareTwoRawArrayIter env ndim shape dst_data
              dst_strides src_data src_strides)
    as [[[[[[ndim' shape_it] dst_data'] dst_strides_it] src_data']
         src_strides_it] |]; [| reflexivity].
  cbv zeta.
  set (rev := overlap_1d ndim' shape_it dst_data' src_data' src_strides_it).
  set (ss := nth 0 (if rev then negate0 src_strides_it else src_strides_it) 0).
  set (ds := nth 0 (if rev then negate0 dst_strides_it else dst_strides_it) 0).
  assert (Ess : ss = (if rev then -1 else 1) * nth 0 src_strides_it 0).
  { subst ss. destruct rev; [rewrite nth_negate0 |]; lia. }
  assert (Eds : ds = (if rev then -1 else 1) * nth 0 dst_strides_it 0).
  { subst ds. destruct rev; [rewrite nth_negate0 |]; lia. }
  rewrite <- Ess, <- Eds. clearbody ss ds.
  eexists. unfold GetDTypeTransferFunction.
  unfold bind at 1. unfold bind at 1. unfold emit at 1. unfold resolved at 1.
  destruct (PyArray_GetDTypeTransferFunction env _ ss ds src_dtype dst_dtype)
    as [[stransfer needs_api] |]; set (s1 := s).
  - match goal with
    | |- context [bind ?m ?k s1] => pose proof (fun H => @emits_bind _ _
        (uses_strides ds ss) m k H) as E
    end.
    match type of E with
    | ?A -> ?B -> _ =>
      assert (HA : A);
      [| assert (HB : B); [| specialize (E HA HB s1)]]
    end.
    + apply emits_NPY_RAW_ITER. intros d. unfold call_stransfer.
      apply emits_bind; [| intros _; apply emits_run].
      apply emits_emit. repeat eexists.
    + intros _. unfold return_status.
      apply emits_bind; [| intros; apply emits_ret].
      intros s'. constructor.
    + destruct (bind _ _ s1) as [[r s2] l2]. simpl.
      eexists. split; [reflexivity | exact E].
  - simpl. eexists. split; [reflexivity | constructor].
Qed.

(** The same for [raw_array_wheremasked_assign_array], with the where-mask
    stride as the third. *)
Lemma raw_array_wheremasked_assign_array_strides_agree env ndim shape
    dst_dtype dst_data dst_strides src_dtype src_data src_strides
    wheremask_dtype wheremask_data wheremask_strides s :
  match PyArray_PrepareThreeRawArrayIter env ndim shape
          dst_data dst_strides src_data src_strides
          wheremask_data wheremask_strides with
  | None =>
      log_of (raw_array_wheremasked_assign_array env ndim shape
                dst_dtype dst_data dst_strides src_dtype src_data src_strides
                wheremask_dtype wheremask_data wheremask_strides s) = []
  | Some (ndim', shape_it, dst_data', dst_strides_it,
          src_data', src_strides_it, wheremask_data', wheremask_strides_it) =>
      let sign :=
        if overlap_1d ndim' shape_it dst_data' src_data' src_strides_it
        then -1 else 1 in
      exists aligned rest,
        log_of (raw_array_wheremasked_assign_array env ndim shape
                  dst_dtype dst_data dst_strides src_dtype src_data
                  src_strides wheremask_dtype wheremask_data
                  wheremask_strides s)
        = Call_GetMaskedDTypeTransferFunction aligned
            (sign * nth 0 src_strides_it 0) (sign * nth 0 dst_strides_it 0)
            (sign * nth 0 wheremask_strides_it 0)
            src_dtype dst_dtype wheremask_dtype :: rest /\
        Forall (uses_masked_strides (sign * nth 0 dst_strides_it 0)
                  (sign * nth 0 src_strides_it 0)
                  (sign * nth 0 wheremask_strides_it 0)) rest
  end.
Proof.
  unfold raw_array_wheremasked_assign_array.
  destruct (PyArray_PrepareThreeRawArrayIter env ndim shape dst_data
              dst_strides src_data src_strides wheremask_data
              wheremask_strides)
    as [[[[[[[[ndim' shape_it] dst_data'] dst_strides_it] src_data']
         src_strides_it] wheremask_data'] wheremask_strides_it] |];
    [| reflexivity].
  cbv zeta.
  set (rev := overlap_1d ndim' shape_it dst_data' src_data' src_strides_it).
  set (ss := nth 0 (if rev then negate0 src_strides_it else src_strides_it) 0).
  set (ds := nth 0 (if rev then negate0 dst_strides_it else dst_strides_it) 0).
  set (ws := nth 0 (if rev then negate0 wheremask_strides_it
                    else wheremask_strides_it) 0).
  assert (Ess : ss = (if rev then -1 else 1) * nth 0 src_strides_it 0).
  { subst ss. destruct rev; [rewrite nth_negate0 |]; lia. }
  assert (Eds : ds = (if rev then -1 else 1) * nth 0 dst_strides_it 0).
  { subst ds. destruct rev; [rewrite nth_negate0 |]; lia. }
  assert (Ews : ws = (if rev then -1 else 1) * nth 0 wheremask_strides_it 0).
  { subst ws. destruct rev; [rewrite nth_negate0 |]; lia. }
  rewrite <- Ess, <- Eds, <- Ews. clearbody ss ds ws.
  eexists. unfold GetMaskedDTypeTransferFunction.
  unfold bind at 1. unfold bind at 1. unfold emit at 1. unfold resolved at 1.
  destruct (PyArray_GetMaskedDTypeTransferFunction env _ ss ds ws
              src_dtype dst_dtype wheremask_dtype)
    as [[stransfer needs_api] |]; set (s1 := s).
  - match goal with
    | |- context [bind ?m ?k s1] => pose proof (fun H => @emits_bind _ _
        (uses_masked_strides ds ss ws) m k H) as E
    end.
    match type of E with
    | ?A -> ?B -> _ =>
      assert (HA : A);
      [| assert (HB : B); [| specialize (E HA HB s1)]]
    end.
    + apply emits_NPY_RAW_ITER. intros d. unfold call_masked_stransfer.
      apply emits_bind; [| intros _; apply emits_run].
      apply emits_emit. repeat eexists.
    + intros _. unfold return_status.
      apply emits_bind; [| intros; apply emits_ret].
      intros s'. constructor.
    + destruct (bind _ _ s1) as [[r s2] l2]. simpl.
      eexists. split; [reflexivity | exact E].
  - simpl. eexists. split; [reflexivity | constructor].
Qed.

(** C8 at [dst = a[1:4]], [src = a[0:3]] (both with an NA mask) under a
    where-mask: [raw_array_wheremasked_assign_array_preservena] reverses
    the traversal, asks the resolver for a transfer function for source
    stride [1] (the caller's [src_strides[0]]) and destination stride
    [-1], and then calls that function with source stride [-1]. *)
Theorem preservena_resolver_source_stride :
  let dst := masked 21 [1] (view 1 [3] [1]) in
  let src := masked 16 [1] (view 0 [3] [1]) in
  let wheremask := view 24 [3] [1] in
  let r := PyArray_AssignArray numpy 0 dst src (Some wheremask)
             NPY_SAFE_CASTING false None masks_state in
  result_of r = Some 0 /\
  In (Call_GetMaskedDTypeTransferFunction true 1 (-1) 1 int8 int8 bool_)
     (log_of r) /\
  In (Call_masked_stransfer 3 (-1) 2 (-1) 1000 1 3 1) (log_of r) /\
  forall aligned src_stride dst_stride mask_stride,
    In (Call_GetMaskedDTypeTransferFunction aligned src_stride dst_stride
          mask_stride int8 int8 bool_) (log_of r) ->
    src_stride = 1.
Proof.
  vm_compute. split; [reflexivity |]. split; [| split].
  - do 4 right. left. reflexivity.
  - do 7 right. left. reflexivity.
  - intros aligned ss ds ms H.
    repeat (destruct H as [H | H]; [try discriminate; try (injection H; lia) |]).
    destruct H.
Qed.

(** The same in general: whatever the preparation and the overlap check do
    to the source stride, the resolver is handed the first entry of the
    caller's [src_strides]. *)
Lemma preservena_resolver_gets_caller_stride env ndim shape
    dst_dtype dst_data dst_strides src_dtype src_data src_strides
    maskna_dtype maskna_data maskna_strides
    wheremask_dtype wheremask_data wheremask_strides s :
  Forall
    (fun e =>
       forall aligned src_stride dst_stride mask_stride sd dd md,
         e = Call_GetMaskedDTypeTransferFunction aligned src_stride
               dst_stride mask_stride sd dd md ->
         src_stride = nth 0 src_strides 0)
    (log_of (raw_array_wheremasked_assign_array_preservena env ndim shape
               dst_dtype dst_data dst_strides src_dtype src_data src_strides
               maskna_dtype maskna_data maskna_strides
               wheremask_dtype wheremask_data wheremask_strides s)).
Proof.
  revert s. change (emits
    (fun e =>
       forall aligned src_stride dst_stride mask_stride sd dd md,
         e = Call_GetMaskedDTypeTransferFunction aligned src_stride
               dst_stride mask_stride sd dd md ->
         src_stride = nth 0 src_strides 0)
    (raw_array_wheremasked_assign_array_preservena env ndim shape
       dst_dtype dst_data dst_strides src_dtype src_data src_strides
       maskna_dtype maskna_data maskna_strides
       wheremask_dtype wheremask_data wheremask_strides)).
  unfold raw_array_wheremasked_assign_array_preservena.
  destruct (PyArray_PrepareFourRawArrayIter env ndim shape dst_data
              dst_strides src_data src_strides maskna_data maskna_strides
              wheremask_data wheremask_strides)
    as [[[[[[[[[[ndim' shape_it] dst_data'] dst_strides_it] src_data']
         src_strides_it] maskna_data'] maskna_strides_it] wheremask_data']
         wheremask_strides_it] |]; [| apply emits_ret].
  cbv zeta.
  assert (Hother : forall e,
            (forall a b c d sd dd md,
               e <> Call_GetMaskedDTypeTransferFunction a b c d sd dd md) ->
            emits
              (fun e =>
                 forall aligned src_stride dst_stride mask_stride sd dd md,
                   e = Call_GetMaskedDTypeTransferFunction aligned src_stride
                         dst_stride mask_stride sd dd md ->
                   src_stride = nth 0 src_strides 0) (emit e)).
  { intros e He. apply emits_emit. intros a b c d sd dd md E.
    exfalso. exact (He _ _ _ _ _ _ _ E). }
  apply emits_bind.
  { intros s. repeat constructor. discriminate. }
  intros maskna_buffer. destruct (maskna_buffer =? NULL).
  { apply emits_bind; [intros s; constructor | intros; apply emits_ret]. }
  apply emits_bind.
  { unfold GetMaskedDTypeTransferFunction.
    apply emits_bind; [| intros; apply emits_resolved].
    apply emits_emit. intros a b c d sd dd md E. injection E. intros. lia. }
  intros [[stransfer needs_api] |].
  2: { apply emits_bind; [| intros; apply emits_ret].
       apply Hother. discriminate. }
  apply emits_bind.
  { unfold GetMaskAndFunction.
    apply emits_bind; [| intros; apply emits_resolved].
    apply Hother. discriminate. }
  intros [maskand_stransfer |].
  2: { apply emits_bind; [| intros; apply emits_ret].
       apply Hother. discriminate. }
  apply emits_bind.
  { apply emits_NPY_RAW_ITER. intros d. unfold process_innermost.
    generalize (Z.to_nat (nth 0 shape_it 0)) as fuel.
    generalize (nth 0 shape_it 0) as count.
    generalize (nth 0 d 0) as p0. generalize (nth 1 d 0) as p1.
    generalize (nth 2 d 0) as p2. generalize (nth 3 d 0) as p3.
    intros p3 p2 p1 p0 count fuel. revert p3 p2 p1 p0 count.
    induction fuel as [| fuel IH]; intros; simpl.
    - apply emits_bind.
      { unfold call_maskand_stransfer.
        apply emits_bind; [apply Hother; discriminate |
                           intros; apply emits_run]. }
      intros _. apply emits_bind.
      { unfold call_masked_stransfer.
        apply emits_bind; [apply Hother; discriminate |
                           intros; apply emits_run]. }
      intros _. destruct (0 <? _); apply emits_ret.
    - apply emits_bind.
      { unfold call_maskand_stransfer.
        apply emits_bind; [apply Hother; discriminate |
                           intros; apply emits_run]. }
      intros _. apply emits_bind.
      { unfold call_masked_stransfer.
        apply emits_bind; [apply Hother; discriminate |
                           intros; apply emits_run]. }
      intros _. destruct (0 <? _); [apply IH | apply emits_ret]. }
  intros _. apply emits_bind; [apply Hother; discriminate |].
  intros _. unfold return_status.
  apply emits_bind; [intros s; constructor | intros; apply emits_ret].
Qed.

(** ** The buffered innermost run *)

Lemma bind_log {A B} (m : M A) (f : A -> M B) s :
  log_of (bind m f s)
  = log_of (m s) ++ log_of (f (result_of (m s)) (state_of (m s))).
Proof.
  unfold bind, log_of, result_of, state_of.
  destruct (m s) as [[a s1] l1]. simpl.
  destruct (f a s1) as [[b s2] l2]. reflexivity.
Qed.

Section Chunks.

Variable B : Z.
Hypothesis B_pos : 0 < B.

Variables (maskna_buffer : ptr) (maskna_itemsize src_itemsize : Z).
Variables (dst_stride src_stride maskna_stride wheremask_stride : Z).

Local Abbreviation calls :=
  (chunk_calls B maskna_buffer maskna_itemsize src_itemsize
     dst_stride src_stride maskna_stride wheremask_stride).

Lemma chunk_count_last count : count <= B -> chunk_count B count = 1%nat.
Proof.
  intros H. unfold chunk_count.
  assert ((count + B - 1) / B <= 1).
  { assert ((count + B - 1) / B < 2); [| lia].
    apply Z.div_lt_upper_bound; lia. }
  rewrite Z.max_l by lia. reflexivity.
Qed.

Lemma chunk_count_more count :
  B < count -> chunk_count B count = S (chunk_count B (count - B)).
Proof.
  intros H. unfold chunk_count.
  replace (count + B - 1) with ((count - B + B - 1) + 1 * B) by lia.
  rewrite Z.div_add by lia.
  assert (1 <= (count - B + B - 1) / B).
  { apply Z.div_le_lower_bound; lia. }
  rewrite !Z.max_r by lia.
  rewrite <- Z2Nat.inj_succ by lia. f_equal; lia.
Qed.

Lemma chunk_calls_shift count dst src maskna wheremask k :
  calls count dst src maskna wheremask (S k)
  = calls (count - B)
      (dst + B * dst_stride) (src + B * src_stride)
      (maskna + B * maskna_stride) (wheremask + B * wheremask_stride) k.
Proof.
  unfold chunk_calls, chunk_size. rewrite Nat2Z.inj_succ.
  replace (Z.succ (Z.of_nat k) * B) with (B + Z.of_nat k * B) by ring.
  replace (count - (B + Z.of_nat k * B)) with (count - B - Z.of_nat k * B)
    by ring.
  rewrite !Z.mul_add_distr_r, !Z.add_assoc. reflexivity.
Qed.

Lemma chunk_calls_first count dst src maskna wheremask :
  calls count dst src maskna wheremask 0
  = [Call_maskand_stransfer maskna_buffer maskna_itemsize
       maskna maskna_stride wheremask wheremask_stride (Z.min count B);
     Call_masked_stransfer dst dst_stride src src_stride
       maskna_buffer maskna_itemsize (Z.min count B) src_itemsize].
Proof.
  unfold chunk_calls, chunk_size. simpl.
  rewrite !Z.add_0_r, Z.sub_0_r. reflexivity.
Qed.

Lemma buffered_count_min count :
  (if count <? B then count else B) = Z.min count B.
Proof. destruct (Z.ltb_spec count B); lia. Qed.

Lemma chunk_sizes_sum : forall n count,
  n = chunk_count B count ->
  fold_right Z.add 0 (map (chunk_size B count) (seq 0 n)) = count.
Proof.
  induction n as [| n IH]; intros count Hn.
  - unfold chunk_count in Hn. lia.
  - destruct (Z.le_gt_cases count B) as [Hc | Hc].
    + rewrite chunk_count_last in Hn by assumption.
      injection Hn as ->. simpl. unfold chunk_size. simpl. lia.
    + rewrite chunk_count_more in Hn by assumption. injection Hn as Hn.
      rewrite <- cons_seq, <- seq_shift, map_cons, map_map. simpl.
      rewrite (map_ext _ (chunk_size B (count - B))).
      * rewrite (IH (count - B) Hn). unfold chunk_size. simpl. lia.
      * intros k. unfold chunk_size. rewrite Nat2Z.inj_succ. lia.
Qed.

Lemma chunk_size_full count k :
  (S k < chunk_count B count)%nat -> chunk_size B count k = B.
Proof.
  unfold chunk_count, chunk_size. intros H.
  assert (Z.of_nat k + 2 <= (count + B - 1) / B) by lia.
  assert ((Z.of_nat k + 2) * B <= count + B - 1).
  { etransitivity; [apply Z.mul_le_mono_nonneg_r; [lia | eassumption] |].
    rewrite Z.mul_comm. apply Z.mul_div_le. assumption. }
  nia.
Qed.

Lemma fold_right_add_acc (l : list Z) a :
  fold_right Z.add a l = fold_right Z.add 0 l + a.
Proof. induction l as [| x l IH]; simpl; [| rewrite IH]; lia. Qed.

(** A chunk starts where the chunks before it end. *)
Lemma chunk_starts count : forall k,
  (k < chunk_count B count)%nat ->
  fold_right Z.add 0 (map (chunk_size B count) (seq 0 k)) = Z.of_nat k * B.
Proof.
  induction k as [| k IH]; intros Hk; [reflexivity |].
  rewrite seq_S, map_app, fold_right_app. cbn [map fold_right Nat.add].
  rewrite fold_right_add_acc, IH by lia.
  rewrite chunk_size_full by assumption.
  rewrite Nat2Z.inj_succ. ring.
Qed.

End Chunks.

Lemma call_maskand_stransfer_log f dst ds src0 s0 src1 s1 N s :
  log_of (call_maskand_stransfer f dst ds src0 s0 src1 s1 N s)
  = [Call_maskand_stransfer dst ds src0 s0 src1 s1 N].
Proof. reflexivity. Qed.

Lemma call_masked_stransfer_log f dst ds src ss mask ms N isz s :
  log_of (call_masked_stransfer f dst ds src ss mask ms N isz s)
  = [Call_masked_stransfer dst ds src ss mask ms N isz].
Proof. reflexivity. Qed.

Lemma ret_log {A} (a : A) s : log_of (ret a s) = [].
Proof. reflexivity. Qed.

Lemma flat_map_ext_seq {A} (f g : nat -> list A) n :
  (forall k, (k < n)%nat -> f k = g k) ->
  flat_map f (seq 0 n) = flat_map g (seq 0 n).
Proof.
  intros H. rewrite !flat_map_concat_map. f_equal.
  apply map_ext_in. intros k Hk. apply in_seq in Hk. apply H. lia.
Qed.

(** The loop never runs out of [fuel] when started with at least [count],
    and it makes exactly the calls of the chunking above. *)
Lemma buffered_loop_log env maskand_stransfer stransfer
    maskna_buffer maskna_itemsize src_itemsize
    dst_stride src_stride maskna_stride wheremask_stride :
  forall fuel count dst src maskna wheremask s,
  count <= Z.of_nat fuel ->
  log_of (buffered_loop env fuel maskand_stransfer stransfer
            maskna_buffer maskna_itemsize src_itemsize
            dst_stride src_stride maskna_stride wheremask_stride
            count dst src maskna wheremask s)
  = flat_map (chunk_calls (Z.pos (NPY_ARRAY_ASSIGN_BUFFERSIZE env))
                maskna_buffer maskna_itemsize src_itemsize
                dst_stride src_stride maskna_stride wheremask_stride
                count dst src maskna wheremask)
      (seq 0 (chunk_count (Z.pos (NPY_ARRAY_ASSIGN_BUFFERSIZE env)) count)).
Proof.
  set (B := Z.pos (NPY_ARRAY_ASSIGN_BUFFERSIZE env)).
  assert (HB : 0 < B) by (subst B; lia).
  induction fuel as [| fuel IH]; intros count dst src maskna wheremask s Hf;
    cbn [buffered_loop]; fold B; rewrite buffered_count_min;
    rewrite !bind_log, call_maskand_stransfer_log,
      call_masked_stransfer_log.
  - assert (Hc : count <= B) by lia.
    rewrite chunk_count_last by assumption.
    replace (0 <? count - Z.min count B) with false
      by (symmetry; apply Z.ltb_ge; lia).
    rewrite ret_log. cbn [seq flat_map]. rewrite chunk_calls_first.
    reflexivity.
  - destruct (Z.le_gt_cases count B) as [Hc | Hc].
    + rewrite chunk_count_last by assumption.
      replace (0 <? count - Z.min count B) with false
        by (symmetry; apply Z.ltb_ge; lia).
      rewrite ret_log. cbn [seq flat_map]. rewrite chunk_calls_first.
      reflexivity.
    + replace (0 <? count - Z.min count B) with true
        by (symmetry; apply Z.ltb_lt; lia).
      rewrite chunk_count_more by assumption.
      rewrite <- cons_seq, <- seq_shift. cbn [flat_map].
      rewrite chunk_calls_first.
      rewrite flat_map_concat_map, map_map, <- flat_map_concat_map.
      rewrite (flat_map_ext _ _
                 (chunk_calls_shift B maskna_buffer maskna_itemsize
                    src_itemsize dst_stride src_stride maskna_stride
                    wheremask_stride count dst src maskna wheremask)).
      replace (Z.min count B) with B by lia.
      rewrite IH by lia. reflexivity.
Qed.

(** The calls of one innermost run of [count] elements of
    [raw_array_wheremasked_assign_array_preservena], for any callables and
    any start pointers.  With [B] the capacity of the scratch buffer:
    - the run makes the calls of chunks [0 .. n-1] in order, and for each
      chunk first the combination of the NA-mask and the where-mask of that
      chunk into the scratch buffer, then the transfer under the buffered
      mask, both for the chunk's count of elements, with all four data
      pointers advanced from the start of the run by the counts of the
      chunks before times their own stride;
    - a chunk's count is the minimum of what remains of the run and [B];
    - the counts add up to [count]: the chunks cover the run exactly,
      without overlap. *)
Lemma process_innermost_in_chunks
    (env : Collaborators)
    (maskand_stransfer : PyArray_StridedBinaryOp)
    (stransfer : PyArray_MaskedStridedUnaryOp)
    (maskna_buffer : ptr) (maskna_itemsize src_itemsize : Z)
    (dst_stride src_stride maskna_stride wheremask_stride : Z)
    (count : Z) (dst_data src_data maskna_data wheremask_data : ptr)
    (s : state) :
  let B := Z.pos (NPY_ARRAY_ASSIGN_BUFFERSIZE env) in
  let n := chunk_count B count in
  let size := chunk_size B count in
  let before k := fold_right Z.add 0 (map size (seq 0 k)) in
  log_of (process_innermost env maskand_stransfer stransfer
            maskna_buffer maskna_itemsize src_itemsize
            dst_stride src_stride maskna_stride wheremask_stride
            count dst_data src_data maskna_data wheremask_data s)
  = flat_map
      (fun k =>
         [Call_maskand_stransfer maskna_buffer maskna_itemsize
            (maskna_data + before k * maskna_stride) maskna_stride
            (wheremask_data + before k * wheremask_stride) wheremask_stride
            (size k);
          Call_masked_stransfer
            (dst_data + before k * dst_stride) dst_stride
            (src_data + before k * src_stride) src_stride
            maskna_buffer maskna_itemsize (size k) src_itemsize])
      (seq 0 n) /\
  (forall k, (k < n)%nat -> size k = Z.min (count - before k) B) /\
  before n = count.
Proof.
  intros B n size before.
  assert (HB : 0 < B) by (subst B; lia).
  split; [| split].
  - unfold process_innermost.
    rewrite buffered_loop_log by lia. fold B. fold n.
    apply flat_map_ext_seq. intros k Hk.
    unfold chunk_calls. subst size before. cbv beta.
    rewrite chunk_starts by assumption. reflexivity.
  - intros k Hk. subst size before. cbv beta.
    rewrite chunk_starts by assumption. reflexivity.
  - subst size before. cbv beta.
    apply chunk_sizes_sum; [assumption | reflexivity].
Qed.

(** A run of 10 elements with a buffer of 4: chunks of 4, 4 and 2. *)
Example preservena_run_of_ten :
  log_of (process_innermost (copy_collaborators 1000 4)
            maskand_transfer (masked_strided_transfer (fun b => b) 1)
            1000 1 1 1 1 1 1 10 100 200 300 400 arange_state)
  = [Call_maskand_stransfer 1000 1 300 1 400 1 4;
     Call_masked_stransfer 100 1 200 1 1000 1 4 1;
     Call_maskand_stransfer 1000 1 304 1 404 1 4;
     Call_masked_stransfer 104 1 204 1 1000 1 4 1;
     Call_maskand_stransfer 1000 1 308 1 408 1 2;
     Call_masked_stransfer 108 1 208 1 1000 1 2 1].
Proof. reflexivity. Qed.

(** ** The temporary copy *)

(** When a temporary is made, in the words of the source's comment: the
    arrays overlap, and the destination has 2 or more dimensions or is 1-D
    with its stride and the innermost source stride of opposite signs. *)
Lemma needs_temporary_iff env dst src :
  PyArray_NDIM src <> 0%nat ->
  needs_temporary env dst src = true <->
  arrays_overlap env src dst = true /\
  ((2 <= PyArray_NDIM dst)%nat \/
   (PyArray_NDIM dst = 1%nat /\
    nth 0 (PyArray_STRIDES dst) 0
    * nth (PyArray_NDIM src - 1) (PyArray_STRIDES src) 0 < 0)).
Proof.
  intros Hnd. unfold needs_temporary.
  rewrite andb_true_iff, orb_true_iff, !andb_true_iff.
  rewrite Nat.eqb_eq, Nat.leb_le, Nat.ltb_lt, Z.ltb_lt.
  split.
  - intros [[[[H1 H2] H3] | H] Ho]; (split; [assumption |]); [right | left];
      auto; lia.
  - intros [Ho [H | [H1 H2]]]; (split; [| assumption]); [right | left];
      repeat split; auto; lia.
Qed.

(** The checks let a call through exactly when the destination is
    writeable, the cast is permitted, [preservewhichna] is [NULL], and the
    NA scan, where it is made, finds nothing. *)
Lemma assign_checks_pass env dst src wheremask casting preservewhichna s
    src_has_maskna s1 lg :
  assign_checks env dst src wheremask casting preservewhichna s
  = (inl src_has_maskna, s1, lg) <->
  PyArray_ISWRITEABLE dst = true /\
  PyArray_CanCastTypeTo env (PyArray_DESCR src) (PyArray_DESCR dst) casting
  = true /\
  preservewhichna = None /\
  if PyArray_HASMASKNA src && negb (PyArray_HASMASKNA dst)
  then PyArray_ContainsNA env src wheremask s = (0, s1) /\
       src_has_maskna = false /\ lg = [Call_ContainsNA src wheremask]
  else src_has_maskna = PyArray_HASMASKNA src /\ s1 = s /\ lg = [].
Proof.
  unfold assign_checks.
  destruct (PyArray_ISWRITEABLE dst); simpl.
  2: { split; [discriminate | intros [H _]; discriminate]. }
  destruct (PyArray_CanCastTypeTo env _ _ casting); simpl.
  2: { split; [discriminate | intros (_ & H & _); discriminate]. }
  destruct preservewhichna as [w |]; simpl.
  { split; [discriminate | intros (_ & _ & H & _); discriminate]. }
  destruct (PyArray_HASMASKNA src && negb (PyArray_HASMASKNA dst)).
  - unfold ContainsNA. step_m.
    destruct (PyArray_ContainsNA env src wheremask s) as [c s'].
    destruct (Z.eqb_spec c (-1)) as [-> | Hc1]; simpl.
    { split; [discriminate | intros (_ & _ & _ & H & _); discriminate]. }
    destruct (Z.eqb_spec c 0) as [-> | Hc0]; simpl.
    + split.
      * intros H. injection H as <- <- <-. repeat split.
      * intros (_ & _ & _ & H & -> & ->). injection H as <-. reflexivity.
    + split; [discriminate |].
      intros (_ & _ & _ & H & _). injection H as -> _. contradiction.
  - unfold ret. split.
    + intros H. injection H as <- <- <-. repeat split.
    + intros (_ & _ & _ & -> & -> & ->). reflexivity.
Qed.

(** Prove [temporary_copy] with [tac] for some list of calls, then show the
    list is the one of the goal. *)
Ltac same_calls tac :=
  match goal with
  | |- temporary_copy ?e ?d ?a ?b ?w ?m ?p ?s1 (?r, ?s, ?calls) =>
      let H := fresh "H" in
      eassert (H : temporary_copy e d a b w m p s1 (r, s, _));
      [ tac
      | cbn [app] in H; rewrite ?app_nil_r in H;
        cbn [app]; rewrite ?app_nil_r; exact H ]
  end.

(** C2, as the code has it.  A call that gets as far as the overlap
    resolution (a non-0-dimensional source that is not the destination's own
    view, and checks that pass) with overlapping arrays and a destination of
    2 or more dimensions, or a 1-D destination strided against the source's
    innermost stride, asks for a temporary like the destination, with an NA
    mask when the source has one, assigns the source to it by a nested call
    without where-mask, with unsafe casting and without NA preservation,
    runs the rest of the call on the temporary in place of the source, and
    releases the temporary last, whether the nested call or the rest of the
    call succeeds or fails. *)
Theorem overlap_makes_temporary_copy
    (env : Collaborators) (depth : nat) (dst src : PyArrayObject)
    (wheremask : option PyArrayObject) (casting : NPY_CASTING)
    (preservena : bool) (preservewhichna : option (list bool))
    (s s1 : state) (src_has_maskna : bool) (check_calls : list event) :
  PyArray_NDIM src <> 0%nat ->
  same_view dst src = false ->
  assign_checks env dst src wheremask casting preservewhichna s
  = (inl src_has_maskna, s1, check_calls) ->
  arrays_overlap env src dst = true ->
  ((2 <= PyArray_NDIM dst)%nat \/
   (PyArray_NDIM dst = 1%nat /\
    nth 0 (PyArray_STRIDES dst) 0
    * nth (PyArray_NDIM src - 1) (PyArray_STRIDES src) 0 < 0)) ->
  exists r s' calls,
    PyArray_AssignArray env (S depth) dst src wheremask casting preservena
      preservewhichna s = (r, s', check_calls ++ calls) /\
    temporary_copy env depth dst src wheremask src_has_maskna preservena s1
      (r, s', calls).
Proof.
  intros Hnd Hsame Hchecks Hoverlap Hshape.
  assert (Htmp : needs_temporary env dst src = true).
  { apply needs_temporary_iff; auto. }
  assert (Hwhich : preservewhichna = None).
  { apply assign_checks_pass in Hchecks. tauto. }
  subst preservewhichna.
  apply Nat.eqb_neq in Hnd.
  cbn [PyArray_AssignArray]. rewrite Hnd, Hsame.
  erewrite bind_run; [| exact Hchecks]. rewrite Htmp.
  step_m.
  destruct (PyArray_NewLikeArray env dst s1) as [[tmp0 |] s2] eqn:Ealloc.
  2: { do 3 eexists. split; [reflexivity |]. now constructor. }
  destruct (PyArray_HASMASKNA src) eqn:Hmask.
  - destruct (PyArray_AllocateMaskNA env tmp0 s2) as [[tmp |] s3] eqn:Emask.
    2: { do 3 eexists. split; [reflexivity |].
         eapply no_maskna; eassumption. }
    destruct (PyArray_AssignArray env depth tmp src None NPY_UNSAFE_CASTING
                false None s3) as [[[retcode |] s4] copy_calls] eqn:Ecopy.
    2: { do 3 eexists. split; [reflexivity |].
         same_calls ltac:(eapply nested_deeper; try eassumption;
                          rewrite Hmask; split; [eassumption | reflexivity]). }
    destruct (retcode <? 0) eqn:Hret.
    + do 3 eexists. split; [reflexivity |].
      change (-1) with (retcode_of fail).
      same_calls ltac:(eapply copied; try eassumption;
                       [rewrite Hmask; split; [eassumption | reflexivity]
                       | rewrite Hret; repeat split]).
    + destruct (assign_broadcast env dst tmp wheremask (PyArray_HASMASKNA dst)
                  src_has_maskna preservena None s4)
        as [[l s5] rest_calls] eqn:Erest.
      do 3 eexists. split; [reflexivity |].
      change (match l with finish => 0 | fail => -1 end) with (retcode_of l).
      same_calls ltac:(eapply copied; try eassumption;
                       [rewrite Hmask; split; [eassumption | reflexivity]
                       | rewrite Hret; eassumption]).
  - destruct (PyArray_AssignArray env depth tmp0 src None NPY_UNSAFE_CASTING
                false None s2) as [[[retcode |] s4] copy_calls] eqn:Ecopy.
    2: { do 3 eexists. split; [reflexivity |].
         same_calls ltac:(eapply nested_deeper; try eassumption;
                          rewrite Hmask; repeat split). }
    destruct (retcode <? 0) eqn:Hret.
    + do 3 eexists. split; [reflexivity |].
      change (-1) with (retcode_of fail).
      same_calls ltac:(eapply copied; try eassumption;
                       [rewrite Hmask; repeat split
                       | rewrite Hret; repeat split]).
    + destruct (assign_broadcast env dst tmp0 wheremask
                  (PyArray_HASMASKNA dst) src_has_maskna preservena None s4)
        as [[l s5] rest_calls] eqn:Erest.
      do 3 eexists. split; [reflexivity |].
      change (match l with finish => 0 | fail => -1 end) with (retcode_of l).
      same_calls ltac:(eapply copied; try eassumption;
                       [rewrite Hmask; repeat split
                       | rewrite Hret; eassumption]).
Qed.

Lemma overlap_makes_temporary_copy_witness :
  let dst := view 1 [2; 2] [2; 1] in
  let src := view 0 [2; 2] [2; 1] in
  exists r s' calls,
    PyArray_AssignArray numpy 1 dst src None NPY_SAFE_CASTING false None
      arange_state = (r, s', [] ++ calls) /\
    temporary_copy numpy 0 dst src None false false arange_state
      (r, s', calls).
Proof.
  apply (@overlap_makes_temporary_copy numpy 0%nat
           (view 1 [2; 2] [2; 1]) (view 0 [2; 2] [2; 1])
           None NPY_SAFE_CASTING false None arange_state arange_state
           false []).
  - simpl. lia.
  - reflexivity.
  - reflexivity.
  - reflexivity.
  - left. simpl. lia.
Defined.

(** C2, as stated, fails: the two views of a self-assignment overlap and
    have 2 dimensions, and the call returns success without asking for a
    temporary. *)
Lemma overlapping_self_assignment_makes_no_copy :
  let a := view 0 [2; 2] [2; 1] in
  let r := PyArray_AssignArray numpy 1 a a None NPY_SAFE_CASTING false None
             arange_state in
  arrays_overlap numpy a a = true /\
  (2 <= PyArray_NDIM a)%nat /\
  result_of r = Some 0 /\
  forall tmp, ~ In (Call_NewLikeArray a tmp) (log_of r).
Proof.
  vm_compute. repeat split; auto.
Qed.

(** The run of the witness: the temporary is filled by the nested call,
    read by the rest of the call, and released last. *)
Example temporary_copy_run :
  let dst := view 1 [2; 2] [2; 1] in
  let src := view 0 [2; 2] [2; 1] in
  let tmp := new_like 2000 dst in
  let r := PyArray_AssignArray numpy 1 dst src None NPY_SAFE_CASTING false
             None arange_state in
  result_of r = Some 0 /\
  log_of r
  = [Call_NewLikeArray dst (Some tmp);
     Call_AssignArray tmp src None NPY_UNSAFE_CASTING false None;
     Call_GetDTypeTransferFunction true 2 2 int8 int8;
     Call_stransfer 2000 2 0 2 2 1; Call_stransfer 2001 2 1 2 2 1;
     Return_AssignArray 0;
     Call_GetDTypeTransferFunction true 2 2 int8 int8;
     Call_stransfer 1 2 2000 2 2 1; Call_stransfer 2 2 2001 2 2 1;
     Call_Py_DECREF tmp] /\
  map (st_mem (state_of r)) [1; 2; 3; 4] = [0; 1; 2; 3].
Proof. vm_compute. repeat split. Qed.

(** A call that needs no temporary never nests: it answers at any depth,
    and the same at every depth. *)
Lemma assign_array_without_temporary env depth dst src wheremask casting
    preservena preservewhichna s :
  needs_temporary env dst src = false ->
  PyArray_AssignArray env depth dst src wheremask casting preservena
    preservewhichna s
  = PyArray_AssignArray env 0 dst src wheremask casting preservena
      preservewhichna s /\
  result_of (PyArray_AssignArray env depth dst src wheremask casting
               preservena preservewhichna s) <> None.
Proof.
  intros Hnt. split.
  - destruct depth; cbn [PyArray_AssignArray]; rewrite Hnt; reflexivity.
  - unfold result_of. destruct depth; cbn [PyArray_AssignArray];
      rewrite Hnt; step_m;
      repeat match goal with
             | |- context [NpyNA_FromObject env ?a ?s] =>
                 destruct (NpyNA_FromObject env a s) as [[? |] ?]
             | |- context [PyArray_AssignNA env ?a ?b ?c ?d ?e ?s] =>
                 destruct (PyArray_AssignNA env a b c d e s)
             | |- context [PyArray_AssignRawScalar env ?a ?b ?c ?d ?e ?f ?g
                             ?s] =>
                 destruct (PyArray_AssignRawScalar env a b c d e f g s)
             | |- context [assign_checks env ?a ?b ?c ?d ?e ?s] =>
                 destruct (assign_checks env a b c d e s) as [[[? | []] ?] ?]
             | |- context [assign_broadcast env ?a ?b ?c ?d ?e ?f ?g ?s] =>
                 destruct (assign_broadcast env a b c d e f g s)
                   as [[[] ?] ?]
             | |- context [if ?b then _ else _] => destruct b
             end;
      cbn; discriminate.
Qed.

(** ** Overlap in one dimension *)

(** C1 at [dst = a[1:5]], [src = a[0:8:2]] for [a = arange(8, int8)]: the
    source starts below the destination and reaches past it, both strides
    are positive.  The traversal is reversed (strides [-1] and [-2], start
    pointers on the last elements), and destination element 2 (address 3)
    ends up 6 where source element 2 (address 4) held 4 before the call:
    the reversed loop wrote address 4 before it read it. *)
Theorem overlap_reversal_unequal_strides :
  let dst := view 1 [4] [1] in
  let src := view 0 [4] [2] in
  let r := PyArray_AssignArray numpy 0 dst src None NPY_SAFE_CASTING false
             None arange_state in
  PyArray_DATA src < PyArray_DATA dst /\
  PyArray_DATA src + 4 * 2 > PyArray_DATA dst /\
  result_of r = Some 0 /\
  log_of r = [Call_GetDTypeTransferFunction true (-2) (-1) int8 int8;
              Call_stransfer 4 (-1) 6 (-2) 4 1] /\
  map (st_mem arange_state) [0; 2; 4; 6] = [0; 2; 4; 6] /\
  map (st_mem (state_of r)) [1; 2; 3; 4] = [0; 2; 6; 6].
Proof. vm_compute. repeat split. Qed.

(** With equal strides the same overlap is copied right:
    [a[1:5] = a[0:4]]. *)
Example overlap_reversal_equal_strides :
  let r := PyArray_AssignArray numpy 0 (view 1 [4] [1]) (view 0 [4] [1])
             None NPY_SAFE_CASTING false None arange_state in
  result_of r = Some 0 /\
  log_of r = [Call_GetDTypeTransferFunction true (-1) (-1) int8 int8;
              Call_stransfer 4 (-1) 3 (-1) 4 1] /\
  map (st_mem (state_of r)) [1; 2; 3; 4] = [0; 1; 2; 3].
Proof. vm_compute. repeat split. Qed.

(** ** Where-mask selectivity *)

Lemma store_other m p n bytes a :
  ~ in_element p n a -> store m p n bytes a = m a.
Proof.
  unfold in_element, store. intros H.
  destruct (Z.leb_spec p a); destruct (Z.ltb_spec a (p + n)); simpl;
    try reflexivity.
  exfalso. apply H. lia.
Qed.

Lemma masked_strided_loop_frame cast dst_itemsize dst_stride src_stride
    mask_stride src_itemsize a : forall N dst src mask m,
  (forall i j, 0 <= i < Z.of_nat N -> 0 <= j < Z.of_nat N -> i <> j ->
     ~ in_element (dst + i * dst_stride) dst_itemsize
         (mask + j * mask_stride)) ->
  (forall i, 0 <= i < Z.of_nat N ->
     in_element (dst + i * dst_stride) dst_itemsize a ->
     mask_true (m (mask + i * mask_stride)) = false) ->
  masked_strided_loop cast dst_itemsize N dst dst_stride src src_stride
    mask mask_stride src_itemsize m a
  = m a.
Proof.
  induction N as [| N IH]; intros dst src mask m Halias Hfalse;
    [reflexivity |].
  cbn [masked_strided_loop].
  assert (Hhead : forall b,
            ~ in_element dst dst_itemsize b ->
            (if mask_true (m mask)
             then store m dst dst_itemsize (cast (load m src src_itemsize))
             else m) b = m b).
  { intros b Hb. destruct (mask_true (m mask)); [| reflexivity].
    apply store_other. assumption. }
  rewrite IH.
  - destruct (mask_true (m mask)) eqn:Hm; [| reflexivity].
    apply store_other. intros Hin.
    specialize (Hfalse 0). rewrite Z.mul_0_l, !Z.add_0_r in Hfalse.
    rewrite Hfalse in Hm; [discriminate | lia | assumption].
  - intros i j Hi Hj Hij.
    replace (dst + dst_stride + i * dst_stride)
      with (dst + (i + 1) * dst_stride) by ring.
    replace (mask + mask_stride + j * mask_stride)
      with (mask + (j + 1) * mask_stride) by ring.
    apply Halias; lia.
  - intros i Hi Hin.
    replace (mask + mask_stride + i * mask_stride)
      with (mask + (i + 1) * mask_stride) by ring.
    rewrite Hhead.
    + apply Hfalse; [lia |].
      replace (dst + (i + 1) * dst_stride)
        with (dst + dst_stride + i * dst_stride) by ring.
      assumption.
    + specialize (Halias 0 (i + 1)).
      rewrite Z.mul_0_l, Z.add_0_r in Halias. apply Halias; lia.
Qed.

(** The masked callable of the specification meets the contract. *)
Lemma masked_strided_transfer_frame cast dst_itemsize :
  masked_frame dst_itemsize (masked_strided_transfer cast dst_itemsize).
Proof.
  intros dst ds src ss mask ms N isz s a Halias Hfalse.
  unfold masked_strided_transfer. cbn [st_mem].
  apply masked_strided_loop_frame.
  - intros i j Hi Hj. apply Halias; lia.
  - intros i Hi. apply Hfalse. lia.
Qed.

Lemma bind_state {A B} (m : M A) (f : A -> M B) s :
  state_of (bind m f s) = state_of (f (result_of (m s)) (state_of (m s))).
Proof.
  unfold bind, result_of, state_of.
  destruct (m s) as [[a s1] l1]. simpl.
  destruct (f a s1) as [[b s2] l2]. reflexivity.
Qed.

Section Iteration_invariant.

Variable I : state -> Prop.

Lemma for_loop_invariant body : forall n i s,
  (forall c s, i <= c < i + Z.of_nat n -> I s -> I (state_of (body c s))) ->
  I s -> I (state_of (for_loop n i body s)).
Proof.
  induction n as [| n IH]; intros i s Hbody Hs; [assumption |].
  cbn [for_loop]. rewrite bind_state. apply IH.
  - intros c s' Hc. apply Hbody. lia.
  - apply Hbody; [lia | assumption].
Qed.

Lemma nth_advance data strides idim c k :
  List.length data = List.length strides ->
  nth k (advance data strides idim c) 0
  = nth k data 0 + c * nth idim (nth k strides []) 0.
Proof.
  unfold advance. revert strides k.
  induction data as [| p data IH]; intros [| st strides] k Hlen;
    try discriminate; simpl.
  - destruct k; simpl; destruct idim; lia.
  - destruct k; [reflexivity |]. apply IH. simpl in Hlen. lia.
Qed.

Lemma length_advance data strides idim c :
  List.length data = List.length strides ->
  List.length (advance data strides idim c) = List.length strides.
Proof.
  intros H. unfold advance. rewrite length_map, length_combine. lia.
Qed.

Lemma NPY_RAW_ITER_invariant shape strides body : forall idims data s,
  List.length data = List.length strides ->
  (forall cs d s, in_range shape idims cs ->
     at_coords idims cs strides data d ->
     I s -> I (state_of (body d s))) ->
  I s -> I (state_of (NPY_RAW_ITER idims shape strides data body s)).
Proof.
  induction idims as [| idim rest IH]; intros data s Hlen Hbody Hs.
  - cbn [NPY_RAW_ITER]. apply (Hbody []); [constructor | | assumption].
    intros k. simpl. lia.
  - cbn [NPY_RAW_ITER]. apply for_loop_invariant; [| assumption].
    intros c s' Hc Hs'. apply IH.
    + apply length_advance. assumption.
    + intros cs d s'' Hcs Hd. apply (Hbody (c :: cs)).
      * constructor; [| assumption].
        destruct (Z.le_gt_cases 0 (nth idim shape 0)); [| lia].
        rewrite Z2Nat.id in Hc by assumption. lia.
      * intros k. rewrite (Hd k), nth_advance by assumption.
        cbn [outer_offset]. lia.
    + assumption.
Qed.

End Iteration_invariant.

Lemma call_masked_stransfer_state f dst ds src ss mask ms N isz s :
  state_of (call_masked_stransfer f dst ds src ss mask ms N isz s)
  = f dst ds src ss mask ms N isz s.
Proof. reflexivity. Qed.

(** The masked iteration as the routine runs it, from whatever start
    pointers and strides: a byte that belongs to no destination element
    with a true mask keeps its value, provided no mask byte of the
    iteration is stored in the destination element of another position. *)
Lemma masked_iteration_frame stransfer dst_itemsize idims shape
    ds ss ws dst src wm n0 src_itemsize s0 a :
  masked_frame dst_itemsize stransfer ->
  (forall c0 cs c0' cs',
     0 <= c0 < n0 -> in_range shape idims cs ->
     0 <= c0' < n0 -> in_range shape idims cs' ->
     ~ (c0 = c0' /\ cs = cs') ->
     ~ in_element (dst + c0 * nth 0 ds 0 + outer_offset idims cs ds)
         dst_itemsize
         (wm + c0' * nth 0 ws 0 + outer_offset idims cs' ws)) ->
  (forall c0 cs,
     0 <= c0 < n0 -> in_range shape idims cs ->
     in_element (dst + c0 * nth 0 ds 0 + outer_offset idims cs ds)
       dst_itemsize a ->
     mask_true (st_mem s0 (wm + c0 * nth 0 ws 0 + outer_offset idims cs ws))
     = false) ->
  st_mem
    (state_of
       (NPY_RAW_ITER idims shape [ds; ss; ws] [dst; src; wm]
          (fun data =>
             call_masked_stransfer stransfer
               (nth 0 data 0) (nth 0 ds 0) (nth 1 data 0) (nth 0 ss 0)
               (nth 2 data 0) (nth 0 ws 0) n0 src_itemsize) s0)) a
  = st_mem s0 a.
Proof.
  intros Hframe Halias Hfalse.
  set (mask_at := fun c0 cs =>
                    wm + c0 * nth 0 ws 0 + outer_offset idims cs ws).
  set (I := fun s : state =>
              (forall c0 cs, 0 <= c0 < n0 -> in_range shape idims cs ->
                 mask_true (st_mem s0 (mask_at c0 cs)) = false ->
                 st_mem s (mask_at c0 cs) = st_mem s0 (mask_at c0 cs)) /\
              st_mem s a = st_mem s0 a).
  assert (HI : I (state_of
                    (NPY_RAW_ITER idims shape [ds; ss; ws] [dst; src; wm]
                       (fun data =>
                          call_masked_stransfer stransfer
                            (nth 0 data 0) (nth 0 ds 0)
                            (nth 1 data 0) (nth 0 ss 0)
                            (nth 2 data 0) (nth 0 ws 0) n0 src_itemsize)
                       s0))).
  { apply NPY_RAW_ITER_invariant; [reflexivity | | split; auto].
    intros cs d s Hcs Hd [Hmask Ha].
    rewrite call_masked_stransfer_state.
    pose proof (Hd 0%nat) as Hd0. pose proof (Hd 2%nat) as Hd2.
    cbn [nth] in Hd0, Hd2. rewrite Hd0, Hd2.
    assert (Edst : forall i,
              dst + outer_offset idims cs ds + i * nth 0 ds 0
              = dst + i * nth 0 ds 0 + outer_offset idims cs ds)
      by (intros; ring).
    assert (Ewm : forall i,
              wm + outer_offset idims cs ws + i * nth 0 ws 0
              = mask_at i cs)
      by (intros; unfold mask_at; ring).
    assert (Hrun : forall i j, 0 <= i < n0 -> 0 <= j < n0 -> i <> j ->
              ~ in_element (dst + outer_offset idims cs ds + i * nth 0 ds 0)
                  dst_itemsize
                  (wm + outer_offset idims cs ws + j * nth 0 ws 0)).
    { intros i j Hi Hj Hij. rewrite Edst, Ewm.
      apply Halias; try assumption. intros [E _]. contradiction. }
    assert (Hnow : forall i, 0 <= i < n0 ->
              in_element (dst + outer_offset idims cs ds + i * nth 0 ds 0)
                dst_itemsize a ->
              mask_true (st_mem s (wm + outer_offset idims cs ws
                                   + i * nth 0 ws 0)) = false).
    { intros i Hi Hin. rewrite Edst in Hin. rewrite Ewm.
      pose proof (Hfalse i cs Hi Hcs Hin) as Hf. fold (mask_at i cs) in Hf.
      rewrite Hmask; assumption. }
    split.
    - intros c0 cs' Hc0 Hcs' Hinit.
      rewrite <- (Hmask c0 cs' Hc0 Hcs' Hinit).
      apply Hframe; [assumption |].
      intros i Hi Hin. rewrite Edst in Hin. rewrite Ewm.
      destruct (Z.eq_dec i c0) as [-> | Hne].
      + destruct (list_eq_dec Z.eq_dec cs cs') as [-> | Hne'].
        * rewrite Hmask; assumption.
        * exfalso.
          apply (Halias c0 cs c0 cs' Hc0 Hcs Hc0 Hcs');
            [intros [_ E]; contradiction | exact Hin].
      + exfalso.
        apply (Halias i cs c0 cs' Hi Hcs Hc0 Hcs');
          [intros [E _]; contradiction | exact Hin].
    - rewrite <- Ha. apply Hframe; assumption. }
  exact (proj2 HI).
Qed.

Lemma GetMaskedDTypeTransferFunction_run env aligned ss ds ms sd dd md s :
  GetMaskedDTypeTransferFunction env aligned ss ds ms sd dd md s
  = match PyArray_GetMaskedDTypeTransferFunction env aligned ss ds ms
            sd dd md with
    | Some t =>
        (Some t, s,
         [Call_GetMaskedDTypeTransferFunction aligned ss ds ms sd dd md])
    | None =>
        (None, mkState (st_mem s) (Some PyExc_raised_by_callee),
         [Call_GetMaskedDTypeTransferFunction aligned ss ds ms sd dd md])
    end.
Proof.
  unfold GetMaskedDTypeTransferFunction, bind, emit, resolved.
  destruct (PyArray_GetMaskedDTypeTransferFunction env aligned ss ds ms
              sd dd md); reflexivity.
Qed.

Lemma result_of_triple {A} (a : A) s l : result_of (a, s, l) = a.
Proof. reflexivity. Qed.

Lemma state_of_triple {A} (a : A) s l : state_of (a, s, l) = s.
Proof. reflexivity. Qed.

Lemma return_status_state needs_api s :
  state_of (return_status needs_api s) = s.
Proof. reflexivity. Qed.

Lemma in_range_nil shape cs : in_range shape [] cs -> cs = [].
Proof. intros H. inversion H. reflexivity. Qed.



(** The run of the witness: the element at the false position keeps 33. *)
Example wheremask_selects_run :
  let r :=
    raw_array_wheremasked_assign_array numpy 1 [4] int8 32 [1] int8 0 [1]
      bool_ 24 [1] wheremask_state in
  result_of r = 0 /\
  map (st_mem wheremask_state) [32; 33; 34; 35] = [32; 33; 34; 35] /\
  map (st_mem (state_of r)) [32; 33; 34; 35] = [0; 33; 2; 3].
Proof. vm_compute. repeat split. Qed.

(** Two dimensions, a where-mask broadcast along the rows: rows 0 and 1 of
    a [(2, 3)] destination under the mask [1; 0; 1]. *)
Example wheremask_selects_run_2d :
  let s := mkState (store arange_mem 24 3 [1; 0; 1]) None in
  let r :=
    raw_array_wheremasked_assign_array numpy 2 [3; 2] int8 32 [1; 3]
      int8 0 [1; 3] bool_ 24 [1; 0] s in
  result_of r = 0 /\
  map (st_mem (state_of r)) [32; 33; 34; 35; 36; 37] = [0; 33; 2; 3; 36; 5].
Proof. vm_compute. repeat split. Qed.

(** The destination as its own where-mask, as the orchestrator uses the
    routine on NA masks (lines 630-640): the exposure flags [1; 0; 1; 0] at
    address 32 take the source's flags [0; 0; 1; 1] where they are set. *)
Example wheremask_selects_run_self :
  let s := mkState (store (store arange_mem 32 4 [1; 0; 1; 0])
                      40 4 [0; 0; 1; 1]) None in
  let r :=
    raw_array_wheremasked_assign_array numpy 1 [4] bool_ 32 [1]
      bool_ 40 [1] bool_ 32 [1] s in
  result_of r = 0 /\
  map (st_mem (state_of r)) [32; 33; 34; 35] = [0; 0; 1; 0].
Proof. vm_compute. repeat split. Qed.

(** ** The reversed traversal with equal strides *)

Lemma store_same m p n bytes a :
  in_element p n a -> store m p n bytes a = nth (Z.to_nat (a - p)) bytes 0.
Proof.
  unfold in_element, store. intros H.
  destruct (Z.leb_spec p a); destruct (Z.ltb_spec a (p + n)); simpl;
    try reflexivity; lia.
Qed.

Lemma load_ext m m' p n :
  (forall a, in_element p n a -> m a = m' a) -> load m p n = load m' p n.
Proof.
  intros H. unfold load. apply map_ext_in. intros j Hj.
  apply in_seq in Hj. apply H. unfold in_element. lia.
Qed.

Lemma load_nth m p n j :
  0 <= j < n -> nth (Z.to_nat j) (load m p n) 0 = m (p + j).
Proof.
  intros Hj. unfold load.
  rewrite (nth_indep _ 0 (m (p + Z.of_nat 0)))
    by (rewrite length_map, length_seq; lia).
  rewrite (map_nth (fun j => m (p + Z.of_nat j))).
  rewrite seq_nth by lia. f_equal. lia.
Qed.

(** The unmasked callable writes nothing but the destination elements of
    its run. *)
Lemma strided_loop_frame cast dst_itemsize dst_stride src_stride
    src_itemsize a : forall N dst src m,
  (forall i, 0 <= i < Z.of_nat N ->
     ~ in_element (dst + i * dst_stride) dst_itemsize a) ->
  strided_loop cast dst_itemsize N dst dst_stride src src_stride
    src_itemsize m a
  = m a.
Proof.
  induction N as [| N IH]; intros dst src m Hout; [reflexivity |].
  cbn [strided_loop]. rewrite IH.
  - apply store_other. specialize (Hout 0).
    rewrite Z.mul_0_l, Z.add_0_r in Hout. apply Hout. lia.
  - intros i Hi.
    replace (dst + dst_stride + i * dst_stride)
      with (dst + (i + 1) * dst_stride) by ring.
    apply Hout. lia.
Qed.

(** Run from the last element to the first with one and the same stride,
    no smaller than the elements, and with the source below the
    destination, the callable gives every destination element the
    conversion of the source element as it was before the run. *)
Lemma strided_loop_reversed cast dst_itemsize src_itemsize stride
    dst src : forall N m0 k j,
  src < dst ->
  0 <= dst_itemsize <= stride -> 0 <= src_itemsize <= stride ->
  0 <= k < Z.of_nat N -> 0 <= j < dst_itemsize ->
  strided_loop cast dst_itemsize N
    (dst + (Z.of_nat N - 1) * stride) (- stride)
    (src + (Z.of_nat N - 1) * stride) (- stride) src_itemsize m0
    (dst + k * stride + j)
  = nth (Z.to_nat j) (cast (load m0 (src + k * stride) src_itemsize)) 0.
Proof.
  induction N as [| N IH]; intros m0 k j Hlt Hd Hs Hk Hj; [lia |].
  cbn [strided_loop].
  replace (Z.of_nat (S N) - 1) with (Z.of_nat N) by lia.
  replace (dst + Z.of_nat N * stride + - stride)
    with (dst + (Z.of_nat N - 1) * stride) by ring.
  replace (src + Z.of_nat N * stride + - stride)
    with (src + (Z.of_nat N - 1) * stride) by ring.
  destruct (Z.eq_dec k (Z.of_nat N)) as [-> | Hne].
  - rewrite strided_loop_frame.
    + rewrite store_same by (unfold in_element; lia).
      f_equal. f_equal. lia.
    + intros i Hi. unfold in_element. nia.
  - rewrite IH by (assumption || lia).
    f_equal. f_equal. apply load_ext.
    intros a Ha. apply store_other. unfold in_element in *. nia.
Qed.

(** [raw_array_assign_array] on two 1-D views of one buffer with the same
    stride, the source below the destination and reaching past it: the
    traversal is reversed, and every destination byte ends up with the
    value the corresponding source byte had before the call. *)
Lemma raw_array_assign_array_equal_strides scratch buffersize
    (n : nat) (stride dst src : Z) (dtype : PyArray_Descr) (s : state)
    (k j : Z) :
  src < dst -> src + Z.of_nat n * stride > dst ->
  0 <= elsize dtype <= stride ->
  0 <= k < Z.of_nat n -> 0 <= j < elsize dtype ->
  let r := raw_array_assign_array (copy_collaborators scratch buffersize)
             1 [Z.of_nat n] dtype dst [stride] dtype src [stride] s in
  result_of r = 0 /\
  st_mem (state_of r) (dst + k * stride + j)
  = st_mem s (src + k * stride + j).
Proof.
  intros Hlt Hpast Hsize Hk Hj r. subst r.
  unfold raw_array_assign_array.
  cbn [copy_collaborators PyArray_PrepareTwoRawArrayIter prepare_two
       raw_array_is_aligned andb].
  cbv zeta. unfold overlap_1d. cbn [Nat.eqb nth andb].
  replace (src <? dst) with true by (symmetry; apply Z.ltb_lt; lia).
  replace (src + Z.of_nat n * stride >? dst) with true
    by (symmetry; apply Z.gtb_lt; lia).
  cbn [negate0 nth andb outer_dims Nat.sub seq rev NPY_RAW_ITER].
  unfold GetDTypeTransferFunction, call_stransfer, return_status.
  cbn [copy_collaborators PyArray_GetDTypeTransferFunction].
  unfold bind, emit, resolved, run, ret, PyErr_Occurred, result_of, state_of.
  cbn [fst snd andb]. split; [reflexivity |].
  unfold strided_transfer. cbn [st_mem]. rewrite Nat2Z.id.
  rewrite strided_loop_reversed by (assumption || lia).
  rewrite load_nth by lia. ring_simplify (src + k * stride + j).
  reflexivity.
Qed.

(** [a[1:5] = a[0:4]] in these terms. *)
Example raw_array_assign_array_equal_strides_run :
  forall k, 0 <= k < 4 ->
  st_mem (state_of (raw_array_assign_array numpy 1 [4] int8 1 [1]
                      int8 0 [1] arange_state)) (1 + k)
  = k.
Proof.
  intros k Hk.
  pose proof (@raw_array_assign_array_equal_strides 1000 8192 4%nat 1 1 0
                int8 arange_state k 0) as H.
  cbv zeta in H. destruct H as [_ H]; try (simpl; lia).
  replace (1 + k) with (1 + k * 1 + 0) by lia.
  etransitivity; [exact H |]. simpl. unfold arange_mem. lia.
Qed.

(** ** The nested call returns *)

(** When no temporary can overlap the source (it is fresh memory), the
    nested call needs no temporary of its own, and the call that copies the
    source returns: with one level of nesting to spare it never answers
    [None]. *)
Lemma temporary_copy_returns env depth dst src wheremask casting preservena
    preservewhichna s :
  (forall tmp, arrays_overlap env src tmp = false) ->
  result_of (PyArray_AssignArray env (S depth) dst src wheremask casting
               preservena preservewhichna s) <> None.
Proof.
  intros Hfresh.
  assert (Hinner : forall tmp s3,
            result_of (PyArray_AssignArray env depth tmp src None
                         NPY_UNSAFE_CASTING false None s3) <> None).
  { intros tmp s3. apply assign_array_without_temporary.
    unfold needs_temporary. rewrite Hfresh. apply andb_false_r. }
  unfold result_of in *. cbn [PyArray_AssignArray]. step_m.
  repeat match goal with
         | |- context [NpyNA_FromObject env ?a ?s] =>
             destruct (NpyNA_FromObject env a s) as [[? |] ?]
         | |- context [PyArray_AssignNA env ?a ?b ?c ?d ?e ?s] =>
             destruct (PyArray_AssignNA env a b c d e s)
         | |- context [PyArray_AssignRawScalar env ?a ?b ?c ?d ?e ?f ?g ?s] =>
             destruct (PyArray_AssignRawScalar env a b c d e f g s)
         | |- context [assign_checks env ?a ?b ?c ?d ?e ?s] =>
             destruct (assign_checks env a b c d e s) as [[[? | []] ?] ?]
         | |- context [PyArray_NewLikeArray env ?a ?s] =>
             destruct (PyArray_NewLikeArray env a s) as [[? |] ?]
         | |- context [PyArray_AllocateMaskNA env ?a ?s] =>
             destruct (PyArray_AllocateMaskNA env a s) as [[? |] ?]
         | |- context [PyArray_AssignArray env depth ?a ?b ?c ?d ?e ?f ?s] =>
             let H := fresh "H" in
             pose proof (Hinner a s) as H;
             destruct (PyArray_AssignArray env depth a b c d e f s)
               as [[[? |] ?] ?]; [| exfalso; apply H; reflexivity]
         | |- context [assign_broadcast env ?a ?b ?c ?d ?e ?f ?g ?s] =>
             destruct (assign_broadcast env a b c d e f g s) as [[[] ?] ?]
         | |- context [if ?b then _ else _] => destruct b
         end;
    cbn; discriminate.
Qed.

(** ** The mask combination of the specification *)

Lemma maskand_loop_frame dst_stride src0_stride src1_stride a :
  forall N dst src0 src1 m,
  (forall i, 0 <= i < Z.of_nat N -> a <> dst + i * dst_stride) ->
  maskand_loop N dst dst_stride src0 src0_stride src1 src1_stride m a = m a.
Proof.
  induction N as [| N IH]; intros dst src0 src1 m Hout; [reflexivity |].
  cbn [maskand_loop]. rewrite IH.
  - apply store_other. unfold in_element. specialize (Hout 0). lia.
  - intros i Hi.
    replace (dst + dst_stride + i * dst_stride)
      with (dst + (i + 1) * dst_stride) by ring.
    apply Hout. lia.
Qed.

(** With the two masks stored outside the buffer, the callable leaves in
    buffer byte [i] the AND of exposure flag [i] and where-mask byte [i] as
    they were before the call: the combined mask of the chunk. *)
Lemma maskand_loop_combines dst_stride src0_stride src1_stride :
  forall N dst src0 src1 m i,
  dst_stride <> 0 ->
  (forall i j, 0 <= i < Z.of_nat N -> 0 <= j < Z.of_nat N ->
     src0 + j * src0_stride <> dst + i * dst_stride /\
     src1 + j * src1_stride <> dst + i * dst_stride) ->
  0 <= i < Z.of_nat N ->
  maskand_loop N dst dst_stride src0 src0_stride src1 src1_stride m
    (dst + i * dst_stride)
  = if mask_true (m (src0 + i * src0_stride))
       && mask_true (m (src1 + i * src1_stride))
    then 1 else 0.
Proof.
  induction N as [| N IH]; intros dst src0 src1 m i Hstride Hapart Hi; [lia |].
  cbn [maskand_loop].
  destruct (Z.eq_dec i 0) as [-> | Hne].
  - rewrite Z.mul_0_l, !Z.add_0_r.
    rewrite maskand_loop_frame by (intros j Hj; nia).
    rewrite store_same by (unfold in_element; lia).
    rewrite Z.sub_diag. reflexivity.
  - replace (dst + i * dst_stride)
      with (dst + dst_stride + (i - 1) * dst_stride) by ring.
    rewrite IH; [| assumption | | lia].
    + replace (src0 + src0_stride + (i - 1) * src0_stride)
        with (src0 + i * src0_stride) by ring.
      replace (src1 + src1_stride + (i - 1) * src1_stride)
        with (src1 + i * src1_stride) by ring.
      destruct (Hapart 0 i) as [H0 H1]; [lia | lia |].
      rewrite Z.mul_0_l, Z.add_0_r in H0, H1.
      rewrite !store_other by (unfold in_element; lia).
      reflexivity.
    + intros i' j Hi' Hj.
      replace (dst + dst_stride + i' * dst_stride)
        with (dst + (i' + 1) * dst_stride) by ring.
      replace (src0 + src0_stride + j * src0_stride)
        with (src0 + (j + 1) * src0_stride) by ring.
      replace (src1 + src1_stride + j * src1_stride)
        with (src1 + (j + 1) * src1_stride) by ring.
      apply Hapart; lia.
Qed.

(** * Further properties of the routines *)

Lemma emits_process_innermost_scratch env maskand_stransfer stransfer
    p itemsize src_itemsize ds ss ms ws :
  forall fuel count d s m w,
  emits (uses_scratch p itemsize (Z.pos (NPY_ARRAY_ASSIGN_BUFFERSIZE env)))
    (buffered_loop env fuel maskand_stransfer stransfer p itemsize
       src_itemsize ds ss ms ws count d s m w).
Proof.
  induction fuel as [| fuel IH]; intros; cbn [buffered_loop];
    (apply emits_bind;
     [unfold call_maskand_stransfer;
      apply emits_bind; [| intros; apply emits_run];
      apply emits_emit; cbn; repeat split;
      destruct (Z.ltb_spec count (Z.pos (NPY_ARRAY_ASSIGN_BUFFERSIZE env))); lia |]);
    intros _;
    (apply emits_bind;
     [unfold call_masked_stransfer;
      apply emits_bind; [| intros; apply emits_run];
      apply emits_emit; cbn; repeat split;
      destruct (Z.ltb_spec count (Z.pos (NPY_ARRAY_ASSIGN_BUFFERSIZE env))); lia |]);
    intros _; destruct (0 <? _); try apply emits_ret.
  apply IH.
Qed.

Lemma GetMaskAndFunction_run env s0 d0 s1 d1 s :
  GetMaskAndFunction env s0 d0 s1 d1 s
  = match PyArray_GetMaskAndFunction env s0 d0 s1 d1 with
    | Some t => (Some t, s, [Call_GetMaskAndFunction s0 d0 s1 d1])
    | None =>
        (None, mkState (st_mem s) (Some PyExc_raised_by_callee),
         [Call_GetMaskAndFunction s0 d0 s1 d1])
    end.
Proof.
  unfold GetMaskAndFunction, bind, emit, resolved.
  destruct (PyArray_GetMaskAndFunction env s0 d0 s1 d1); reflexivity.
Qed.

Lemma log_of_triple {A} (a : A) s l : log_of (a, s, l) = l.
Proof. reflexivity. Qed.

(** Name the values the 1-D overlap check chooses between. *)
Ltac name_reversal :=
  repeat match goal with
         | |- context [if overlap_1d ?a ?b ?c ?d ?e then ?x else ?y] =>
             let v := fresh "v" in
             set (v := if overlap_1d a b c d e then x else y); clearbody v
         end.

(** X1.  The scratch buffer of
    [raw_array_wheremasked_assign_array_preservena].  When the iteration
    cannot be prepared nothing is allocated.  Otherwise the routine asks
    for [NPY_ARRAY_ASSIGN_BUFFERSIZE] elements of the NA-mask dtype's size,
    and
    - when the allocation fails, it raises [MemoryError] and returns -1,
      having made no other call and left memory as it was;
    - when it succeeds, the buffer is released exactly once, by the last
      call the routine makes, on every path (a resolver that fails, or the
      iteration run to its end); between the allocation and the release
      nothing is allocated or released, every mask combination writes at
      most the buffer's capacity of elements, from the start of the buffer
      and one mask element apart, and every transfer reads its mask from
      there. *)
Theorem preservena_scratch_buffer
    (env : Collaborators) (ndim : nat) (shape : list Z)
    (dst_dtype : PyArray_Descr) (dst_data : ptr) (dst_strides : list Z)
    (src_dtype : PyArray_Descr) (src_data : ptr) (src_strides : list Z)
    (maskna_dtype : PyArray_Descr) (maskna_data : ptr)
    (maskna_strides : list Z)
    (wheremask_dtype : PyArray_Descr) (wheremask_data : ptr)
    (wheremask_strides : list Z) (s : state) :
  let r := raw_array_wheremasked_assign_array_preservena env ndim shape
             dst_dtype dst_data dst_strides src_dtype src_data src_strides
             maskna_dtype maskna_data maskna_strides
             wheremask_dtype wheremask_data wheremask_strides s in
  let B := Z.pos (NPY_ARRAY_ASSIGN_BUFFERSIZE env) in
  let size := B * elsize maskna_dtype in
  let p := PyArray_malloc env size s in
  match PyArray_PrepareFourRawArrayIter env ndim shape
          dst_data dst_strides src_data src_strides
          maskna_data maskna_strides wheremask_data wheremask_strides with
  | None => r = (-1, s, [])
  | Some _ =>
      if p =? NULL then
        r = (-1, mkState (st_mem s) (Some PyExc_MemoryError),
             [Call_malloc size p])
      else
        exists uses,
          log_of r = Call_malloc size p :: uses ++ [Call_free p] /\
          Forall (uses_scratch p (elsize maskna_dtype) B) uses
  end.
Proof.
  intros r B size p. subst r.
  unfold raw_array_wheremasked_assign_array_preservena.
  destruct (PyArray_PrepareFourRawArrayIter env ndim shape dst_data
              dst_strides src_data src_strides maskna_data maskna_strides
              wheremask_data wheremask_strides)
    as [[[[[[[[[[ndim' shape_it] dst_data'] dst_strides_it] src_data']
         src_strides_it] maskna_data'] maskna_strides_it] wheremask_data']
         wheremask_strides_it] |]; [| reflexivity].
  cbv zeta. fold B. fold size. name_reversal.
  destruct (p =? NULL) eqn:Hp.
  { unfold bind at 1. fold p. rewrite Hp. reflexivity. }
  rewrite bind_log.
  unfold result_of at 1, state_of at 1, log_of at 1.
  cbn [fst snd]. fold p. rewrite Hp.
  rewrite bind_log, GetMaskedDTypeTransferFunction_run.
  match goal with
  | |- context [PyArray_GetMaskedDTypeTransferFunction env ?a ?b ?c ?d ?e ?f ?g] =>
      destruct (PyArray_GetMaskedDTypeTransferFunction env a b c d e f g)
        as [[stransfer needs_api] |]
  end; rewrite result_of_triple, state_of_triple, log_of_triple.
  2: { eexists [_]. split; [reflexivity |]. repeat constructor. }
  rewrite bind_log, GetMaskAndFunction_run.
  match goal with
  | |- context [PyArray_GetMaskAndFunction env ?a ?b ?c ?d] =>
      destruct (PyArray_GetMaskAndFunction env a b c d)
        as [maskand_stransfer |]
  end; rewrite result_of_triple, state_of_triple, log_of_triple.
  2: { eexists [_; _]. split; [reflexivity |]. repeat constructor. }
  rewrite bind_log.
  match goal with
  | |- context [log_of (NPY_RAW_ITER ?i ?sh ?st ?d ?b s)] =>
      assert (Hloop : emits (uses_scratch p (elsize maskna_dtype) B)
                        (NPY_RAW_ITER i sh st d b));
      [| specialize (Hloop s);
         destruct (NPY_RAW_ITER i sh st d b s) as [[u s1] loop_calls] ]
  end.
  { apply emits_NPY_RAW_ITER. intros d. unfold process_innermost.
    apply emits_process_innermost_scratch. }
  rewrite result_of_triple, state_of_triple, log_of_triple in *.
  eexists (_ :: _ :: loop_calls).
  split.
  - cbn [app]. reflexivity.
  - repeat constructor. assumption.
Qed.

Lemma bind_result {A B} (m : M A) (f : A -> M B) s :
  result_of (bind m f s) = result_of (f (result_of (m s)) (state_of (m s))).
Proof.
  unfold bind, result_of, state_of.
  destruct (m s) as [[a s1] l1]. simpl.
  destruct (f a s1) as [[b s2] l2]. reflexivity.
Qed.



Lemma GetDTypeTransferFunction_run env aligned ss ds sd dd s :
  GetDTypeTransferFunction env aligned ss ds sd dd s
  = match PyArray_GetDTypeTransferFunction env aligned ss ds sd dd with
    | Some t =>
        (Some t, s, [Call_GetDTypeTransferFunction aligned ss ds sd dd])
    | None =>
        (None, mkState (st_mem s) (Some PyExc_raised_by_callee),
         [Call_GetDTypeTransferFunction aligned ss ds sd dd])
    end.
Proof.
  unfold GetDTypeTransferFunction, bind, emit, resolved.
  destruct (PyArray_GetDTypeTransferFunction env aligned ss ds sd dd);
    reflexivity.
Qed.




Ltac split_call env :=
  repeat match goal with
         | |- context [assign_checks env ?a ?b ?c ?d ?e ?s] =>
             destruct (assign_checks env a b c d e s) as [[[? | []] ?] ?]
         | |- context [PyArray_NewLikeArray env ?a ?s] =>
             destruct (PyArray_NewLikeArray env a s) as [[? |] ?]
         | |- context [PyArray_AllocateMaskNA env ?a ?s] =>
             destruct (PyArray_AllocateMaskNA env a s) as [[? |] ?]
         | |- context [PyArray_AssignArray env ?n ?a ?b ?c ?d ?e ?f ?s] =>
             destruct (PyArray_AssignArray env n a b c d e f s)
               as [[[? |] ?] ?]
         | |- context [assign_broadcast env ?a ?b ?c ?d ?e ?f ?g ?s] =>
             destruct (assign_broadcast env a b c d e f g s) as [[[] ?] ?]
         | |- context [if ?b then _ else _] => destruct b
         end.

Lemma assign_array_status
    (env : Collaborators) (depth : nat) (dst src : PyArrayObject)
    (wheremask : option PyArrayObject) (casting : NPY_CASTING)
    (preservena : bool) (preservewhichna : option (list bool)) (s : state) :
  PyArray_NDIM src <> 0%nat ->
  let r := result_of (PyArray_AssignArray env depth dst src wheremask
                        casting preservena preservewhichna s) in
  r = None \/ r = Some 0 \/ r = Some (-1).
Proof.
  intros Hnd r. subst r. apply Nat.eqb_neq in Hnd.
  unfold result_of.
  destruct depth; cbn [PyArray_AssignArray]; rewrite Hnd; step_m;
    split_call env; cbn; auto.
Qed.

Lemma assign_array_nests_once
    (env : Collaborators) (depth : nat) (dst src : PyArrayObject)
    (wheremask : option PyArrayObject) (casting : NPY_CASTING)
    (preservena : bool) (preservewhichna : option (list bool)) (s : state) :
  (forall s0 tmp s1,
     PyArray_NewLikeArray env dst s0 = (Some tmp, s1) ->
     arrays_overlap env src tmp = false) ->
  (forall tmp0 s0 tmp s1,
     arrays_overlap env src tmp0 = false ->
     PyArray_AllocateMaskNA env tmp0 s0 = (Some tmp, s1) ->
     arrays_overlap env src tmp = false) ->
  exists retcode,
    result_of (PyArray_AssignArray env (S depth) dst src wheremask casting
                 preservena preservewhichna s) = Some retcode.
Proof.
  intros Hnew Hmask.
  assert (Hinner : forall tmp s3,
            arrays_overlap env src tmp = false ->
            exists retcode s4 calls,
              PyArray_AssignArray env depth tmp src None
                NPY_UNSAFE_CASTING false None s3 = (Some retcode, s4, calls)).
  { intros tmp s3 Hfresh.
    destruct (@assign_array_without_temporary env depth tmp src None
                NPY_UNSAFE_CASTING false None s3) as [_ H].
    { unfold needs_temporary. rewrite Hfresh. apply andb_false_r. }
    destruct (PyArray_AssignArray env depth tmp src None NPY_UNSAFE_CASTING
                false None s3) as [[[retcode |] s4] calls].
    - eauto.
    - exfalso. apply H. reflexivity. }
  unfold result_of. cbn [PyArray_AssignArray]. step_m.
  destruct (PyArray_NDIM src =? 0)%nat.
  { split_call env;
      repeat match goal with
             | |- context [NpyNA_FromObject env ?a ?s] =>
                 destruct (NpyNA_FromObject env a s) as [[? |] ?]
             | |- context [PyArray_AssignNA env ?a ?b ?c ?d ?e ?s] =>
                 destruct (PyArray_AssignNA env a b c d e s)
             | |- context [PyArray_AssignRawScalar env ?a ?b ?c ?d ?e ?f ?g
                             ?s] =>
                 destruct (PyArray_AssignRawScalar env a b c d e f g s)
             end; cbn; eauto. }
  destruct (same_view dst src); [cbn; eauto |].
  destruct (assign_checks env dst src wheremask casting preservewhichna s)
    as [[[shm | l] s1] lg]; [| destruct l; cbn; eauto].
  destruct (needs_temporary env dst src).
  2: { destruct (assign_broadcast env dst src wheremask _ _ _ _ s1)
         as [[[] ?] ?]; cbn; eauto. }
  destruct (PyArray_NewLikeArray env dst s1) as [[tmp0 |] s2] eqn:Enew;
    [| cbn; eauto].
  apply Hnew in Enew.
  destruct (PyArray_HASMASKNA src).
  - destruct (PyArray_AllocateMaskNA env tmp0 s2) as [[tmp |] s3] eqn:Em;
      [| cbn; eauto].
    apply (Hmask _ _ _ _ Enew) in Em.
    destruct (Hinner tmp s3 Em) as (retcode & s4 & calls & ->).
    destruct (retcode <? 0); [cbn; eauto |].
    destruct (assign_broadcast env dst tmp wheremask _ _ _ _ s4)
      as [[[] ?] ?]; cbn; eauto.
  - destruct (Hinner tmp0 s2 Enew) as (retcode & s4 & calls & ->).
    destruct (retcode <? 0); [cbn; eauto |].
    destruct (assign_broadcast env dst tmp0 wheremask _ _ _ _ s4)
      as [[[] ?] ?]; cbn; eauto.
Qed.


(** X3.  [PyArray_AssignArray] nests at most once.  When the temporary the
    allocator hands out never overlaps the source (it is fresh memory, and
    giving it an NA mask does not move it), the nested call that fills the
    temporary needs no temporary of its own, so a call with one level of
    nesting to spare returns; and for a source that is not 0-dimensional
    it returns 0 or -1, whatever negative value a collaborator answered. *)
Theorem assign_array_returns
    (env : Collaborators) (depth : nat) (dst src : PyArrayObject)
    (wheremask : option PyArrayObject) (casting : NPY_CASTING)
    (preservena : bool) (preservewhichna : option (list bool)) (s : state) :
  (forall s0 tmp s1,
     PyArray_NewLikeArray env dst s0 = (Some tmp, s1) ->
     arrays_overlap env src tmp = false) ->
  (forall tmp0 s0 tmp s1,
     arrays_overlap env src tmp0 = false ->
     PyArray_AllocateMaskNA env tmp0 s0 = (Some tmp, s1) ->
     arrays_overlap env src tmp = false) ->
  exists retcode,
    result_of (PyArray_AssignArray env (S depth) dst src wheremask casting
                 preservena preservewhichna s) = Some retcode /\
    (PyArray_NDIM src <> 0%nat -> retcode = 0 \/ retcode = -1).
Proof.
  intros Hnew Hmask.
  destruct (@assign_array_nests_once env depth dst src wheremask casting
              preservena preservewhichna s Hnew Hmask) as [retcode Hret].
  exists retcode. split; [assumption |].
  intros Hnd.
  pose proof (@assign_array_status env (S depth) dst src wheremask casting
                preservena preservewhichna s Hnd) as H.
  cbv zeta in H. rewrite Hret in H.
  destruct H as [H | [H | H]]; [discriminate | |];
    injection H as ->; auto.
Qed.

Lemma assign_array_returns_witness :
  exists retcode,
    result_of (PyArray_AssignArray numpy 1 (view 1 [2; 2] [2; 1])
                 (view 0 [2; 2] [2; 1]) None NPY_SAFE_CASTING false None
                 arange_state) = Some retcode /\
    (PyArray_NDIM (view 0 [2; 2] [2; 1]) <> 0%nat ->
     retcode = 0 \/ retcode = -1).
Proof.
  apply (@assign_array_returns numpy 0%nat (view 1 [2; 2] [2; 1])
           (view 0 [2; 2] [2; 1])).
  - intros s0 tmp s1 H. injection H as <- _. reflexivity.
  - intros tmp0 s0 tmp s1 H0 H. injection H as <- _.
    revert H0. cbn [numpy copy_collaborators arrays_overlap].
    unfold footprints_overlap, footprint_start, footprint_end, with_maskna.
    cbn [PyArray_DATA PyArray_DIMS PyArray_STRIDES PyArray_DESCR]. auto.
Defined.


(** X4.  For a non-0-dimensional source that is not the destination's own
    view, the destination's writability and then the casting rule are the
    first things checked: a read-only destination fails with
    [ReadOnlyTarget] whatever the dtypes and [preservewhichna], and a
    writeable destination with a cast the rule forbids fails with
    [UnsafeCast], naming the two dtypes and the rule, whatever
    [preservewhichna].  In both cases memory is untouched and no
    collaborator has been called. *)
Theorem writability_and_casting_checked_first
    (env : Collaborators) (depth : nat) (dst src : PyArrayObject)
    (wheremask : option PyArrayObject) (casting : NPY_CASTING)
    (preservena : bool) (preservewhichna : option (list bool)) (s : state) :
  PyArray_NDIM src <> 0%nat ->
  same_view dst src = false ->
  let r := PyArray_AssignArray env depth dst src wheremask casting
             preservena preservewhichna s in
  (PyArray_ISWRITEABLE dst = false ->
   r = (Some (-1), mkState (st_mem s) (Some ReadOnlyTarget), [])) /\
  (PyArray_ISWRITEABLE dst = true ->
   PyArray_CanCastTypeTo env (PyArray_DESCR src) (PyArray_DESCR dst) casting
   = false ->
   r = (Some (-1),
        mkState (st_mem s)
          (Some (UnsafeCast (PyArray_DESCR src) (PyArray_DESCR dst) casting)),
        [])).
Proof.
  intros Hnd Hsame r. subst r. split.
  - intros Hw.
    apply assign_checks_goto with (l := fail); try assumption.
    unfold assign_checks. rewrite Hw. reflexivity.
  - intros Hw Hc.
    apply assign_checks_goto with (l := fail); try assumption.
    unfold assign_checks. rewrite Hw, Hc. reflexivity.
Qed.

Lemma writability_and_casting_checked_first_witness :
  let dst := readonly (view 8 [4] [1]) in
  let src := view 0 [4] [1] in
  let r := PyArray_AssignArray numpy 0 dst src None NPY_SAFE_CASTING false
             (Some [true]) arange_state in
  (PyArray_ISWRITEABLE dst = false ->
   r = (Some (-1), mkState (st_mem arange_state) (Some ReadOnlyTarget), [])) /\
  (PyArray_ISWRITEABLE dst = true ->
   PyArray_CanCastTypeTo numpy (PyArray_DESCR src) (PyArray_DESCR dst)
     NPY_SAFE_CASTING = false ->
   r = (Some (-1),
        mkState (st_mem arange_state)
          (Some (UnsafeCast (PyArray_DESCR src) (PyArray_DESCR dst)
                   NPY_SAFE_CASTING)),
        [])).
Proof.
  apply (@writability_and_casting_checked_first numpy 0%nat
           (readonly (view 8 [4] [1])) (view 0 [4] [1]));
    [simpl; lia | reflexivity].
Defined.

(** A call that passes the checks and needs no temporary is the rest of
    the call run on the caller's source. *)
Lemma assign_array_dispatch env depth dst src wheremask casting preservena
    preservewhichna s src_has_maskna s1 check_calls :
  PyArray_NDIM src <> 0%nat ->
  same_view dst src = false ->
  assign_checks env dst src wheremask casting preservewhichna s
  = (inl src_has_maskna, s1, check_calls) ->
  needs_temporary env dst src = false ->
  PyArray_AssignArray env depth dst src wheremask casting preservena
    preservewhichna s
  = let '(l, s2, calls) :=
      assign_broadcast env dst src wheremask (PyArray_HASMASKNA dst)
        src_has_maskna preservena preservewhichna s1 in
    (Some (retcode_of l), s2, check_calls ++ calls).
Proof.
  intros Hnd Hsame Hchecks Htmp. apply Nat.eqb_neq in Hnd.
  destruct depth; cbn [PyArray_AssignArray]; rewrite Hnd, Hsame;
    (erewrite bind_run; [| exact Hchecks]); rewrite Htmp; step_m;
    destruct (assign_broadcast env dst src wheremask _ _ _ _ s1)
      as [[[] s2] calls]; cbn; rewrite !app_nil_r; reflexivity.
Qed.

Lemma broadcast_strides_ok ndim shape strides_ndim strides_shape strides
    name s out :
  result_of (broadcast_strides ndim shape strides_ndim strides_shape strides
               name s) = Some out ->
  broadcast_strides ndim shape strides_ndim strides_shape strides name s
  = (Some out, s, []).
Proof.
  intros H.
  pose proof (broadcast_strides_spec ndim shape strides_ndim strides_shape
                strides name s) as B.
  cbv zeta in B.
  destruct (broadcast_strides ndim shape strides_ndim strides_shape strides
              name s) as [[res s'] lg].
  unfold result_of, state_of, log_of in *. cbn [fst snd] in *. subst res.
  destruct B as (_ & -> & -> & _). reflexivity.
Qed.

Lemma broadcast_strides_fails ndim shape strides_ndim strides_shape strides
    name s :
  result_of (broadcast_strides ndim shape strides_ndim strides_shape strides
               name s) = None ->
  broadcast_strides ndim shape strides_ndim strides_shape strides name s
  = (None, mkState (st_mem s) (Some (ShapeMismatch name)), []).
Proof.
  intros H.
  pose proof (broadcast_strides_spec ndim shape strides_ndim strides_shape
                strides name s) as B.
  cbv zeta in B.
  destruct (broadcast_strides ndim shape strides_ndim strides_shape strides
              name s) as [[res s'] lg].
  unfold result_of, state_of, log_of in *. cbn [fst snd] in *. subst res.
  destruct B as (Hm & -> & He & _). destruct s' as [m e]. cbn in *.
  subst. reflexivity.
Qed.

Lemma broadcast_src_run dst src s :
  broadcast_src dst src s
  = match result_of (broadcast_src dst src s) with
    | Some out => (Some out, s, [])
    | None =>
        (None, mkState (st_mem s) (Some (ShapeMismatch "input array"%string)),
         [])
    end.
Proof.
  unfold broadcast_src.
  destruct (PyArray_NDIM dst <? PyArray_NDIM src)%nat.
  - destruct (strip_unit_dims _ _ _ _) as [[n' shape'] strides'].
    destruct (result_of (broadcast_strides _ _ n' shape' strides' _ s))
      eqn:E.
    + apply broadcast_strides_ok. assumption.
    + apply broadcast_strides_fails. assumption.
  - destruct (result_of (broadcast_strides _ _ _ _ _ _ s)) eqn:E.
    + apply broadcast_strides_ok. assumption.
    + apply broadcast_strides_fails. assumption.
Qed.

Lemma broadcast_strides_higher_rank ndim shape strides_ndim strides_shape
    strides name s :
  (ndim < strides_ndim)%nat ->
  broadcast_strides ndim shape strides_ndim strides_shape strides name s
  = (None, mkState (st_mem s) (Some (ShapeMismatch name)), []).
Proof.
  intros H. unfold broadcast_strides.
  apply Nat.ltb_lt in H. rewrite H. reflexivity.
Qed.

Lemma same_view_rank dst src :
  PyArray_NDIM src <> PyArray_NDIM dst -> same_view dst src = false.
Proof.
  intros H. unfold same_view. apply Nat.eqb_neq in H. rewrite H.
  rewrite !andb_false_r. reflexivity.
Qed.

(** X5.  The NA mask of the source is broadcast without the left-strip of
    lines 547-551: lines 570-573 hand [broadcast_strides] the source's own
    rank and shape.  So a source with an NA mask and more dimensions than a
    destination with an NA mask is never assigned, not even when its extra
    leading dimensions have extent 1 and its values can be broadcast: the
    call (one that passes the checks and needs no temporary) fails with
    [ShapeMismatch], with memory untouched and nothing called. *)
Theorem masked_source_of_higher_rank_rejected
    (env : Collaborators) (depth : nat) (dst src : PyArrayObject)
    (wheremask : option PyArrayObject) (casting : NPY_CASTING)
    (preservena : bool) (s : state) :
  (PyArray_NDIM dst < PyArray_NDIM src)%nat ->
  PyArray_HASMASKNA src = true ->
  PyArray_HASMASKNA dst = true ->
  PyArray_ISWRITEABLE dst = true ->
  PyArray_CanCastTypeTo env (PyArray_DESCR src) (PyArray_DESCR dst) casting
  = true ->
  needs_temporary env dst src = false ->
  PyArray_AssignArray env depth dst src wheremask casting preservena None s
  = (Some (-1),
     mkState (st_mem s) (Some (ShapeMismatch "input array"%string)), []).
Proof.
  intros Hrank Hsrc Hdst Hw Hc Htmp.
  rewrite (@assign_array_dispatch env depth dst src wheremask casting
             preservena None s true s []).
  - unfold assign_broadcast. unfold bind at 1.
    rewrite broadcast_src_run.
    destruct (result_of (broadcast_src dst src s)) as [src_strides |];
      [| reflexivity].
    cbv iota. unfold bind at 1.
    rewrite broadcast_strides_higher_rank by assumption. reflexivity.
  - lia.
  - apply same_view_rank. lia.
  - apply assign_checks_pass. rewrite Hsrc, Hdst. cbn. repeat split; assumption.
  - assumption.
Qed.

Lemma masked_source_of_higher_rank_rejected_witness :
  PyArray_AssignArray numpy 0
    (masked 40 [1] (view 32 [3] [1]))
    (masked 16 [3; 1] (view 0 [1; 3] [3; 1]))
    None NPY_SAFE_CASTING false None arange_state
  = (Some (-1),
     mkState (st_mem arange_state)
       (Some (ShapeMismatch "input array"%string)), []).
Proof.
  apply (@masked_source_of_higher_rank_rejected numpy 0%nat
           (masked 40 [1] (view 32 [3] [1]))
           (masked 16 [3; 1] (view 0 [1; 3] [3; 1])));
    try reflexivity.
  simpl. lia.
Defined.

(** The rest of the call once both broadcasts of the source have
    succeeded. *)
Lemma assign_broadcast_dispatch env dst src wheremask dst_has_maskna
    src_has_maskna preservena preservewhichna s src_strides :
  result_of (broadcast_src dst src s) = Some src_strides ->
  (src_has_maskna = true ->
   exists strides,
     result_of (broadcast_strides (PyArray_NDIM dst) (PyArray_DIMS dst)
                  (PyArray_NDIM src) (PyArray_DIMS src)
                  (PyArray_MASKNA_STRIDES src) "input array"%string s)
     = Some strides) ->
  exists src_maskna_strides,
    assign_broadcast env dst src wheremask dst_has_maskna src_has_maskna
      preservena preservewhichna s
    = match wheremask with
      | None =>
          assign_unmasked env dst src dst_has_maskna src_has_maskna
            preservena preservewhichna src_strides src_maskna_strides s
      | Some wheremask =>
          assign_wheremasked env dst src wheremask dst_has_maskna
            src_has_maskna preservena preservewhichna src_strides
            src_maskna_strides s
      end.
Proof.
  intros Hsrc Hmask. unfold assign_broadcast. unfold bind at 1.
  rewrite broadcast_src_run, Hsrc.
  destruct src_has_maskna.
  - destruct (Hmask eq_refl) as [strides Hstrides].
    exists strides. unfold bind at 1.
    rewrite (broadcast_strides_ok _ _ _ _ _ _ _ Hstrides).
    destruct wheremask;
      match goal with
      | |- context [?m s] =>
          destruct (m s) as [[l s2] calls]; reflexivity
      end.
  - exists []. unfold bind at 1, ret at 1.
    destruct wheremask;
      match goal with
      | |- context [?m s] =>
          destruct (m s) as [[l s2] calls]; reflexivity
      end.
Qed.

(** X6.  A where-mask that contains an NA is rejected.  In a call that has
    passed the checks, needs no temporary and has broadcast its source,
    when the scan of the where-mask reports an NA the call fails before
    any transfer, with [UnsupportedNA] when the destination has no NA mask
    and with [UnsupportedNA_wheremask] when it has one.  The scan is the
    only call made after the checks, and memory is as the scan left it. *)
Theorem wheremask_with_na_rejected
    (env : Collaborators) (depth : nat) (dst src wheremask : PyArrayObject)
    (casting : NPY_CASTING) (preservena : bool) (s s1 s2 : state)
    (src_has_maskna : bool) (check_calls : list event)
    (src_strides : list Z) (containsna : Z) :
  PyArray_NDIM src <> 0%nat ->
  same_view dst src = false ->
  assign_checks env dst src (Some wheremask) casting None s
  = (inl src_has_maskna, s1, check_calls) ->
  needs_temporary env dst src = false ->
  result_of (broadcast_src dst src s1) = Some src_strides ->
  (src_has_maskna = true ->
   exists strides,
     result_of (broadcast_strides (PyArray_NDIM dst) (PyArray_DIMS dst)
                  (PyArray_NDIM src) (PyArray_DIMS src)
                  (PyArray_MASKNA_STRIDES src) "input array"%string s1)
     = Some strides) ->
  PyArray_ContainsNA env wheremask None s1 = (containsna, s2) ->
  containsna <> 0 -> containsna <> -1 ->
  PyArray_AssignArray env depth dst src (Some wheremask) casting preservena
    None s
  = (Some (-1),
     mkState (st_mem s2)
       (Some (if PyArray_HASMASKNA dst then UnsupportedNA_wheremask
              else UnsupportedNA)),
     check_calls ++ [Call_ContainsNA wheremask None]).
Proof.
  intros Hnd Hsame Hchecks Htmp Hsrc Hmask Hscan Hna Herr.
  rewrite (@assign_array_dispatch env depth dst src (Some wheremask) casting
             preservena None s src_has_maskna s1 check_calls)
    by assumption.
  destruct (@assign_broadcast_dispatch env dst src (Some wheremask)
              (PyArray_HASMASKNA dst) src_has_maskna preservena None s1
              src_strides Hsrc Hmask) as [src_maskna_strides ->].
  unfold assign_wheremasked, ContainsNA. step_m. rewrite Hscan.
  apply Z.eqb_neq in Hna, Herr. rewrite Hna, Herr. cbn [negb].
  unfold raise. step_m.
  destruct (PyArray_HASMASKNA dst); reflexivity.
Qed.

(** X7.  The where-mask is broadcast to the destination without the
    left-strip the source's values get (lines 685-690): in a call that has
    passed the checks, needs no temporary and has broadcast its source, a
    where-mask without NA that has more dimensions than the destination
    makes the call fail with [ShapeMismatch] for the "where mask", before
    any transfer, also when the extra leading dimensions have extent 1. *)
Theorem wheremask_of_higher_rank_rejected
    (env : Collaborators) (depth : nat) (dst src wheremask : PyArrayObject)
    (casting : NPY_CASTING) (preservena : bool) (s s1 s2 : state)
    (src_has_maskna : bool) (check_calls : list event)
    (src_strides : list Z) :
  PyArray_NDIM src <> 0%nat ->
  same_view dst src = false ->
  assign_checks env dst src (Some wheremask) casting None s
  = (inl src_has_maskna, s1, check_calls) ->
  needs_temporary env dst src = false ->
  result_of (broadcast_src dst src s1) = Some src_strides ->
  (src_has_maskna = true ->
   exists strides,
     result_of (broadcast_strides (PyArray_NDIM dst) (PyArray_DIMS dst)
                  (PyArray_NDIM src) (PyArray_DIMS src)
                  (PyArray_MASKNA_STRIDES src) "input array"%string s1)
     = Some strides) ->
  PyArray_ContainsNA env wheremask None s1 = (0, s2) ->
  (PyArray_NDIM dst < PyArray_NDIM wheremask)%nat ->
  PyArray_AssignArray env depth dst src (Some wheremask) casting preservena
    None s
  = (Some (-1),
     mkState (st_mem s2) (Some (ShapeMismatch "where mask"%string)),
     check_calls ++ [Call_ContainsNA wheremask None]).
Proof.
  intros Hnd Hsame Hchecks Htmp Hsrc Hmask Hscan Hrank.
  rewrite (@assign_array_dispatch env depth dst src (Some wheremask) casting
             preservena None s src_has_maskna s1 check_calls)
    by assumption.
  destruct (@assign_broadcast_dispatch env dst src (Some wheremask)
              (PyArray_HASMASKNA dst) src_has_maskna preservena None s1
              src_strides Hsrc Hmask) as [src_maskna_strides ->].
  unfold assign_wheremasked, ContainsNA.
  unfold bind at 1. unfold bind at 1, emit at 1, ask at 1. rewrite Hscan.
  cbn [Z.eqb negb]. unfold bind at 1.
  rewrite broadcast_strides_higher_rank by assumption.
  reflexivity.
Qed.

Lemma wheremask_with_na_rejected_witness :
  let wheremask := masked 16 [1] (view 24 [4] [1]) in
  PyArray_AssignArray numpy 0 (view 32 [4] [1]) (view 0 [4] [1])
    (Some wheremask) NPY_SAFE_CASTING false None one_na_state
  = (Some (-1),
     mkState (st_mem one_na_state)
       (Some (if PyArray_HASMASKNA (view 32 [4] [1])
              then UnsupportedNA_wheremask else UnsupportedNA)),
     [] ++ [Call_ContainsNA wheremask None]).
Proof.
  apply (@wheremask_with_na_rejected numpy 0%nat (view 32 [4] [1])
           (view 0 [4] [1]) (masked 16 [1] (view 24 [4] [1]))
           NPY_SAFE_CASTING false one_na_state one_na_state one_na_state
           false [] [1] 1);
    try reflexivity; try discriminate; simpl; lia.
Defined.

Lemma wheremask_of_higher_rank_rejected_witness :
  let wheremask := view 24 [1; 4] [4; 1] in
  PyArray_AssignArray numpy 0 (view 32 [4] [1]) (view 0 [4] [1])
    (Some wheremask) NPY_SAFE_CASTING false None arange_state
  = (Some (-1),
     mkState (st_mem arange_state) (Some (ShapeMismatch "where mask"%string)),
     [] ++ [Call_ContainsNA wheremask None]).
Proof.
  apply (@wheremask_of_higher_rank_rejected numpy 0%nat (view 32 [4] [1])
           (view 0 [4] [1]) (view 24 [1; 4] [4; 1])
           NPY_SAFE_CASTING false arange_state arange_state arange_state
           false [] [1]);
    try reflexivity; try discriminate; simpl; lia.
Defined.

(** ** The raw iteration as a list of steps *)

Lemma in_iter_coords shape : forall idims cs,
  In cs (iter_coords idims shape) <-> in_range shape idims cs.
Proof.
  unfold in_range.
  induction idims as [| idim rest IH]; intros cs; cbn [iter_coords].
  - split.
    + intros [<- | []]. constructor.
    + intros H. inversion H. left. reflexivity.
  - rewrite in_flat_map. split.
    + intros [c [Hc Hin]]. apply in_seq in Hc. apply in_map_iff in Hin.
      destruct Hin as [cs' [<- Hcs']]. constructor; [lia |].
      apply IH. assumption.
    + intros H. inversion H as [| idim' c idims' cs' Hc Hrest]; subst.
      exists (Z.to_nat c). split; [apply in_seq; lia |].
      apply in_map_iff. exists cs'. split; [f_equal; lia |].
      apply IH. assumption.
Qed.

Lemma NoDup_map_injective {A B} (f : A -> B) l :
  (forall x y, f x = f y -> x = y) -> NoDup l -> NoDup (map f l).
Proof.
  intros Hinj H. induction H as [| x l Hx Hl IH]; cbn [map]; constructor.
  - intros Hin. apply in_map_iff in Hin. destruct Hin as [y [E Hy]].
    apply Hinj in E. subst y. contradiction.
  - assumption.
Qed.

Lemma NoDup_iter_coords shape : forall idims,
  NoDup (iter_coords idims shape).
Proof.
  induction idims as [| idim rest IH]; cbn [iter_coords].
  - repeat constructor. intros [].
  - generalize (Z.to_nat (nth idim shape 0)) as n.
    assert (H : forall n i,
              NoDup (flat_map
                       (fun c => map (cons (Z.of_nat c))
                                   (iter_coords rest shape)) (seq i n)) /\
              forall cs,
                In cs (flat_map
                         (fun c => map (cons (Z.of_nat c))
                                     (iter_coords rest shape)) (seq i n)) ->
                exists c cs', cs = Z.of_nat c :: cs' /\ (i <= c)%nat).
    { induction n as [| n IHn]; intros i; cbn [seq flat_map].
      - split; [constructor | intros cs []].
      - destruct (IHn (S i)) as [Hnd Hin]. split.
        + apply NoDup_app; [| assumption |].
          * apply NoDup_map_injective; [| assumption].
            intros x y E. injection E. auto.
          * intros cs H1 H2. apply in_map_iff in H1.
            destruct H1 as [cs1 [<- _]].
            destruct (Hin _ H2) as (c & cs' & E & Hc).
            injection E as E _. lia.
        + intros cs H. apply in_app_or in H. destruct H as [H | H].
          * apply in_map_iff in H. destruct H as [cs1 [<- _]].
            exists i, cs1. split; [reflexivity | lia].
          * destruct (Hin _ H) as (c & cs' & E & Hc).
            exists c, cs'. split; [assumption | lia]. }
    intros n. apply H.
Qed.

Lemma fold_left_flat_map {A B C} (f : A -> C -> A) (g : B -> list C) :
  forall l a,
  fold_left f (flat_map g l) a = fold_left (fun a x => fold_left f (g x) a) l a.
Proof.
  induction l as [| x l IH]; intros a; cbn [flat_map fold_left];
    [reflexivity |].
  rewrite fold_left_app. apply IH.
Qed.

Lemma fold_left_map {A B C} (f : A -> C -> A) (g : B -> C) : forall l a,
  fold_left f (map g l) a = fold_left (fun a x => f a (g x)) l a.
Proof.
  induction l as [| x l IH]; intros a; cbn [map fold_left];
    [reflexivity | apply IH].
Qed.

Lemma fold_left_ext_in {A B} (f g : A -> B -> A) : forall l a,
  (forall a x, In x l -> f a x = g a x) ->
  fold_left f l a = fold_left g l a.
Proof.
  induction l as [| x l IH]; intros a H; cbn [fold_left]; [reflexivity |].
  rewrite H by (left; reflexivity). apply IH.
  intros a' x' Hin. apply H. right. assumption.
Qed.

Lemma for_loop_memory (T : Z -> memory -> memory) body :
  (forall c s, st_mem (state_of (body c s)) = T c (st_mem s)) ->
  forall n i s,
  st_mem (state_of (for_loop n (Z.of_nat i) body s))
  = fold_left (fun m c => T (Z.of_nat c) m) (seq i n) (st_mem s).
Proof.
  intros Hbody. induction n as [| n IH]; intros i s; [reflexivity |].
  cbn [for_loop seq fold_left]. rewrite bind_state.
  replace (Z.of_nat i + 1) with (Z.of_nat (S i)) by lia.
  rewrite IH, Hbody. reflexivity.
Qed.

Lemma offset_data_advance idims cs strides idim c : forall data,
  offset_data idims cs strides (advance data strides idim c)
  = offset_data (idim :: idims) (c :: cs) strides data.
Proof.
  unfold offset_data, advance. revert strides.
  induction strides as [| st strides IH]; intros [| p data];
    try reflexivity.
  cbn [combine map fst snd outer_offset]. f_equal; [lia |]. apply IH.
Qed.

Lemma offset_data_nil strides : forall data,
  List.length data = List.length strides ->
  offset_data [] [] strides data = data.
Proof.
  unfold offset_data.
  induction strides as [| st strides IH]; intros [| p data] Hlen;
    try discriminate; [reflexivity |].
  cbn [combine map fst snd outer_offset]. f_equal; [lia |].
  apply IH. simpl in Hlen. lia.
Qed.

(** The memory after the raw iteration: the steps of [iter_coords], one
    after the other, each at its own data pointers. *)
Lemma NPY_RAW_ITER_memory (T : list ptr -> memory -> memory) body shape
    strides :
  (forall d s, st_mem (state_of (body d s)) = T d (st_mem s)) ->
  forall idims data s,
  List.length data = List.length strides ->
  st_mem (state_of (NPY_RAW_ITER idims shape strides data body s))
  = fold_left (fun m cs => T (offset_data idims cs strides data) m)
      (iter_coords idims shape) (st_mem s).
Proof.
  intros Hbody. induction idims as [| idim rest IH]; intros data s Hlen;
    cbn [NPY_RAW_ITER iter_coords].
  - cbn [fold_left]. rewrite Hbody, offset_data_nil by assumption.
    reflexivity.
  - change (for_loop ?n 0 ?b) with (for_loop n (Z.of_nat 0) b).
    rewrite (for_loop_memory
               (fun c m =>
                  fold_left
                    (fun m cs =>
                       T (offset_data rest cs strides
                            (advance data strides idim c)) m)
                    (iter_coords rest shape) m)).
    + rewrite fold_left_flat_map. apply fold_left_ext_in.
      intros m c _. rewrite fold_left_map. apply fold_left_ext_in.
      intros m' cs _. rewrite offset_data_advance. reflexivity.
    + intros c s'. apply IH. rewrite length_advance by assumption.
      reflexivity.
Qed.

(** ** Transfers element by element *)

Lemma guard_ext (m m' : memory) (masks : list ptr) :
  (forall k, In k masks -> m k = m' k) ->
  guard m masks = guard m' masks.
Proof.
  unfold guard. induction masks as [| k masks IH]; intros H.
  - reflexivity.
  - cbn [forallb]. rewrite (H k (or_introl eq_refl)).
    rewrite IH by (intros k' Hk'; apply H; right; assumption).
    reflexivity.
Qed.

Section Elements.

Variable cast : list Z -> list Z.
Variables dst_itemsize src_itemsize : Z.

Local Abbreviation step := (assign_element cast dst_itemsize src_itemsize).

Lemma assign_element_other m e a :
  ~ in_element (el_dst e) dst_itemsize a -> step m e a = m a.
Proof.
  intros H. unfold assign_element.
  destruct (guard m (el_masks e)); [| reflexivity].
  apply store_other. assumption.
Qed.

Lemma assign_elements_frame a : forall l m,
  (forall e, In e l -> ~ in_element (el_dst e) dst_itemsize a) ->
  fold_left step l m a = m a.
Proof.
  induction l as [| e l IH]; intros m H; cbn [fold_left]; [reflexivity |].
  rewrite IH by (intros e' He'; apply H; right; assumption).
  apply assign_element_other. apply H. left. reflexivity.
Qed.

(** A list of elements transferred one after the other, each listed once:
    an element that no other element of the list overwrites, and whose
    source and mask no other element overwrites, ends up with the
    conversion of its source as it was at the start when its guard was
    true at the start, and as it was when the guard was false. *)
Lemma assign_elements_result {P} (elem : P -> element) p b :
  forall L m0,
  NoDup L -> In p L -> 0 <= b < dst_itemsize ->
  (forall q a, In q L -> q <> p ->
     in_element (el_dst (elem q)) dst_itemsize a ->
     ~ in_element (el_dst (elem p)) dst_itemsize a /\
     ~ in_element (el_src (elem p)) src_itemsize a /\
     ~ In a (el_masks (elem p))) ->
  fold_left step (map elem L) m0 (el_dst (elem p) + b)
  = if guard m0 (el_masks (elem p))
    then nth (Z.to_nat b) (cast (load m0 (el_src (elem p)) src_itemsize)) 0
    else m0 (el_dst (elem p) + b).
Proof.
  induction L as [| x L' IH] using rev_ind; intros m0 Hnd Hin Hb Hothers;
    [destruct Hin |].
  apply NoDup_remove in Hnd. rewrite app_nil_r in Hnd.
  destruct Hnd as [Hnd Hx].
  rewrite map_app, fold_left_app. cbn [map fold_left].
  assert (Hown : in_element (el_dst (elem p)) dst_itemsize
                   (el_dst (elem p) + b)) by (unfold in_element; lia).
  apply in_app_or in Hin. destruct Hin as [Hin | [-> | []]].
  - (* the element is transferred before the last one *)
    assert (Hne : x <> p) by (intros ->; contradiction).
    rewrite assign_element_other.
    + apply IH; try assumption.
      intros q a Hq. apply Hothers. apply in_or_app. left. assumption.
    + intros H.
      assert (Hxin : In x (L' ++ [x]))
        by (apply in_or_app; right; left; reflexivity).
      destruct (Hothers x _ Hxin Hne H) as [H' _].
      contradiction.
  - (* the element is the last one *)
    set (m' := fold_left step (map elem L') m0).
    assert (Hkeep : forall a,
              in_element (el_dst (elem p)) dst_itemsize a \/
              in_element (el_src (elem p)) src_itemsize a \/
              In a (el_masks (elem p)) ->
              m' a = m0 a).
    { intros a Ha. apply assign_elements_frame.
      intros e He Hw. apply in_map_iff in He. destruct He as [q [<- Hq]].
      assert (Hne : q <> p) by (intros ->; contradiction).
      assert (Hqin : In q (L' ++ [p]))
        by (apply in_or_app; left; assumption).
      destruct (Hothers q a Hqin Hne Hw) as (H1 & H2 & H3).
      destruct Ha as [Ha | [Ha | Ha]]; contradiction. }
    unfold assign_element.
    assert (Hguard : guard m' (el_masks (elem p))
                     = guard m0 (el_masks (elem p))).
    { apply guard_ext. intros k Hk. apply Hkeep. auto. }
    rewrite Hguard. destruct (guard m0 (el_masks (elem p))).
    + rewrite store_same by assumption.
      replace (el_dst (elem p) + b - el_dst (elem p)) with b by lia.
      f_equal. f_equal. apply load_ext. intros a Ha. apply Hkeep. auto.
    + apply Hkeep. auto.
Qed.

End Elements.

(** The unmasked callable of the specification, element by element. *)
Lemma strided_loop_elements cast dst_itemsize dst_stride src_stride
    src_itemsize : forall N dst src m,
  strided_loop cast dst_itemsize N dst dst_stride src src_stride
    src_itemsize m
  = fold_left (assign_element cast dst_itemsize src_itemsize)
      (map (fun i => mkElement (dst + Z.of_nat i * dst_stride)
                       (src + Z.of_nat i * src_stride) [])
         (seq 0 N)) m.
Proof.
  induction N as [| N IH]; intros dst src m; [reflexivity |].
  cbn [strided_loop]. rewrite IH.
  rewrite <- cons_seq, <- seq_shift. cbn [map fold_left]. rewrite map_map.
  unfold assign_element at 3. cbn [guard forallb el_masks el_dst el_src].
  rewrite ?andb_true_r.
  change (Z.of_nat 0) with 0. rewrite !Z.mul_0_l, !Z.add_0_r.
  f_equal. apply map_ext. intros i. rewrite Nat2Z.inj_succ.
  f_equal; try ring; f_equal; ring.
Qed.

(** The masked callable of the specification, element by element. *)
Lemma masked_strided_loop_elements cast dst_itemsize dst_stride src_stride
    mask_stride src_itemsize : forall N dst src mask m,
  masked_strided_loop cast dst_itemsize N dst dst_stride src src_stride
    mask mask_stride src_itemsize m
  = fold_left (assign_element cast dst_itemsize src_itemsize)
      (map (fun i => mkElement (dst + Z.of_nat i * dst_stride)
                       (src + Z.of_nat i * src_stride)
                       [mask + Z.of_nat i * mask_stride])
         (seq 0 N)) m.
Proof.
  induction N as [| N IH]; intros dst src mask m; [reflexivity |].
  cbn [masked_strided_loop]. rewrite IH.
  rewrite <- cons_seq, <- seq_shift. cbn [map fold_left]. rewrite map_map.
  unfold assign_element at 3. cbn [guard forallb el_masks el_dst el_src].
  rewrite ?andb_true_r.
  change (Z.of_nat 0) with 0. rewrite !Z.mul_0_l, !Z.add_0_r.
  f_equal. apply map_ext. intros i. rewrite Nat2Z.inj_succ.
  f_equal; try ring; f_equal; ring.
Qed.

Lemma in_positions n0 idims shape c0 cs :
  In (c0, cs) (positions n0 idims shape)
  <-> 0 <= c0 < n0 /\ in_range shape idims cs.
Proof.
  unfold positions. rewrite in_flat_map. split.
  - intros [cs' [Hcs Hin]]. apply in_map_iff in Hin.
    destruct Hin as [i [E Hi]]. injection E as <- ->.
    apply in_seq in Hi. split; [lia |]. apply in_iter_coords. assumption.
  - intros [Hc0 Hcs]. exists cs. split; [apply in_iter_coords; assumption |].
    apply in_map_iff. exists (Z.to_nat c0). split.
    + f_equal. lia.
    + apply in_seq. lia.
Qed.

Lemma NoDup_flat_map {A B} (g : A -> list B) : forall l,
  NoDup l -> (forall x, In x l -> NoDup (g x)) ->
  (forall x y b, In x l -> In y l -> In b (g x) -> In b (g y) -> x = y) ->
  NoDup (flat_map g l).
Proof.
  induction l as [| x l IH]; intros Hl Hg Hdisj; cbn [flat_map];
    [constructor |].
  inversion Hl as [| x' l' Hx Hl']; subst.
  apply NoDup_app.
  - apply Hg. left. reflexivity.
  - apply IH; [assumption | |].
    + intros y Hy. apply Hg. right. assumption.
    + intros y z b Hy Hz. apply Hdisj; right; assumption.
  - intros b Hb Hb'. apply in_flat_map in Hb'. destruct Hb' as [y [Hy Hby]].
    assert (x = y).
    { apply (Hdisj x y b); [left; reflexivity | right; assumption | | ];
        assumption. }
    subst y. contradiction.
Qed.

Lemma NoDup_positions n0 idims shape : NoDup (positions n0 idims shape).
Proof.
  unfold positions. apply NoDup_flat_map.
  - apply NoDup_iter_coords.
  - intros cs _. apply NoDup_map_injective; [| apply seq_NoDup].
    intros i j E. assert (E' := f_equal fst E). cbn [fst] in E'. lia.
  - intros cs cs' [c0 cs''] _ _ H H'.
    apply in_map_iff in H, H'.
    destruct H as [i [E _]]. destruct H' as [j [E' _]]. congruence.
Qed.

(** The positions of a reversed 1-D run: last element first. *)
Lemma NoDup_reversed n0 :
  NoDup (map (fun i => (n0 - 1 - Z.of_nat i, @nil Z)) (seq 0 (Z.to_nat n0))).
Proof.
  apply NoDup_map_injective; [| apply seq_NoDup].
  intros i j E. assert (E' := f_equal fst E). cbn [fst] in E'. lia.
Qed.

Lemma in_reversed n0 c0 cs :
  In (c0, cs) (map (fun i => (n0 - 1 - Z.of_nat i, @nil Z))
                 (seq 0 (Z.to_nat n0)))
  <-> 0 <= c0 < n0 /\ cs = [].
Proof.
  rewrite in_map_iff. split.
  - intros [i [E Hi]]. injection E as <- <-. apply in_seq in Hi.
    split; [lia | reflexivity].
  - intros [Hc0 ->]. exists (Z.to_nat (n0 - 1 - c0)). split.
    + f_equal. lia.
    + apply in_seq. lia.
Qed.

Lemma call_stransfer_state f dst ds src ss N isz s :
  state_of (call_stransfer f dst ds src ss N isz s) = f dst ds src ss N isz s.
Proof. reflexivity. Qed.

Lemma overlap_1d_rank ndim shape_it dst src ss :
  overlap_1d ndim shape_it dst src ss = true -> ndim = 1%nat.
Proof.
  unfold overlap_1d. intros H.
  apply andb_true_iff in H. destruct H as [H _].
  apply andb_true_iff in H. destruct H as [H _].
  apply Nat.eqb_eq. assumption.
Qed.

(** The memory [raw_array_assign_array] leaves, for a callable that meets
    its contract: the elements of the prepared iteration transferred one
    after the other, each position once. *)
Lemma raw_array_assign_array_elements env ndim shape
    dst_dtype dst_data dst_strides src_dtype src_data src_strides s
    ndim' shape_it dst0 ds_it src0 ss_it cast :
  PyArray_PrepareTwoRawArrayIter env ndim shape dst_data dst_strides
    src_data src_strides
  = Some (ndim', shape_it, dst0, ds_it, src0, ss_it) ->
  (forall aligned ss ds, exists stransfer needs_api,
     PyArray_GetDTypeTransferFunction env aligned ss ds src_dtype dst_dtype
     = Some (stransfer, needs_api) /\
     strided_contract cast (elsize dst_dtype) stransfer) ->
  exists L,
    NoDup L /\
    (forall c0 cs,
       In (c0, cs) L <->
       0 <= c0 < nth 0 shape_it 0 /\
       in_range shape_it (outer_dims ndim') cs) /\
    st_mem (state_of (raw_array_assign_array env ndim shape
                        dst_dtype dst_data dst_strides
                        src_dtype src_data src_strides s))
    = fold_left (assign_element cast (elsize dst_dtype) (elsize src_dtype))
        (map (fun p =>
                mkElement (address (outer_dims ndim') dst0 ds_it p)
                  (address (outer_dims ndim') src0 ss_it p) []) L)
        (st_mem s).
Proof.
  intros Hprep Hres.
  unfold raw_array_assign_array. rewrite Hprep. cbv zeta.
  rewrite bind_state, GetDTypeTransferFunction_run.
  match goal with
  | |- context [PyArray_GetDTypeTransferFunction env ?al ?x ?y
                  src_dtype dst_dtype] =>
      destruct (Hres al x y) as (stransfer & needs_api & -> & Hcontract)
  end.
  rewrite result_of_triple, state_of_triple.
  rewrite bind_state, return_status_state.
  set (n0 := nth 0 shape_it 0).
  destruct (overlap_1d ndim' shape_it dst0 src0 ss_it) eqn:Hrev.
  - (* one dimension, last element first *)
    apply overlap_1d_rank in Hrev. subst ndim'.
    change (outer_dims 1) with (@nil nat).
    exists (map (fun i => (n0 - 1 - Z.of_nat i, @nil Z))
              (seq 0 (Z.to_nat n0))).
    split; [apply NoDup_reversed |]. split.
    { intros c0 cs. rewrite in_reversed. split.
      - intros [H ->]. split; [assumption | constructor].
      - intros [H Hcs]. apply in_range_nil in Hcs. auto. }
    cbn [NPY_RAW_ITER nth]. rewrite call_stransfer_state, Hcontract.
    rewrite strided_loop_elements, map_map. f_equal.
    apply map_ext. intros i. unfold address. cbn [fst snd outer_offset].
    rewrite !nth_negate0. f_equal; ring.
  - exists (positions n0 (outer_dims ndim') shape_it).
    split; [apply NoDup_positions |]. split.
    { intros c0 cs. apply in_positions. }
    rewrite (NPY_RAW_ITER_memory
               (fun d m =>
                  strided_loop cast (elsize dst_dtype) (Z.to_nat n0)
                    (nth 0 d 0) (nth 0 ds_it 0) (nth 1 d 0) (nth 0 ss_it 0)
                    (elsize src_dtype) m)).
    + unfold positions. rewrite flat_map_concat_map, concat_map, map_map.
      rewrite <- flat_map_concat_map, fold_left_flat_map.
      apply fold_left_ext_in. intros m cs _.
      rewrite strided_loop_elements, !map_map. f_equal.
      apply map_ext. intros i. unfold address, offset_data.
      cbn [combine map nth fst snd]. f_equal; ring.
    + intros d s'. rewrite call_stransfer_state, Hcontract. reflexivity.
    + reflexivity.
Qed.

Lemma strided_transfer_contract cast dst_itemsize :
  strided_contract cast dst_itemsize (strided_transfer cast dst_itemsize).
Proof. intros dst ds src ss N isz s. reflexivity. Qed.

Lemma masked_strided_transfer_contract cast dst_itemsize :
  masked_contract cast dst_itemsize
    (masked_strided_transfer cast dst_itemsize).
Proof. intros dst ds src ss mask ms N isz s. reflexivity. Qed.

(** X8.  [raw_array_assign_array] copies.  In the coordinates of the
    prepared iteration, position [(c0, cs)] has its destination element at
    [dst_element c0 cs] and its source element at [src_element c0 cs].
    Given a transfer callable that meets its contract for the conversion
    [cast], and positions that are apart in memory (a byte of one
    position's destination element belongs neither to the destination
    element nor to the source element of another position):
    - every destination element holds the conversion of the source element
      of its position as that was before the call, in whichever direction
      the routine takes the elements;
    - a byte outside every destination element has the value it had. *)
Theorem raw_array_assign_array_copies
    (env : Collaborators) (ndim : nat) (shape : list Z)
    (dst_dtype : PyArray_Descr) (dst_data : ptr) (dst_strides : list Z)
    (src_dtype : PyArray_Descr) (src_data : ptr) (src_strides : list Z)
    (s : state)
    (ndim' : nat) (shape_it : list Z) (dst0 : ptr) (ds_it : list Z)
    (src0 : ptr) (ss_it : list Z) (cast : list Z -> list Z) :
  let position c0 cs :=
    0 <= c0 < nth 0 shape_it 0 /\ in_range shape_it (outer_dims ndim') cs in
  let dst_element c0 cs :=
    dst0 + c0 * nth 0 ds_it 0 + outer_offset (outer_dims ndim') cs ds_it in
  let src_element c0 cs :=
    src0 + c0 * nth 0 ss_it 0 + outer_offset (outer_dims ndim') cs ss_it in
  let r :=
    raw_array_assign_array env ndim shape
      dst_dtype dst_data dst_strides src_dtype src_data src_strides s in
  PyArray_PrepareTwoRawArrayIter env ndim shape dst_data dst_strides
    src_data src_strides
  = Some (ndim', shape_it, dst0, ds_it, src0, ss_it) ->
  (forall aligned ss ds, exists stransfer needs_api,
     PyArray_GetDTypeTransferFunction env aligned ss ds src_dtype dst_dtype
     = Some (stransfer, needs_api) /\
     strided_contract cast (elsize dst_dtype) stransfer) ->
  (forall c0 cs c0' cs' a, position c0 cs -> position c0' cs' ->
     ~ (c0 = c0' /\ cs = cs') ->
     in_element (dst_element c0 cs) (elsize dst_dtype) a ->
     ~ in_element (dst_element c0' cs') (elsize dst_dtype) a /\
     ~ in_element (src_element c0' cs') (elsize src_dtype) a) ->
  (forall c0 cs b, position c0 cs -> 0 <= b < elsize dst_dtype ->
     st_mem (state_of r) (dst_element c0 cs + b)
     = nth (Z.to_nat b)
         (cast (load (st_mem s) (src_element c0 cs) (elsize src_dtype))) 0) /\
  (forall a,
     (forall c0 cs, position c0 cs ->
        ~ in_element (dst_element c0 cs) (elsize dst_dtype) a) ->
     st_mem (state_of r) a = st_mem s a).
Proof.
  intros position dst_element src_element r Hprep Hres Hapart.
  destruct (@raw_array_assign_array_elements env ndim shape
              dst_dtype dst_data dst_strides src_dtype src_data src_strides
              s ndim' shape_it dst0 ds_it src0 ss_it cast Hprep Hres)
    as (L & Hnd & HL & Hmem).
  fold r in Hmem. rewrite Hmem. split.
  - intros c0 cs b Hpos Hb.
    pose proof (@assign_elements_result cast (elsize dst_dtype)
                  (elsize src_dtype) _
                  (fun p =>
                     mkElement (address (outer_dims ndim') dst0 ds_it p)
                       (address (outer_dims ndim') src0 ss_it p) [])
                  (c0, cs) b L (st_mem s) Hnd) as H.
    cbn [el_dst el_src el_masks guard forallb address fst snd] in H.
    rewrite ?andb_true_r in H.
    apply H; [apply HL; assumption | assumption |].
    intros [c0' cs'] a Hq Hne Ha. cbn [fst snd] in *.
    apply HL in Hq.
    destruct (Hapart c0' cs' c0 cs a Hq Hpos) as [H1 H2];
      [intros [-> ->]; apply Hne; reflexivity | assumption |].
    repeat split; [assumption | assumption | intros []].
  - intros a Hout. apply assign_elements_frame.
    intros e He. apply in_map_iff in He. destruct He as [[c0 cs] [<- Hp]].
    cbn [el_dst address fst snd]. apply Hout, HL. assumption.
Qed.

Lemma raw_array_assign_array_copies_witness :
  let r := raw_array_assign_array numpy 1 [4] int8 32 [1] int8 0 [1]
             arange_state in
  (forall c0 cs b,
     0 <= c0 < 4 /\ in_range [4] [] cs -> 0 <= b < 1 ->
     st_mem (state_of r) (32 + c0 * 1 + outer_offset [] cs [1] + b)
     = nth (Z.to_nat b)
         (load (st_mem arange_state) (0 + c0 * 1 + outer_offset [] cs [1]) 1)
         0) /\
  (forall a,
     (forall c0 cs, 0 <= c0 < 4 /\ in_range [4] [] cs ->
        ~ in_element (32 + c0 * 1 + outer_offset [] cs [1]) 1 a) ->
     st_mem (state_of r) a = st_mem arange_state a).
Proof.
  apply (@raw_array_assign_array_copies numpy 1%nat [4] int8 32 [1]
           int8 0 [1] arange_state 1%nat [4] 32 [1] 0 [1] (fun b => b)).
  - reflexivity.
  - intros aligned ss ds. do 2 eexists. split; [reflexivity |].
    apply strided_transfer_contract.
  - intros c0 cs c0' cs' a [Hc0 Hcs] [Hc0' Hcs'] Hne.
    apply in_range_nil in Hcs, Hcs'. subst cs cs'.
    change (outer_dims 1) with (@nil nat).
    unfold in_element. cbn [nth elsize int8 outer_offset] in *.
    intros H. split; [| lia].
    intros H'. apply Hne. split; [lia | reflexivity].
Defined.

(** The memory [raw_array_wheremasked_assign_array] leaves, for a callable
    that meets its contract. *)
Lemma raw_array_wheremasked_assign_array_elements env ndim shape
    dst_dtype dst_data dst_strides src_dtype src_data src_strides
    wheremask_dtype wheremask_data wheremask_strides s
    ndim' shape_it dst0 ds_it src0 ss_it wm0 ws_it cast :
  PyArray_PrepareThreeRawArrayIter env ndim shape dst_data dst_strides
    src_data src_strides wheremask_data wheremask_strides
  = Some (ndim', shape_it, dst0, ds_it, src0, ss_it, wm0, ws_it) ->
  (forall aligned ss ds ms, exists stransfer needs_api,
     PyArray_GetMaskedDTypeTransferFunction env aligned ss ds ms
       src_dtype dst_dtype wheremask_dtype = Some (stransfer, needs_api) /\
     masked_contract cast (elsize dst_dtype) stransfer) ->
  exists L,
    NoDup L /\
    (forall c0 cs,
       In (c0, cs) L <->
       0 <= c0 < nth 0 shape_it 0 /\
       in_range shape_it (outer_dims ndim') cs) /\
    st_mem (state_of (raw_array_wheremasked_assign_array env ndim shape
                        dst_dtype dst_data dst_strides
                        src_dtype src_data src_strides
                        wheremask_dtype wheremask_data wheremask_strides s))
    = fold_left (assign_element cast (elsize dst_dtype) (elsize src_dtype))
        (map (fun p =>
                mkElement (address (outer_dims ndim') dst0 ds_it p)
                  (address (outer_dims ndim') src0 ss_it p)
                  [address (outer_dims ndim') wm0 ws_it p]) L)
        (st_mem s).
Proof.
  intros Hprep Hres.
  unfold raw_array_wheremasked_assign_array. rewrite Hprep. cbv zeta.
  rewrite bind_state, GetMaskedDTypeTransferFunction_run.
  match goal with
  | |- context [PyArray_GetMaskedDTypeTransferFunction env ?al ?x ?y ?z
                  src_dtype dst_dtype wheremask_dtype] =>
      destruct (Hres al x y z) as (stransfer & needs_api & -> & Hcontract)
  end.
  rewrite result_of_triple, state_of_triple.
  rewrite bind_state, return_status_state.
  set (n0 := nth 0 shape_it 0).
  destruct (overlap_1d ndim' shape_it dst0 src0 ss_it) eqn:Hrev.
  - (* one dimension, last element first *)
    apply overlap_1d_rank in Hrev. subst ndim'.
    change (outer_dims 1) with (@nil nat).
    exists (map (fun i => (n0 - 1 - Z.of_nat i, @nil Z))
              (seq 0 (Z.to_nat n0))).
    split; [apply NoDup_reversed |]. split.
    { intros c0 cs. rewrite in_reversed. split.
      - intros [H ->]. split; [assumption | constructor].
      - intros [H Hcs]. apply in_range_nil in Hcs. auto. }
    cbn [NPY_RAW_ITER nth]. rewrite call_masked_stransfer_state, Hcontract.
    rewrite masked_strided_loop_elements, map_map. f_equal.
    apply map_ext. intros i. unfold address. cbn [fst snd outer_offset].
    rewrite !nth_negate0. f_equal; try ring; f_equal; ring.
  - exists (positions n0 (outer_dims ndim') shape_it).
    split; [apply NoDup_positions |]. split.
    { intros c0 cs. apply in_positions. }
    rewrite (NPY_RAW_ITER_memory
               (fun d m =>
                  masked_strided_loop cast (elsize dst_dtype) (Z.to_nat n0)
                    (nth 0 d 0) (nth 0 ds_it 0) (nth 1 d 0) (nth 0 ss_it 0)
                    (nth 2 d 0) (nth 0 ws_it 0) (elsize src_dtype) m)).
    + unfold positions. rewrite flat_map_concat_map, concat_map, map_map.
      rewrite <- flat_map_concat_map, fold_left_flat_map.
      apply fold_left_ext_in. intros m cs _.
      rewrite masked_strided_loop_elements, !map_map. f_equal.
      apply map_ext. intros i. unfold address, offset_data.
      cbn [combine map nth fst snd]. f_equal; try ring; f_equal; ring.
    + intros d s'. rewrite call_masked_stransfer_state, Hcontract.
      reflexivity.
    + reflexivity.
Qed.

(** X9.  [raw_array_wheremasked_assign_array] assigns where the mask is
    true.  In the coordinates of the prepared iteration, given a masked
    transfer callable that meets its contract for the conversion [cast],
    and positions that are apart in memory (a byte of one position's
    destination element belongs neither to the destination element nor to
    the source element of another position, and is not the where-mask byte
    of another position): every destination element holds the conversion
    of the source element of its position as that was before the call when
    its where-mask byte was true before the call, and its own bytes of
    before the call when it was false. *)
Theorem raw_array_wheremasked_assign_array_assigns
    (env : Collaborators) (ndim : nat) (shape : list Z)
    (dst_dtype : PyArray_Descr) (dst_data : ptr) (dst_strides : list Z)
    (src_dtype : PyArray_Descr) (src_data : ptr) (src_strides : list Z)
    (wheremask_dtype : PyArray_Descr) (wheremask_data : ptr)
    (wheremask_strides : list Z) (s : state)
    (ndim' : nat) (shape_it : list Z) (dst0 : ptr) (ds_it : list Z)
    (src0 : ptr) (ss_it : list Z) (wm0 : ptr) (ws_it : list Z)
    (cast : list Z -> list Z) :
  let position c0 cs :=
    0 <= c0 < nth 0 shape_it 0 /\ in_range shape_it (outer_dims ndim') cs in
  let dst_element c0 cs :=
    dst0 + c0 * nth 0 ds_it 0 + outer_offset (outer_dims ndim') cs ds_it in
  let src_element c0 cs :=
    src0 + c0 * nth 0 ss_it 0 + outer_offset (outer_dims ndim') cs ss_it in
  let mask_byte c0 cs :=
    wm0 + c0 * nth 0 ws_it 0 + outer_offset (outer_dims ndim') cs ws_it in
  let r :=
    raw_array_wheremasked_assign_array env ndim shape
      dst_dtype dst_data dst_strides src_dtype src_data src_strides
      wheremask_dtype wheremask_data wheremask_strides s in
  PyArray_PrepareThreeRawArrayIter env ndim shape dst_data dst_strides
    src_data src_strides wheremask_data wheremask_strides
  = Some (ndim', shape_it, dst0, ds_it, src0, ss_it, wm0, ws_it) ->
  (forall aligned ss ds ms, exists stransfer needs_api,
     PyArray_GetMaskedDTypeTransferFunction env aligned ss ds ms
       src_dtype dst_dtype wheremask_dtype = Some (stransfer, needs_api) /\
     masked_contract cast (elsize dst_dtype) stransfer) ->
  (forall c0 cs c0' cs' a, position c0 cs -> position c0' cs' ->
     ~ (c0 = c0' /\ cs = cs') ->
     in_element (dst_element c0 cs) (elsize dst_dtype) a ->
     ~ in_element (dst_element c0' cs') (elsize dst_dtype) a /\
     ~ in_element (src_element c0' cs') (elsize src_dtype) a /\
     a <> mask_byte c0' cs') ->
  forall c0 cs b, position c0 cs -> 0 <= b < elsize dst_dtype ->
    st_mem (state_of r) (dst_element c0 cs + b)
    = if mask_true (st_mem s (mask_byte c0 cs))
      then nth (Z.to_nat b)
             (cast (load (st_mem s) (src_element c0 cs) (elsize src_dtype)))
             0
      else st_mem s (dst_element c0 cs + b).
Proof.
  intros position dst_element src_element mask_byte r Hprep Hres Hapart
    c0 cs b Hpos Hb.
  destruct (@raw_array_wheremasked_assign_array_elements env ndim shape
              dst_dtype dst_data dst_strides src_dtype src_data src_strides
              wheremask_dtype wheremask_data wheremask_strides
              s ndim' shape_it dst0 ds_it src0 ss_it wm0 ws_it cast
              Hprep Hres)
    as (L & Hnd & HL & Hmem).
  fold r in Hmem. rewrite Hmem.
  pose proof (@assign_elements_result cast (elsize dst_dtype)
                (elsize src_dtype) _
                (fun p =>
                   mkElement (address (outer_dims ndim') dst0 ds_it p)
                     (address (outer_dims ndim') src0 ss_it p)
                     [address (outer_dims ndim') wm0 ws_it p])
                (c0, cs) b L (st_mem s) Hnd) as H.
  cbn [el_dst el_src el_masks guard forallb address fst snd] in H.
    rewrite ?andb_true_r in H.
  apply H; [apply HL; assumption | assumption |].
  intros [c0' cs'] a Hq Hne Ha. cbn [fst snd] in *.
  apply HL in Hq.
  destruct (Hapart c0' cs' c0 cs a Hq Hpos) as (H1 & H2 & H3);
    [intros [-> ->]; apply Hne; reflexivity | assumption |].
  repeat split; [assumption | assumption |].
  intros [E | []]. apply H3. symmetry. assumption.
Qed.

Lemma raw_array_wheremasked_assign_array_assigns_witness :
  let r :=
    raw_array_wheremasked_assign_array numpy 1 [4] int8 32 [1] int8 0 [1]
      bool_ 24 [1] wheremask_state in
  st_mem (state_of r) (32 + 2 * 1 + outer_offset [] [] [1] + 0)
  = if mask_true (st_mem wheremask_state
                    (24 + 2 * 1 + outer_offset [] [] [1]))
    then nth (Z.to_nat 0)
           (load (st_mem wheremask_state)
              (0 + 2 * 1 + outer_offset [] [] [1]) 1) 0
    else st_mem wheremask_state (32 + 2 * 1 + outer_offset [] [] [1] + 0).
Proof.
  apply (@raw_array_wheremasked_assign_array_assigns numpy 1%nat [4]
           int8 32 [1] int8 0 [1] bool_ 24 [1] wheremask_state
           1%nat [4] 32 [1] 0 [1] 24 [1] (fun b => b)).
  - reflexivity.
  - intros aligned ss ds ms. do 2 eexists. split; [reflexivity |].
    apply masked_strided_transfer_contract.
  - intros c0 cs c0' cs' a [Hc0 Hcs] [Hc0' Hcs'] Hne.
    apply in_range_nil in Hcs, Hcs'. subst cs cs'.
    change (outer_dims 1) with (@nil nat).
    unfold in_element. cbn [nth elsize int8 outer_offset] in *.
    intros H. split; [| lia].
    intros H'. apply Hne. split; [lia | reflexivity].
  - split; [simpl; lia | constructor].
  - simpl. lia.
Defined.

(** Run from the first element to the last with one and the same stride,
    no smaller than the elements, and with the source at or above the
    destination, or wholly below it, the callable gives every destination
    element the conversion of the source element as it was before the
    run. *)
Lemma strided_loop_forward cast dst_itemsize src_itemsize stride :
  forall N dst src m0 k b,
  dst <= src \/ src + Z.of_nat N * stride <= dst ->
  0 <= dst_itemsize <= stride -> 0 <= src_itemsize <= stride ->
  0 <= k < Z.of_nat N -> 0 <= b < dst_itemsize ->
  strided_loop cast dst_itemsize N dst stride src stride src_itemsize m0
    (dst + k * stride + b)
  = nth (Z.to_nat b) (cast (load m0 (src + k * stride) src_itemsize)) 0.
Proof.
  induction N as [| N IH]; intros dst src m0 k b Hpos Hd Hs Hk Hb; [lia |].
  cbn [strided_loop].
  destruct (Z.eq_dec k 0) as [-> | Hne].
  - rewrite strided_loop_frame.
    + rewrite store_same by (unfold in_element; lia).
      rewrite Z.mul_0_l, !Z.add_0_r.
      replace (dst + b - dst) with b by lia. reflexivity.
    + intros i Hi. unfold in_element. nia.
  - replace (dst + k * stride + b)
      with (dst + stride + (k - 1) * stride + b) by ring.
    rewrite IH by (assumption || lia).
    replace (src + stride + (k - 1) * stride) with (src + k * stride) by ring.
    f_equal. f_equal. apply load_ext.
    intros a Ha. apply store_other. unfold in_element in *. nia.
Qed.

(** X10.  One-dimensional arrays with one and the same stride, no smaller
    than their elements, are copied right however they overlap: when the
    prepared iteration has one dimension and destination and source the
    same stride, every destination element ends up with the conversion of
    the source element as it was before the call.  The routine takes the
    elements last to first when the source starts below the destination
    and reaches past it (lines 74-80), and first to last otherwise. *)
Theorem raw_array_assign_array_equal_strides_copies
    (env : Collaborators) (ndim : nat) (shape : list Z)
    (dst_dtype : PyArray_Descr) (dst_data : ptr) (dst_strides : list Z)
    (src_dtype : PyArray_Descr) (src_data : ptr) (src_strides : list Z)
    (s : state) (n : Z) (dst0 src0 stride : Z) (cast : list Z -> list Z) :
  let r :=
    raw_array_assign_array env ndim shape
      dst_dtype dst_data dst_strides src_dtype src_data src_strides s in
  PyArray_PrepareTwoRawArrayIter env ndim shape dst_data dst_strides
    src_data src_strides
  = Some (1%nat, [n], dst0, [stride], src0, [stride]) ->
  (forall aligned ss ds, exists stransfer needs_api,
     PyArray_GetDTypeTransferFunction env aligned ss ds src_dtype dst_dtype
     = Some (stransfer, needs_api) /\
     strided_contract cast (elsize dst_dtype) stransfer) ->
  0 <= elsize dst_dtype <= stride ->
  0 <= elsize src_dtype <= stride ->
  forall k b, 0 <= k < n -> 0 <= b < elsize dst_dtype ->
    st_mem (state_of r) (dst0 + k * stride + b)
    = nth (Z.to_nat b)
        (cast (load (st_mem s) (src0 + k * stride) (elsize src_dtype))) 0.
Proof.
  intros r Hprep Hres Hd Hs k b Hk Hb. subst r.
  unfold raw_array_assign_array. rewrite Hprep. cbv zeta.
  rewrite bind_state, GetDTypeTransferFunction_run.
  match goal with
  | |- context [PyArray_GetDTypeTransferFunction env ?al ?x ?y
                  src_dtype dst_dtype] =>
      destruct (Hres al x y) as (stransfer & needs_api & -> & Hcontract)
  end.
  rewrite result_of_triple, state_of_triple.
  rewrite bind_state, return_status_state.
  change (outer_dims 1) with (@nil nat). cbn [NPY_RAW_ITER nth].
  rewrite call_stransfer_state, Hcontract.
  unfold overlap_1d. cbn [Nat.eqb nth andb].
  destruct (Z.ltb_spec src0 dst0) as [Hlt | Hge]; cbn [andb].
  - destruct (Z.gtb_spec (src0 + n * stride) dst0) as [Hpast | Hbelow].
    + (* the source reaches past the destination: last element first *)
      cbn [negate0 nth].
      pose proof (@strided_loop_reversed cast (elsize dst_dtype)
                    (elsize src_dtype) stride dst0 src0 (Z.to_nat n)
                    (st_mem s) k b) as H.
      rewrite Z2Nat.id in H by lia. apply H; assumption || lia.
    + apply strided_loop_forward; try assumption; lia.
  - apply strided_loop_forward; try assumption; lia.
Qed.

Lemma raw_array_assign_array_equal_strides_copies_witness :
  let r := raw_array_assign_array numpy 1 [4] int8 1 [1] int8 0 [1]
             arange_state in
  st_mem (state_of r) (1 + 2 * 1 + 0)
  = nth (Z.to_nat 0) (load (st_mem arange_state) (0 + 2 * 1) 1) 0.
Proof.
  apply (@raw_array_assign_array_equal_strides_copies numpy 1%nat [4]
           int8 1 [1] int8 0 [1] arange_state 4 1 0 1 (fun b => b)).
  - reflexivity.
  - intros aligned ss ds. do 2 eexists. split; [reflexivity |].
    apply strided_transfer_contract.
  - simpl. lia.
  - simpl. lia.
  - lia.
  - simpl. lia.
Defined.

(** ** The buffered transfer leaves masked elements alone *)

Lemma call_maskand_stransfer_state f dst ds src0 s0 src1 s1 N s :
  state_of (call_maskand_stransfer f dst ds src0 s0 src1 s1 N s)
  = f dst ds src0 s0 src1 s1 N s.
Proof. reflexivity. Qed.

(** One chunk: the combination of the two masks into the buffer, then the
    transfer under the buffered mask.  A byte outside the buffer keeps its
    value when every destination element of the chunk it belongs to has
    one of its two masks false. *)
Lemma preservena_chunk_frame maskand stransfer dst_itemsize buf itemsize
    src_itemsize D ds S ss N ns W ws n st x :
  masked_frame dst_itemsize stransfer ->
  maskand_contract maskand ->
  itemsize <> 0 ->
  (forall i, 0 <= i < n -> x <> buf + i * itemsize) ->
  (forall i j, 0 <= i < n -> 0 <= j < n ->
     N + j * ns <> buf + i * itemsize /\ W + j * ws <> buf + i * itemsize) ->
  (forall i j, 0 <= i < n -> 0 <= j < n ->
     ~ in_element (D + i * ds) dst_itemsize (buf + j * itemsize)) ->
  (forall i, 0 <= i < n -> in_element (D + i * ds) dst_itemsize x ->
     mask_true (st_mem st (N + i * ns)) && mask_true (st_mem st (W + i * ws))
     = false) ->
  st_mem (state_of
            ((call_maskand_stransfer maskand buf itemsize N ns W ws n ;;;
              call_masked_stransfer stransfer D ds S ss buf itemsize n
                src_itemsize) st)) x
  = st_mem st x.
Proof.
  intros Hframe Hand Hsize Hslot Hsrc Hdst Hfalse.
  rewrite bind_state, call_masked_stransfer_state,
    call_maskand_stransfer_state.
  rewrite Hframe.
  - rewrite Hand. apply maskand_loop_frame.
    intros i Hi. apply Hslot. lia.
  - intros i j Hi Hj _. apply Hdst; assumption.
  - intros i Hi Hin. rewrite Hand.
    rewrite maskand_loop_combines.
    + rewrite Hfalse by assumption. reflexivity.
    + assumption.
    + intros i' j' Hi' Hj'. apply Hsrc; lia.
    + lia.
Qed.

Section Buffered_invariant.

Variable env : Collaborators.
Variable I : state -> Prop.
Variables (maskand : PyArray_StridedBinaryOp)
          (stransfer : PyArray_MaskedStridedUnaryOp).
Variables (buf : ptr) (itemsize src_itemsize : Z).
Variables (ds ss ns ws : Z) (total : Z) (D S N W : ptr).

Hypothesis chunk_keeps : forall k0 st,
  0 <= k0 -> I st ->
  I (state_of
       ((call_maskand_stransfer maskand buf itemsize
           (N + k0 * ns) ns (W + k0 * ws) ws
           (Z.min (total - k0) (Z.pos (NPY_ARRAY_ASSIGN_BUFFERSIZE env))) ;;;
         call_masked_stransfer stransfer (D + k0 * ds) ds (S + k0 * ss) ss
           buf itemsize
           (Z.min (total - k0) (Z.pos (NPY_ARRAY_ASSIGN_BUFFERSIZE env)))
           src_itemsize) st)).

(** What every chunk keeps, the buffered loop keeps. *)
Lemma buffered_loop_invariant : forall fuel k0 st,
  0 <= k0 -> I st ->
  I (state_of
       (buffered_loop env fuel maskand stransfer buf itemsize src_itemsize
          ds ss ns ws (total - k0)
          (D + k0 * ds) (S + k0 * ss) (N + k0 * ns) (W + k0 * ws) st)).
Proof.
  set (B := Z.pos (NPY_ARRAY_ASSIGN_BUFFERSIZE env)) in *.
  assert (HB : 0 < B) by (subst B; lia).
  assert (Hmin : forall count,
            (if count <? B then count else B) = Z.min count B).
  { intros count. destruct (Z.ltb_spec count B); lia. }
  induction fuel as [| fuel IH]; intros k0 st Hk0 Hst;
    cbn [buffered_loop]; fold B; rewrite Hmin;
    pose proof (chunk_keeps Hk0 Hst) as Hchunk;
    rewrite bind_state in Hchunk; rewrite !bind_state;
    match type of Hchunk with I ?st1 => set (s1 := st1) in * end.
  - destruct (0 <? _); assumption.
  - destruct (Z.ltb_spec 0 (total - k0 - Z.min (total - k0) B)) as [Hmore | _];
      [| assumption].
    replace (Z.min (total - k0) B) with B in * by lia.
    replace (total - k0 - B) with (total - (k0 + B)) by ring.
    replace (D + k0 * ds + B * ds) with (D + (k0 + B) * ds) by ring.
    replace (S + k0 * ss + B * ss) with (S + (k0 + B) * ss) by ring.
    replace (N + k0 * ns + B * ns) with (N + (k0 + B) * ns) by ring.
    replace (W + k0 * ws + B * ws) with (W + (k0 + B) * ws) by ring.
    apply IH; [lia | assumption].
Qed.

End Buffered_invariant.

(** The buffered iteration as the routine runs it, from whatever start
    pointers and strides.  [a] is a byte outside the scratch buffer; it
    keeps its value when every destination element it belongs to has one of
    its two masks false at the start. *)
Lemma preservena_iteration_frame env maskand stransfer dst_itemsize
    idims shape ds ss ns ws dst src na wm n0 buf itemsize src_itemsize s0 a :
  let B := Z.pos (NPY_ARRAY_ASSIGN_BUFFERSIZE env) in
  let dst_at c0 cs := dst + c0 * nth 0 ds 0 + outer_offset idims cs ds in
  let na_at c0 cs := na + c0 * nth 0 ns 0 + outer_offset idims cs ns in
  let wm_at c0 cs := wm + c0 * nth 0 ws 0 + outer_offset idims cs ws in
  masked_frame dst_itemsize stransfer ->
  maskand_contract maskand ->
  itemsize <> 0 ->
  (forall i c0 cs, 0 <= i < B -> 0 <= c0 < n0 -> in_range shape idims cs ->
     ~ in_element (dst_at c0 cs) dst_itemsize (buf + i * itemsize) /\
     na_at c0 cs <> buf + i * itemsize /\
     wm_at c0 cs <> buf + i * itemsize) ->
  (forall c0 cs c0' cs',
     0 <= c0 < n0 -> in_range shape idims cs ->
     0 <= c0' < n0 -> in_range shape idims cs' ->
     ~ (c0 = c0' /\ cs = cs') ->
     ~ in_element (dst_at c0 cs) dst_itemsize (na_at c0' cs') /\
     ~ in_element (dst_at c0 cs) dst_itemsize (wm_at c0' cs')) ->
  (forall i, 0 <= i < B -> a <> buf + i * itemsize) ->
  (forall c0 cs, 0 <= c0 < n0 -> in_range shape idims cs ->
     in_element (dst_at c0 cs) dst_itemsize a ->
     mask_true (st_mem s0 (na_at c0 cs))
     && mask_true (st_mem s0 (wm_at c0 cs)) = false) ->
  st_mem
    (state_of
       (NPY_RAW_ITER idims shape [ds; ss; ns; ws] [dst; src; na; wm]
          (fun data =>
             process_innermost env maskand stransfer buf itemsize
               src_itemsize (nth 0 ds 0) (nth 0 ss 0) (nth 0 ns 0)
               (nth 0 ws 0) n0
               (nth 0 data 0) (nth 1 data 0) (nth 2 data 0) (nth 3 data 0))
          s0)) a
  = st_mem s0 a.
Proof.
  intros B dst_at na_at wm_at Hframe Hand Hsize Hbuf Halias Ha Hfalse.
  (* the bytes the iteration keeps *)
  set (kept := fun x =>
                 (forall i, 0 <= i < B -> x <> buf + i * itemsize) /\
                 forall c0 cs, 0 <= c0 < n0 -> in_range shape idims cs ->
                   in_element (dst_at c0 cs) dst_itemsize x ->
                   mask_true (st_mem s0 (na_at c0 cs))
                   && mask_true (st_mem s0 (wm_at c0 cs)) = false).
  set (I := fun s : state => forall x, kept x -> st_mem s x = st_mem s0 x).
  assert (Hmasks : forall c0 cs, 0 <= c0 < n0 -> in_range shape idims cs ->
            mask_true (st_mem s0 (na_at c0 cs))
            && mask_true (st_mem s0 (wm_at c0 cs)) = false ->
            kept (na_at c0 cs) /\ kept (wm_at c0 cs)).
  { intros c0 cs Hc0 Hcs Hoff. split; split.
    - intros i Hi. apply (Hbuf i c0 cs); assumption.
    - intros c0' cs' Hc0' Hcs' Hin.
      destruct (Z.eq_dec c0' c0) as [-> | Hne].
      + destruct (list_eq_dec Z.eq_dec cs' cs) as [-> | Hne'];
          [assumption |].
        exfalso.
        destruct (Halias c0 cs' c0 cs Hc0' Hcs' Hc0 Hcs) as [H _];
          [intros [_ E]; contradiction | contradiction].
      + exfalso.
        destruct (Halias c0' cs' c0 cs Hc0' Hcs' Hc0 Hcs) as [H _];
          [intros [E _]; contradiction | contradiction].
    - intros i Hi. apply (Hbuf i c0 cs); assumption.
    - intros c0' cs' Hc0' Hcs' Hin.
      destruct (Z.eq_dec c0' c0) as [-> | Hne].
      + destruct (list_eq_dec Z.eq_dec cs' cs) as [-> | Hne'];
          [assumption |].
        exfalso.
        destruct (Halias c0 cs' c0 cs Hc0' Hcs' Hc0 Hcs) as [_ H];
          [intros [_ E]; contradiction | contradiction].
      + exfalso.
        destruct (Halias c0' cs' c0 cs Hc0' Hcs' Hc0 Hcs) as [_ H];
          [intros [E _]; contradiction | contradiction]. }
  assert (HI : I (state_of
                    (NPY_RAW_ITER idims shape [ds; ss; ns; ws]
                       [dst; src; na; wm]
                       (fun data =>
                          process_innermost env maskand stransfer buf
                            itemsize src_itemsize (nth 0 ds 0) (nth 0 ss 0)
                            (nth 0 ns 0) (nth 0 ws 0) n0
                            (nth 0 data 0) (nth 1 data 0) (nth 2 data 0)
                            (nth 3 data 0)) s0))).
  { apply NPY_RAW_ITER_invariant; [reflexivity | | intros x _; reflexivity].
    intros cs d s Hcs Hd Hs. unfold process_innermost.
    pose proof (Hd 0%nat) as Hd0. pose proof (Hd 1%nat) as Hd1.
    pose proof (Hd 2%nat) as Hd2. pose proof (Hd 3%nat) as Hd3.
    cbn [nth] in Hd0, Hd1, Hd2, Hd3.
    pose proof (@buffered_loop_invariant env I maskand stransfer buf itemsize
                  src_itemsize (nth 0 ds 0) (nth 0 ss 0) (nth 0 ns 0)
                  (nth 0 ws 0) n0 (nth 0 d 0) (nth 1 d 0) (nth 2 d 0)
                  (nth 3 d 0)) as Hloop.
    specialize (fun H => Hloop H (Z.to_nat n0) 0 s).
    rewrite Z.sub_0_r, !Z.mul_0_l, !Z.add_0_r in Hloop.
    apply Hloop; [| lia | assumption].
    clear Hloop. intros k0 st Hk0 Hst x Hx. fold B.
    rewrite <- (Hst x Hx).
    assert (Epos : forall i,
              nth 0 d 0 + k0 * nth 0 ds 0 + i * nth 0 ds 0
              = dst_at (k0 + i) cs)
      by (intros; unfold dst_at; rewrite Hd0; ring).
    assert (Ena : forall i,
              nth 2 d 0 + k0 * nth 0 ns 0 + i * nth 0 ns 0
              = na_at (k0 + i) cs)
      by (intros; unfold na_at; rewrite Hd2; ring).
    assert (Ewm : forall i,
              nth 3 d 0 + k0 * nth 0 ws 0 + i * nth 0 ws 0
              = wm_at (k0 + i) cs)
      by (intros; unfold wm_at; rewrite Hd3; ring).
    destruct Hx as [Hxslot Hxoff].
    apply preservena_chunk_frame with (dst_itemsize := dst_itemsize);
      try assumption.
    - intros i Hi. apply Hxslot. lia.
    - intros i j Hi Hj. rewrite Ena, Ewm.
      destruct (Hbuf i (k0 + j) cs) as (_ & H1 & H2);
        [lia | lia | assumption |]. split; assumption.
    - intros i j Hi Hj. rewrite Epos.
      destruct (Hbuf j (k0 + i) cs) as (H & _); [lia | lia | assumption |].
      assumption.
    - intros i Hi Hin. rewrite Epos in Hin. rewrite Ena, Ewm.
      assert (Hoff := Hxoff (k0 + i) cs ltac:(lia) Hcs Hin).
      destruct (Hmasks (k0 + i) cs ltac:(lia) Hcs Hoff) as [Hkna Hkwm].
      rewrite (Hst _ Hkna), (Hst _ Hkwm). assumption. }
  apply HI. split; assumption.
Qed.

(** X11.  [raw_array_wheremasked_assign_array_preservena] writes only where
    both masks are true.  In the coordinates of the prepared iteration,
    position [(c0, cs)] has its destination element at [dst_element c0 cs],
    its NA-mask byte at [na_byte c0 cs] and its where-mask byte at
    [mask_byte c0 cs]; [scratch i] is element [i] of the scratch buffer.
    Given callables that meet their contracts, a scratch buffer apart from
    the destination elements and from the two masks, and no mask byte
    stored in the destination element of another position: a byte outside
    the scratch buffer that belongs to no destination element with both
    masks true before the call has the value it had before the call.  This
    holds for every outcome of the call and for runs of any number of
    chunks. *)
Theorem preservena_keeps_masked_elements
    (env : Collaborators) (ndim : nat) (shape : list Z)
    (dst_dtype : PyArray_Descr) (dst_data : ptr) (dst_strides : list Z)
    (src_dtype : PyArray_Descr) (src_data : ptr) (src_strides : list Z)
    (maskna_dtype : PyArray_Descr) (maskna_data : ptr)
    (maskna_strides : list Z)
    (wheremask_dtype : PyArray_Descr) (wheremask_data : ptr)
    (wheremask_strides : list Z) (s : state)
    (ndim' : nat) (shape_it : list Z) (dst0 : ptr) (ds_it : list Z)
    (src0 : ptr) (ss_it : list Z) (na0 : ptr) (ns_it : list Z)
    (wm0 : ptr) (ws_it : list Z) :
  let position c0 cs :=
    0 <= c0 < nth 0 shape_it 0 /\ in_range shape_it (outer_dims ndim') cs in
  let dst_element c0 cs :=
    dst0 + c0 * nth 0 ds_it 0 + outer_offset (outer_dims ndim') cs ds_it in
  let na_byte c0 cs :=
    na0 + c0 * nth 0 ns_it 0 + outer_offset (outer_dims ndim') cs ns_it in
  let mask_byte c0 cs :=
    wm0 + c0 * nth 0 ws_it 0 + outer_offset (outer_dims ndim') cs ws_it in
  let B := Z.pos (NPY_ARRAY_ASSIGN_BUFFERSIZE env) in
  let scratch i :=
    PyArray_malloc env (B * elsize maskna_dtype) s
    + i * elsize maskna_dtype in
  let r :=
    raw_array_wheremasked_assign_array_preservena env ndim shape
      dst_dtype dst_data dst_strides src_dtype src_data src_strides
      maskna_dtype maskna_data maskna_strides
      wheremask_dtype wheremask_data wheremask_strides s in
  PyArray_PrepareFourRawArrayIter env ndim shape dst_data dst_strides
    src_data src_strides maskna_data maskna_strides
    wheremask_data wheremask_strides
  = Some (ndim', shape_it, dst0, ds_it, src0, ss_it, na0, ns_it,
          wm0, ws_it) ->
  (forall aligned ss ds ms stransfer needs_api,
     PyArray_GetMaskedDTypeTransferFunction env aligned ss ds ms
       src_dtype dst_dtype maskna_dtype = Some (stransfer, needs_api) ->
     masked_frame (elsize dst_dtype) stransfer) ->
  (forall ns ws maskand,
     PyArray_GetMaskAndFunction env ns maskna_dtype ws wheremask_dtype
     = Some maskand ->
     maskand_contract maskand) ->
  elsize maskna_dtype <> 0 ->
  (forall i c0 cs, 0 <= i < B -> position c0 cs ->
     ~ in_element (dst_element c0 cs) (elsize dst_dtype) (scratch i) /\
     na_byte c0 cs <> scratch i /\ mask_byte c0 cs <> scratch i) ->
  (forall c0 cs c0' cs', position c0 cs -> position c0' cs' ->
     ~ (c0 = c0' /\ cs = cs') ->
     ~ in_element (dst_element c0 cs) (elsize dst_dtype) (na_byte c0' cs') /\
     ~ in_element (dst_element c0 cs) (elsize dst_dtype)
         (mask_byte c0' cs')) ->
  forall a,
    (forall i, 0 <= i < B -> a <> scratch i) ->
    (forall c0 cs, position c0 cs ->
       in_element (dst_element c0 cs) (elsize dst_dtype) a ->
       mask_true (st_mem s (na_byte c0 cs))
       && mask_true (st_mem s (mask_byte c0 cs)) = false) ->
    st_mem (state_of r) a = st_mem s a.
Proof.
  intros position dst_element na_byte mask_byte B scratch r Hprep Hres Hand
    Hsize Hbuf Halias a Ha Hfalse.
  subst r. unfold raw_array_wheremasked_assign_array_preservena.
  rewrite Hprep. cbv zeta. fold B.
  rewrite bind_state. unfold result_of at 1, state_of at 2. cbn [fst snd].
  set (buf := PyArray_malloc env (B * elsize maskna_dtype) s) in *.
  destruct (buf =? NULL); [reflexivity |].
  rewrite bind_state, GetMaskedDTypeTransferFunction_run.
  match goal with
  | |- context [PyArray_GetMaskedDTypeTransferFunction env ?al ?x ?y ?z
                  src_dtype dst_dtype maskna_dtype] =>
      pose proof (Hres al x y z) as Hc;
      destruct (PyArray_GetMaskedDTypeTransferFunction env al x y z
                  src_dtype dst_dtype maskna_dtype)
        as [[stransfer needs_api] |]
  end; [| reflexivity].
  specialize (Hc stransfer needs_api eq_refl).
  rewrite result_of_triple, state_of_triple.
  rewrite bind_state, GetMaskAndFunction_run.
  match goal with
  | |- context [PyArray_GetMaskAndFunction env ?x maskna_dtype ?y
                  wheremask_dtype] =>
      pose proof (Hand x y) as Hm;
      destruct (PyArray_GetMaskAndFunction env x maskna_dtype y
                  wheremask_dtype) as [maskand |]
  end; [| reflexivity].
  specialize (Hm maskand eq_refl).
  rewrite result_of_triple, state_of_triple.
  rewrite bind_state.
  match goal with
  | |- st_mem (state_of ((emit ?e ;;; return_status ?b) ?st)) a = _ =>
      change (st_mem st a = st_mem s a)
  end.
  destruct (overlap_1d ndim' shape_it dst0 src0 ss_it) eqn:Hrev.
  - (* the traversal is reversed: one dimension, last element first *)
    apply overlap_1d_rank in Hrev.
    subst position dst_element na_byte mask_byte scratch. cbv beta in *.
    rewrite Hrev in *. change (outer_dims 1) with (@nil nat) in *.
    set (n0 := nth 0 shape_it 0) in *.
    assert (E : forall p st c0,
              p + (n0 - 1) * st + c0 * - st + 0
              = p + (n0 - 1 - c0) * st + 0) by (intros; ring).
    apply preservena_iteration_frame with (dst_itemsize := elsize dst_dtype);
      try assumption; rewrite ?nth_negate0; cbn [outer_offset].
    + intros i c0 cs Hi Hc0 Hcs. apply in_range_nil in Hcs. subst cs.
      cbn [outer_offset]. rewrite !E.
      apply (Hbuf i (n0 - 1 - c0) []); [assumption |].
      split; [lia | constructor].
    + intros c0 cs c0' cs' Hc0 Hcs Hc0' Hcs' Hne.
      apply in_range_nil in Hcs, Hcs'. subst cs cs'.
      cbn [outer_offset]. rewrite !E.
      apply (Halias (n0 - 1 - c0) [] (n0 - 1 - c0') []);
        try (split; [lia | constructor]).
      intros [E' _]. apply Hne. split; [lia | reflexivity].
    + intros c0 cs Hc0 Hcs. apply in_range_nil in Hcs. subst cs.
      cbn [outer_offset]. rewrite !E.
      apply (Hfalse (n0 - 1 - c0) []). split; [lia | constructor].
  - apply preservena_iteration_frame with (dst_itemsize := elsize dst_dtype);
      try assumption.
    + intros i c0 cs Hi Hc0 Hcs. apply Hbuf; [assumption |].
      split; assumption.
    + intros c0 cs c0' cs' Hc0 Hcs Hc0' Hcs'.
      apply Halias; split; assumption.
    + intros c0 cs Hc0 Hcs. apply Hfalse. split; assumption.
Qed.

Lemma maskand_transfer_contract : maskand_contract maskand_transfer.
Proof. intros dst ds src0 s0 src1 s1 N s. reflexivity. Qed.

Lemma preservena_keeps_masked_elements_witness :
  let r :=
    raw_array_wheremasked_assign_array_preservena numpy 1 [4]
      int8 32 [1] int8 0 [1] bool_ 16 [1] bool_ 24 [1] wheremask_state in
  st_mem (state_of r) 33 = st_mem wheremask_state 33.
Proof.
  apply (@preservena_keeps_masked_elements numpy 1%nat [4]
           int8 32 [1] int8 0 [1] bool_ 16 [1] bool_ 24 [1] wheremask_state
           1%nat [4] 32 [1] 0 [1] 16 [1] 24 [1]).
  - reflexivity.
  - intros aligned ss ds ms stransfer needs_api H.
    injection H as <- _. apply masked_strided_transfer_frame.
  - intros ns ws maskand H. injection H as <-.
    apply maskand_transfer_contract.
  - simpl. lia.
  - intros i c0 cs Hi [Hc0 Hcs].
    apply in_range_nil in Hcs. subst cs.
    change (outer_dims 1) with (@nil nat).
    unfold in_element.
    cbn [numpy copy_collaborators PyArray_malloc nth elsize int8 bool_
         outer_offset NPY_ARRAY_ASSIGN_BUFFERSIZE] in *.
    lia.
  - intros c0 cs c0' cs' [Hc0 Hcs] [Hc0' Hcs'] _.
    apply in_range_nil in Hcs, Hcs'. subst cs cs'.
    change (outer_dims 1) with (@nil nat).
    unfold in_element. cbn [nth elsize int8 outer_offset] in *. lia.
  - intros i Hi.
    cbn [numpy copy_collaborators PyArray_malloc elsize bool_]. lia.
  - intros c0 cs [Hc0 Hcs] Hin.
    apply in_range_nil in Hcs. subst cs.
    change (outer_dims 1) with (@nil nat) in *.
    unfold in_element in Hin. cbn [nth elsize int8 outer_offset] in *.
    assert (c0 = 1) as -> by lia. reflexivity.
Defined.

(** ** The assignment under [preservena] *)

(** [raw_array_wheremasked_assign_array] for a callable that keeps what its
    mask tells it to keep: a byte that belongs to no destination element
    with a true mask has the value it had before the call. *)
Lemma raw_array_wheremasked_assign_array_frame env ndim shape
    dst_dtype dst_data dst_strides src_dtype src_data src_strides
    wheremask_dtype wheremask_data wheremask_strides s
    ndim' shape_it dst0 ds_it src0 ss_it wm0 ws_it a :
  let position c0 cs :=
    0 <= c0 < nth 0 shape_it 0 /\ in_range shape_it (outer_dims ndim') cs in
  let dst_element c0 cs :=
    dst0 + c0 * nth 0 ds_it 0 + outer_offset (outer_dims ndim') cs ds_it in
  let mask_byte c0 cs :=
    wm0 + c0 * nth 0 ws_it 0 + outer_offset (outer_dims ndim') cs ws_it in
  PyArray_PrepareThreeRawArrayIter env ndim shape dst_data dst_strides
    src_data src_strides wheremask_data wheremask_strides
  = Some (ndim', shape_it, dst0, ds_it, src0, ss_it, wm0, ws_it) ->
  (forall aligned ss ds ms stransfer needs_api,
     PyArray_GetMaskedDTypeTransferFunction env aligned ss ds ms
       src_dtype dst_dtype wheremask_dtype = Some (stransfer, needs_api) ->
     masked_frame (elsize dst_dtype) stransfer) ->
  (forall c0 cs c0' cs', position c0 cs -> position c0' cs' ->
     ~ (c0 = c0' /\ cs = cs') ->
     ~ in_element (dst_element c0 cs) (elsize dst_dtype)
         (mask_byte c0' cs')) ->
  (forall c0 cs, position c0 cs ->
     in_element (dst_element c0 cs) (elsize dst_dtype) a ->
     mask_true (st_mem s (mask_byte c0 cs)) = false) ->
  st_mem (state_of
            (raw_array_wheremasked_assign_array env ndim shape
               dst_dtype dst_data dst_strides src_dtype src_data src_strides
               wheremask_dtype wheremask_data wheremask_strides s)) a
  = st_mem s a.
Proof.
  intros position dst_element mask_byte Hprep Hcontract Hstable Hfalse.
  unfold raw_array_wheremasked_assign_array. rewrite Hprep. cbv zeta.
  rewrite bind_state, GetMaskedDTypeTransferFunction_run.
  match goal with
  | |- context [PyArray_GetMaskedDTypeTransferFunction env ?al ?x ?y ?z
                  src_dtype dst_dtype wheremask_dtype] =>
      pose proof (Hcontract al x y z) as Hc;
      destruct (PyArray_GetMaskedDTypeTransferFunction env al x y z
                  src_dtype dst_dtype wheremask_dtype)
        as [[stransfer needs_api] |]
  end; [| reflexivity].
  specialize (Hc stransfer needs_api eq_refl).
  rewrite result_of_triple, state_of_triple.
  rewrite bind_state, return_status_state.
  destruct (overlap_1d ndim' shape_it dst0 src0 ss_it) eqn:Hrev.
  - apply overlap_1d_rank in Hrev.
    subst position dst_element mask_byte. cbv beta in *.
    rewrite Hrev in *. change (outer_dims 1) with (@nil nat) in *.
    set (n0 := nth 0 shape_it 0) in *.
    assert (E : forall p st c0,
              p + (n0 - 1) * st + c0 * - st + 0
              = p + (n0 - 1 - c0) * st + 0) by (intros; ring).
    apply masked_iteration_frame with (dst_itemsize := elsize dst_dtype);
      [assumption | |].
    + intros c0 cs c0' cs' Hc0 Hcs Hc0' Hcs' Hne.
      rewrite !nth_negate0. cbn [outer_offset].
      apply in_range_nil in Hcs, Hcs'. subst cs cs'.
      cbn [outer_offset]. rewrite !E.
      apply (Hstable (n0 - 1 - c0) [] (n0 - 1 - c0') []);
        try (split; [lia | constructor]).
      intros [E' _]. apply Hne. split; [lia | reflexivity].
    + intros c0 cs Hc0 Hcs.
      rewrite !nth_negate0. cbn [outer_offset].
      apply in_range_nil in Hcs. subst cs.
      cbn [outer_offset]. rewrite !E.
      apply (Hfalse (n0 - 1 - c0) []).
      split; [lia | constructor].
  - apply masked_iteration_frame with (dst_itemsize := elsize dst_dtype);
      [assumption | |].
    + intros c0 cs c0' cs' Hc0 Hcs Hc0' Hcs'.
      apply Hstable; split; assumption.
    + intros c0 cs Hc0 Hcs. apply Hfalse. split; assumption.
Qed.

Lemma assign_checks_memory env dst src wheremask casting preservewhichna s :
  PyArray_HASMASKNA src && negb (PyArray_HASMASKNA dst) = false ->
  st_mem (state_of (assign_checks env dst src wheremask casting
                      preservewhichna s)) = st_mem s /\
  forall src_has_maskna,
    result_of (assign_checks env dst src wheremask casting
                 preservewhichna s) = inl src_has_maskna ->
    src_has_maskna = PyArray_HASMASKNA src /\
    preservewhichna = None /\
    state_of (assign_checks env dst src wheremask casting
                preservewhichna s) = s.
Proof.
  intros Hscan. unfold assign_checks. rewrite Hscan.
  destruct (PyArray_ISWRITEABLE dst); cbn [negb];
    [| split; [reflexivity | discriminate]].
  destruct (PyArray_CanCastTypeTo env _ _ casting); cbn [negb];
    [| split; [reflexivity | discriminate]].
  destruct preservewhichna; [split; [reflexivity | discriminate] |].
  split; [reflexivity |]. intros shm H. injection H as <-. auto.
Qed.

(** X12.  [preservena] keeps what is NA.  A call without where-mask and with
    [preservena] set, for a destination with an NA mask and a source
    without one (not 0-dimensional, and needing no temporary), goes to
    [raw_array_wheremasked_assign_array] with the destination's NA mask as
    the where-mask (lines 649-656).  In the coordinates of that iteration,
    with a callable that meets its contract and no NA-mask byte stored in
    the destination element of another position: a byte that belongs to no
    destination element exposed by the NA mask has, after the call, the
    value it had before - the payload of every NA element is kept -
    whatever the casting rule, [preservewhichna] and the outcome of the
    call. *)
Theorem preservena_keeps_na_elements
    (env : Collaborators) (depth : nat) (dst src : PyArrayObject)
    (casting : NPY_CASTING) (preservewhichna : option (list bool))
    (s : state)
    (ndim' : nat) (shape_it : list Z) (dst0 : ptr) (ds_it : list Z)
    (src0 : ptr) (ss_it : list Z) (na0 : ptr) (ns_it : list Z) :
  let position c0 cs :=
    0 <= c0 < nth 0 shape_it 0 /\ in_range shape_it (outer_dims ndim') cs in
  let dst_element c0 cs :=
    dst0 + c0 * nth 0 ds_it 0 + outer_offset (outer_dims ndim') cs ds_it in
  let na_byte c0 cs :=
    na0 + c0 * nth 0 ns_it 0 + outer_offset (outer_dims ndim') cs ns_it in
  let r := PyArray_AssignArray env depth dst src None casting true
             preservewhichna s in
  PyArray_NDIM src <> 0%nat ->
  PyArray_HASMASKNA dst = true ->
  PyArray_HASMASKNA src = false ->
  needs_temporary env dst src = false ->
  PyArray_PrepareThreeRawArrayIter env
    (PyArray_NDIM dst) (PyArray_DIMS dst)
    (PyArray_DATA dst) (PyArray_STRIDES dst)
    (PyArray_DATA src) (PyArray_STRIDES src)
    (PyArray_MASKNA_DATA dst) (PyArray_MASKNA_STRIDES dst)
  = Some (ndim', shape_it, dst0, ds_it, src0, ss_it, na0, ns_it) ->
  (forall aligned ss ds ms stransfer needs_api,
     PyArray_GetMaskedDTypeTransferFunction env aligned ss ds ms
       (PyArray_DESCR src) (PyArray_DESCR dst) (PyArray_MASKNA_DTYPE dst)
     = Some (stransfer, needs_api) ->
     masked_frame (elsize (PyArray_DESCR dst)) stransfer) ->
  (forall c0 cs c0' cs', position c0 cs -> position c0' cs' ->
     ~ (c0 = c0' /\ cs = cs') ->
     ~ in_element (dst_element c0 cs) (elsize (PyArray_DESCR dst))
         (na_byte c0' cs')) ->
  forall a,
    (forall c0 cs, position c0 cs ->
       in_element (dst_element c0 cs) (elsize (PyArray_DESCR dst)) a ->
       mask_true (st_mem s (na_byte c0 cs)) = false) ->
    st_mem (state_of r) a = st_mem s a.
Proof.
  intros position dst_element na_byte r Hnd Hdst Hsrc Htmp Hprep Hcontract
    Hstable a Hna. subst r.
  destruct (same_view dst src) eqn:Hsame.
  { apply Nat.eqb_neq in Hnd.
    destruct depth; cbn [PyArray_AssignArray]; rewrite Hnd, Hsame;
      reflexivity. }
  destruct (@assign_checks_memory env dst src None casting preservewhichna s)
    as [Hmem Hpass].
  { rewrite Hsrc. reflexivity. }
  destruct (assign_checks env dst src None casting preservewhichna s)
    as [[[shm | l] s1] check_calls] eqn:Hchecks.
  2: { rewrite (@assign_checks_goto env depth dst src None casting true
                  preservewhichna s l s1 check_calls) by assumption.
       unfold state_of in *. cbn [fst snd] in *. rewrite Hmem.
       reflexivity. }
  destruct (Hpass shm eq_refl) as (-> & -> & Hs1).
  unfold state_of in Hs1. cbn [fst snd] in Hs1. subst s1.
  rewrite (@assign_array_dispatch env depth dst src None casting true None s
             (PyArray_HASMASKNA src) s check_calls) by assumption.
  rewrite Hsrc, Hdst.
  unfold assign_broadcast. unfold bind at 1.
  rewrite broadcast_src_run.
  destruct (result_of (broadcast_src dst src s)) as [src_strides |];
    [| reflexivity].
  unfold bind at 1, ret at 1.
  unfold assign_unmasked. cbn [negb orb]. unfold check.
  unfold bind at 1.
  match goal with
  | |- context [raw_array_wheremasked_assign_array env ?n ?sh ?dd ?d ?ds
                  ?sd ?sp ?ss ?wd ?w ?ws s] =>
      pose proof (@raw_array_wheremasked_assign_array_frame env n sh dd d ds
                    sd sp ss wd w ws s ndim' shape_it dst0 ds_it src0 ss_it
                    na0 ns_it a Hprep Hcontract Hstable Hna) as Hframe;
      destruct (raw_array_wheremasked_assign_array env n sh dd d ds
                  sd sp ss wd w ws s) as [[code s2] calls]
  end.
  unfold state_of in Hframe. cbn [fst snd] in Hframe.
  destruct (code <? 0); exact Hframe.
Qed.

Lemma preservena_keeps_na_elements_witness :
  let dst := masked 40 [1] (view 32 [4] [1]) in
  let s := mkState (store arange_mem 40 4 [1; 0; 1; 1]) None in
  let r := PyArray_AssignArray numpy 0 dst (view 0 [4] [1]) None
             NPY_SAFE_CASTING true None s in
  st_mem (state_of r) 33 = st_mem s 33.
Proof.
  apply (@preservena_keeps_na_elements numpy 0%nat
           (masked 40 [1] (view 32 [4] [1])) (view 0 [4] [1])
           NPY_SAFE_CASTING None
           (mkState (store arange_mem 40 4 [1; 0; 1; 1]) None)
           1%nat [4] 32 [1] 0 [1] 40 [1]).
  - simpl. lia.
  - reflexivity.
  - reflexivity.
  - reflexivity.
  - reflexivity.
  - intros aligned ss ds ms stransfer needs_api H.
    injection H as <- _. apply masked_strided_transfer_frame.
  - intros c0 cs c0' cs' [Hc0 Hcs] [Hc0' Hcs'] _.
    apply in_range_nil in Hcs, Hcs'. subst cs cs'.
    change (outer_dims 1) with (@nil nat).
    unfold in_element. cbn [nth elsize int8 outer_offset view masked
                            PyArray_DESCR] in *. lia.
  - intros c0 cs [Hc0 Hcs] Hin.
    apply in_range_nil in Hcs. subst cs.
    change (outer_dims 1) with (@nil nat) in *.
    unfold in_element in Hin.
    cbn [nth elsize int8 outer_offset view masked PyArray_DESCR] in *.
    assert (c0 = 1) as -> by lia. reflexivity.
Defined.

(** The run of the witness: the second element of the destination is NA
    and keeps 33. *)
Example preservena_keeps_na_elements_run :
  let dst := masked 40 [1] (view 32 [4] [1]) in
  let s := mkState (store arange_mem 40 4 [1; 0; 1; 1]) None in
  let r := PyArray_AssignArray numpy 0 dst (view 0 [4] [1]) None
             NPY_SAFE_CASTING true None s in
  result_of r = Some 0 /\
  map (st_mem (state_of r)) [32; 33; 34; 35] = [0; 33; 2; 3] /\
  map (st_mem (state_of r)) [40; 41; 42; 43] = [1; 0; 1; 1].
Proof. vm_compute. repeat split. Qed.

(** On this path the source is handed to the raw routine with its own
    strides (line 654), where the path without [preservena] hands over the
    broadcast strides (line 622): a one-element source assigned to four
    exposed elements is replicated without [preservena], and read on past
    its one element with it. *)
Example preservena_source_strides :
  let dst := masked 40 [1] (view 32 [4] [1]) in
  let src := view 0 [1] [1] in
  let s := mkState (store arange_mem 40 4 [1; 1; 1; 1]) None in
  let overwrite := PyArray_AssignArray numpy 0 dst src None
                     NPY_SAFE_CASTING false None s in
  let preserve := PyArray_AssignArray numpy 0 dst src None
                    NPY_SAFE_CASTING true None s in
  result_of overwrite = Some 0 /\
  map (st_mem (state_of overwrite)) [32; 33; 34; 35] = [0; 0; 0; 0] /\
  result_of preserve = Some 0 /\
  map (st_mem (state_of preserve)) [32; 33; 34; 35] = [0; 1; 2; 3].
Proof. vm_compute. repeat split. Qed.

(** ** The plain assignment *)

(** The status [raw_array_assign_array] answers once the iteration is
    prepared and the callable resolved. *)
Lemma raw_array_assign_array_status env ndim shape
    dst_dtype dst_data dst_strides src_dtype src_data src_strides s
    prepared stransfer needs_api :
  PyArray_PrepareTwoRawArrayIter env ndim shape dst_data dst_strides
    src_data src_strides = Some prepared ->
  (forall aligned ss ds,
     PyArray_GetDTypeTransferFunction env aligned ss ds src_dtype dst_dtype
     = Some (stransfer, needs_api)) ->
  let r := raw_array_assign_array env ndim shape
             dst_dtype dst_data dst_strides src_dtype src_data src_strides s in
  result_of r
  = if needs_api && is_some (st_err (state_of r)) then -1 else 0.
Proof.
  intros Hprep Hres r. subst r.
  unfold raw_array_assign_array. rewrite Hprep.
  destruct prepared as [[[[[ndim' shape_it] dst0] ds_it] src0] ss_it].
  cbv zeta. name_reversal.
  rewrite bind_result, bind_state, GetDTypeTransferFunction_run, Hres.
  rewrite result_of_triple, state_of_triple.
  rewrite bind_result, bind_state, return_status_state.
  match goal with
  | |- context [state_of (NPY_RAW_ITER ?i ?sh ?st ?d ?b s)] =>
      generalize (state_of (NPY_RAW_ITER i sh st d b s))
  end.
  intros s1. unfold return_status, bind, PyErr_Occurred, ret, result_of.
  cbn [fst]. destruct (st_err s1); reflexivity.
Qed.

(** X13.  A plain assignment copies.  For a call without where-mask, on
    arrays without NA masks, that passes the checks, needs no temporary
    and whose source broadcasts to the destination with strides
    [src_strides]: in the coordinates of the iteration prepared from the
    destination and the broadcast source, given a transfer callable that
    meets its contract for the conversion [cast] and positions that are
    apart in memory,
    - the call returns -1 when the callable needs the API and an error is
      pending after the loop, and 0 otherwise;
    - every destination element holds the conversion of the source element
      of its position as that was before the call;
    - a byte outside every destination element has the value it had. *)
Theorem assign_array_copies
    (env : Collaborators) (depth : nat) (dst src : PyArrayObject)
    (casting : NPY_CASTING) (preservena : bool) (s : state)
    (src_strides : list Z)
    (ndim' : nat) (shape_it : list Z) (dst0 : ptr) (ds_it : list Z)
    (src0 : ptr) (ss_it : list Z)
    (cast : list Z -> list Z) (stransfer : PyArray_StridedUnaryOp)
    (needs_api : bool) :
  let dst_itemsize := elsize (PyArray_DESCR dst) in
  let src_itemsize := elsize (PyArray_DESCR src) in
  let position c0 cs :=
    0 <= c0 < nth 0 shape_it 0 /\ in_range shape_it (outer_dims ndim') cs in
  let dst_element c0 cs :=
    dst0 + c0 * nth 0 ds_it 0 + outer_offset (outer_dims ndim') cs ds_it in
  let src_element c0 cs :=
    src0 + c0 * nth 0 ss_it 0 + outer_offset (outer_dims ndim') cs ss_it in
  let r := PyArray_AssignArray env depth dst src None casting preservena
             None s in
  PyArray_NDIM src <> 0%nat ->
  same_view dst src = false ->
  PyArray_ISWRITEABLE dst = true ->
  PyArray_CanCastTypeTo env (PyArray_DESCR src) (PyArray_DESCR dst) casting
  = true ->
  PyArray_HASMASKNA dst = false ->
  PyArray_HASMASKNA src = false ->
  needs_temporary env dst src = false ->
  result_of (broadcast_src dst src s) = Some src_strides ->
  PyArray_PrepareTwoRawArrayIter env
    (PyArray_NDIM dst) (PyArray_DIMS dst)
    (PyArray_DATA dst) (PyArray_STRIDES dst)
    (PyArray_DATA src) src_strides
  = Some (ndim', shape_it, dst0, ds_it, src0, ss_it) ->
  (forall aligned ss ds,
     PyArray_GetDTypeTransferFunction env aligned ss ds
       (PyArray_DESCR src) (PyArray_DESCR dst)
     = Some (stransfer, needs_api)) ->
  strided_contract cast dst_itemsize stransfer ->
  (forall c0 cs c0' cs' a, position c0 cs -> position c0' cs' ->
     ~ (c0 = c0' /\ cs = cs') ->
     in_element (dst_element c0 cs) dst_itemsize a ->
     ~ in_element (dst_element c0' cs') dst_itemsize a /\
     ~ in_element (src_element c0' cs') src_itemsize a) ->
  result_of r
  = Some (if needs_api && is_some (st_err (state_of r)) then -1 else 0) /\
  (forall c0 cs b, position c0 cs -> 0 <= b < dst_itemsize ->
     st_mem (state_of r) (dst_element c0 cs + b)
     = nth (Z.to_nat b)
         (cast (load (st_mem s) (src_element c0 cs) src_itemsize)) 0) /\
  (forall a,
     (forall c0 cs, position c0 cs ->
        ~ in_element (dst_element c0 cs) dst_itemsize a) ->
     st_mem (state_of r) a = st_mem s a).
Proof.
  intros dst_itemsize src_itemsize position dst_element src_element r
    Hnd Hsame Hw Hc Hdst Hsrc Htmp Hbroadcast Hprep Hres Hcontract Hapart.
  assert (Hrun :
    r = let '(code, s2, calls) :=
          raw_array_assign_array env (PyArray_NDIM dst) (PyArray_DIMS dst)
            (PyArray_DESCR dst) (PyArray_DATA dst) (PyArray_STRIDES dst)
            (PyArray_DESCR src) (PyArray_DATA src) src_strides s in
        (Some (if code <? 0 then -1 else 0), s2, calls)).
  { subst r.
    rewrite (@assign_array_dispatch env depth dst src None casting preservena
               None s false s []); try assumption.
    2: { apply assign_checks_pass. rewrite Hsrc. cbn.
         repeat split; assumption. }
    rewrite Hdst.
    unfold assign_broadcast. unfold bind at 1.
    rewrite broadcast_src_run, Hbroadcast.
    unfold bind at 1, ret at 1.
    unfold assign_unmasked. rewrite orb_true_r. unfold check, bind.
    destruct (raw_array_assign_array env _ _ _ _ _ _ _ _ s)
      as [[code s2] calls].
    destruct (code <? 0); cbn; rewrite ?app_nil_r; reflexivity. }
  pose proof (@raw_array_assign_array_status env (PyArray_NDIM dst)
                (PyArray_DIMS dst) (PyArray_DESCR dst) (PyArray_DATA dst)
                (PyArray_STRIDES dst) (PyArray_DESCR src) (PyArray_DATA src)
                src_strides s _ stransfer needs_api Hprep Hres) as Hstatus.
  assert (Hres' : forall aligned ss ds, exists stransfer needs_api,
            PyArray_GetDTypeTransferFunction env aligned ss ds
              (PyArray_DESCR src) (PyArray_DESCR dst)
            = Some (stransfer, needs_api) /\
            strided_contract cast (elsize (PyArray_DESCR dst)) stransfer).
  { intros aligned ss ds. exists stransfer, needs_api. auto. }
  destruct (@raw_array_assign_array_elements env (PyArray_NDIM dst)
              (PyArray_DIMS dst) (PyArray_DESCR dst) (PyArray_DATA dst)
              (PyArray_STRIDES dst) (PyArray_DESCR src) (PyArray_DATA src)
              src_strides s ndim' shape_it dst0 ds_it src0 ss_it cast
              Hprep Hres')
    as (L & Hnd' & HL & Hmem).
  cbv zeta in Hstatus.
  destruct (raw_array_assign_array env (PyArray_NDIM dst) (PyArray_DIMS dst)
              (PyArray_DESCR dst) (PyArray_DATA dst) (PyArray_STRIDES dst)
              (PyArray_DESCR src) (PyArray_DATA src) src_strides s)
    as [[code s2] calls].
  rewrite Hrun. unfold result_of, state_of in *. cbn [fst snd] in *.
  fold dst_itemsize src_itemsize in Hmem. rewrite Hmem.
  split; [| split].
  - rewrite Hstatus. destruct (needs_api && is_some (st_err s2)); reflexivity.
  - intros c0 cs b Hpos Hb.
    pose proof (@assign_elements_result cast dst_itemsize src_itemsize _
                  (fun p =>
                     mkElement (address (outer_dims ndim') dst0 ds_it p)
                       (address (outer_dims ndim') src0 ss_it p) [])
                  (c0, cs) b L (st_mem s) Hnd') as H.
    cbn [el_dst el_src el_masks guard forallb address fst snd] in H.
    rewrite ?andb_true_r in H.
    apply H; [apply HL; assumption | assumption |].
    intros [c0' cs'] a Hq Hne Ha. cbn [fst snd] in *.
    apply HL in Hq.
    destruct (Hapart c0' cs' c0 cs a Hq Hpos) as [H1 H2];
      [intros [-> ->]; apply Hne; reflexivity | assumption |].
    repeat split; [assumption | assumption | intros []].
  - intros a Hout. apply assign_elements_frame.
    intros e He. apply in_map_iff in He. destruct He as [[c0 cs] [<- Hp]].
    cbn [el_dst address fst snd]. apply Hout, HL. assumption.
Qed.

Lemma assign_array_copies_witness :
  let r := PyArray_AssignArray numpy 0 (view 32 [2; 3] [3; 1])
             (view 0 [3] [1]) None NPY_SAFE_CASTING false None
             arange_state in
  result_of r
  = Some (if false && is_some (st_err (state_of r)) then -1 else 0) /\
  (forall c0 cs b,
     0 <= c0 < 2 /\ in_range [2; 3] [1%nat] cs -> 0 <= b < 1 ->
     st_mem (state_of r) (32 + c0 * 3 + outer_offset [1%nat] cs [3; 1] + b)
     = nth (Z.to_nat b)
         (load (st_mem arange_state)
            (0 + c0 * 0 + outer_offset [1%nat] cs [0; 1]) 1) 0) /\
  (forall a,
     (forall c0 cs, 0 <= c0 < 2 /\ in_range [2; 3] [1%nat] cs ->
        ~ in_element (32 + c0 * 3 + outer_offset [1%nat] cs [3; 1]) 1 a) ->
     st_mem (state_of r) a = st_mem arange_state a).
Proof.
  apply (@assign_array_copies numpy 0%nat (view 32 [2; 3] [3; 1])
           (view 0 [3] [1]) NPY_SAFE_CASTING false arange_state
           [0; 1] 2%nat [2; 3] 32 [3; 1] 0 [0; 1] (fun b => b)
           (strided_transfer (fun b => b) 1) false);
    try reflexivity.
  - simpl. lia.
  - apply strided_transfer_contract.
  - intros c0 cs c0' cs' a [Hc0 Hcs] [Hc0' Hcs'] Hne.
    change (outer_dims 2) with [1%nat] in *.
    inversion Hcs as [| i1 c1 l1 l1' Hc1 Hrest]; subst.
    inversion Hrest; subst.
    inversion Hcs' as [| i1' c1' l2 l2' Hc1' Hrest']; subst.
    inversion Hrest'; subst.
    unfold in_element.
    cbn [nth elsize int8 outer_offset view PyArray_DESCR] in *.
    intros H. split; [| lia].
    intros H'. apply Hne.
    assert (c0 = c0' /\ c1 = c1') as [-> ->] by lia. auto.
Defined.

(** ** The buffered transfer assigns where both masks are true *)

Lemma masked_contract_at_any cast dst_itemsize src_itemsize ss ds ms
    stransfer :
  masked_contract cast dst_itemsize stransfer ->
  masked_contract_at cast dst_itemsize src_itemsize ss ds ms stransfer.
Proof. intros H dst src mask N s. apply H. Qed.

Lemma maskand_contract_at_any ns ws maskand :
  maskand_contract maskand -> maskand_contract_at ns ws maskand.
Proof. intros H dst dst_stride src0 src1 N s. apply H. Qed.

Lemma for_loop_simulation {X} (R : state -> X -> Prop)
    (T : Z -> X -> X) body : forall n i s m,
  (forall c s m, In c (seq i n) -> R s m ->
     R (state_of (body (Z.of_nat c) s)) (T (Z.of_nat c) m)) ->
  R s m ->
  R (state_of (for_loop n (Z.of_nat i) body s))
    (fold_left (fun m c => T (Z.of_nat c) m) (seq i n) m).
Proof.
  induction n as [| n IH]; intros i s m Hbody Hs; [assumption |].
  cbn [for_loop seq fold_left]. rewrite bind_state.
  replace (Z.of_nat i + 1) with (Z.of_nat (S i)) by lia.
  apply IH.
  - intros c s' m' Hc. apply Hbody. right. assumption.
  - apply Hbody; [left; reflexivity | assumption].
Qed.

(** The raw iteration step by step, for a body that keeps a relation
    between the state and a memory. *)
Lemma NPY_RAW_ITER_simulation {X} (R : state -> X -> Prop)
    (T : list ptr -> X -> X) body shape strides :
  forall idims data s m,
  List.length data = List.length strides ->
  (forall cs s m, in_range shape idims cs -> R s m ->
     R (state_of (body (offset_data idims cs strides data) s))
       (T (offset_data idims cs strides data) m)) ->
  R s m ->
  R (state_of (NPY_RAW_ITER idims shape strides data body s))
    (fold_left (fun m cs => T (offset_data idims cs strides data) m)
       (iter_coords idims shape) m).
Proof.
  induction idims as [| idim rest IH]; intros data s m Hlen Hbody Hs;
    cbn [NPY_RAW_ITER iter_coords].
  - cbn [fold_left]. specialize (Hbody [] s m).
    rewrite offset_data_nil in * by assumption.
    apply Hbody; [constructor | assumption].
  - change (for_loop ?n 0 ?b) with (for_loop n (Z.of_nat 0) b).
    set (T' := fun c' m' =>
                 fold_left
                   (fun m cs =>
                      T (offset_data rest cs strides
                           (advance data strides idim c')) m)
                   (iter_coords rest shape) m').
    assert (E : forall m0,
              fold_left
                (fun m cs => T (offset_data (idim :: rest) cs strides data) m)
                (flat_map
                   (fun c => map (cons (Z.of_nat c)) (iter_coords rest shape))
                   (seq 0 (Z.to_nat (nth idim shape 0)))) m0
              = fold_left (fun m c => T' (Z.of_nat c) m)
                  (seq 0 (Z.to_nat (nth idim shape 0))) m0).
    { intros m0. rewrite fold_left_flat_map. apply fold_left_ext_in.
      intros m1 c _. rewrite fold_left_map. apply fold_left_ext_in.
      intros m2 cs _. rewrite offset_data_advance. reflexivity. }
    rewrite E. apply (@for_loop_simulation X R T'); [| assumption].
    intros c s' m' Hc Hs'. apply in_seq in Hc. apply IH.
    + rewrite length_advance by assumption. reflexivity.
    + intros cs s'' m'' Hcs. rewrite offset_data_advance. apply Hbody.
      constructor; [lia | assumption].
    + assumption.
Qed.

Lemma mask_true_flag (c : bool) : mask_true (if c then 1 else 0) = c.
Proof. destruct c; reflexivity. Qed.

Lemma map_seq_shift {A} (f : Z -> A) k : forall n i,
  map (fun j => f (Z.of_nat k + Z.of_nat j)) (seq i n)
  = map (fun j => f (Z.of_nat j)) (seq (k + i) n).
Proof.
  induction n as [| n IH]; intros i; [reflexivity |].
  cbn [seq map]. rewrite IH. f_equal; [f_equal; lia |].
  f_equal. f_equal. lia.
Qed.

Section Buffered_elements.

Variable cast : list Z -> list Z.
Variables dst_itemsize src_itemsize : Z.
Variables (buf : ptr) (itemsize B : Z).

Local Abbreviation step := (assign_element cast dst_itemsize src_itemsize).
Local Abbreviation outside := (outside_buffer buf itemsize B).
Local Abbreviation agree := (agree_outside buf itemsize B).

(** Elements guarded by their slot of the buffer against the same elements
    guarded by their two masks: when every slot holds the conjunction of
    the two masks, the two transfers leave the same memory outside the
    buffer. *)
Lemma buffered_elements_simulation (dst src na wm : nat -> ptr)
    (slot : nat -> Z) : forall l m m',
  NoDup l ->
  agree m m' ->
  (forall j, In j l -> 0 <= slot j < B) ->
  (forall j, In j l ->
     mask_true (m (buf + slot j * itemsize))
     = mask_true (m' (na j)) && mask_true (m' (wm j))) ->
  (forall j, In j l ->
     outside (na j) /\ outside (wm j) /\
     (forall a, in_element (src j) src_itemsize a -> outside a) /\
     (forall a, in_element (dst j) dst_itemsize a -> outside a)) ->
  (forall j k, In j l -> In k l -> j <> k ->
     ~ in_element (dst j) dst_itemsize (na k) /\
     ~ in_element (dst j) dst_itemsize (wm k)) ->
  agree
    (fold_left step
       (map (fun j => mkElement (dst j) (src j) [buf + slot j * itemsize]) l)
       m)
    (fold_left step
       (map (fun j => mkElement (dst j) (src j) [na j; wm j]) l) m').
Proof.
  induction l as [| x l IH]; intros m m' Hnd Hagree Hslot Hflag Hout Hapart;
    [assumption |].
  inversion Hnd as [| x' l' Hx Hnd']; subst.
  cbn [map fold_left].
  destruct (Hout x (or_introl eq_refl)) as (Hna & Hwm & Hsrc & Hdst).
  assert (Hguard : guard m [buf + slot x * itemsize]
                   = guard m' [na x; wm x]).
  { cbn [guard forallb]. rewrite !andb_true_r.
    apply Hflag. left. reflexivity. }
  apply IH.
  - assumption.
  - unfold assign_element. cbn [el_dst el_src el_masks].
    rewrite Hguard. destruct (guard m' [na x; wm x]); [| assumption].
    intros a Ha. unfold store.
    destruct ((dst x <=? a) && (a <? dst x + dst_itemsize)).
    + f_equal. f_equal. apply load_ext. intros a' Ha'.
      apply Hagree. apply Hsrc. assumption.
    + apply Hagree. assumption.
  - intros j Hj. apply Hslot. right. assumption.
  - intros j Hj.
    assert (Hne : x <> j) by (intros ->; contradiction).
    destruct (Hapart x j (or_introl eq_refl) (or_intror Hj) Hne)
      as [H1 H2].
    rewrite !assign_element_other; cbn [el_dst]; try assumption.
    + apply Hflag. right. assumption.
    + intros Hin. apply (Hdst _ Hin (slot j)); [| reflexivity].
      apply Hslot. right. assumption.
  - intros j Hj. apply Hout. right. assumption.
  - intros j k Hj Hk. apply Hapart; right; assumption.
Qed.

(** One chunk: the combination of the two masks into the buffer, then the
    transfer under the buffered mask, against the transfer of the chunk's
    elements under their two masks. *)
Lemma preservena_chunk_simulation D ds S ss N ns W ws n m m' :
  itemsize <> 0 ->
  n <= B ->
  agree m m' ->
  (forall i, 0 <= i < n ->
     outside (N + i * ns) /\ outside (W + i * ws) /\
     (forall a, in_element (S + i * ss) src_itemsize a -> outside a) /\
     (forall a, in_element (D + i * ds) dst_itemsize a -> outside a)) ->
  (forall i j, 0 <= i < n -> 0 <= j < n -> i <> j ->
     ~ in_element (D + i * ds) dst_itemsize (N + j * ns) /\
     ~ in_element (D + i * ds) dst_itemsize (W + j * ws)) ->
  agree
    (masked_strided_loop cast dst_itemsize (Z.to_nat n) D ds S ss
       buf itemsize src_itemsize
       (maskand_loop (Z.to_nat n) buf itemsize N ns W ws m))
    (fold_left step
       (map (fun i => mkElement (D + Z.of_nat i * ds) (S + Z.of_nat i * ss)
                        [N + Z.of_nat i * ns; W + Z.of_nat i * ws])
          (seq 0 (Z.to_nat n))) m').
Proof.
  intros Hsize Hn Hagree Hout Hapart.
  rewrite masked_strided_loop_elements.
  apply (buffered_elements_simulation
           (fun i => D + Z.of_nat i * ds) (fun i => S + Z.of_nat i * ss)
           (fun i => N + Z.of_nat i * ns) (fun i => W + Z.of_nat i * ws)
           Z.of_nat).
  - apply seq_NoDup.
  - intros a Ha. rewrite maskand_loop_frame; [apply Hagree; assumption |].
    intros i Hi. apply Ha. lia.
  - intros j Hj. apply in_seq in Hj. lia.
  - intros j Hj. apply in_seq in Hj.
    rewrite maskand_loop_combines; [| assumption | | lia].
    + rewrite mask_true_flag.
      destruct (Hout (Z.of_nat j)) as (H1 & H2 & _); [lia |].
      rewrite (Hagree _ H1), (Hagree _ H2). reflexivity.
    + intros i k Hi Hk.
      destruct (Hout k) as (H1 & H2 & _); [lia |].
      split; [apply H1 | apply H2]; lia.
  - intros j Hj. apply in_seq in Hj. apply Hout. lia.
  - intros j k Hj Hk Hne. apply in_seq in Hj, Hk. apply Hapart; lia.
Qed.

Variable env : Collaborators.
Variables (maskand : PyArray_StridedBinaryOp)
          (stransfer : PyArray_MaskedStridedUnaryOp).
Variables (ds ss ns ws : Z) (total : Z) (D S N W : ptr).

Hypothesis buffer_size : B = Z.pos (NPY_ARRAY_ASSIGN_BUFFERSIZE env).
Hypothesis itemsize_nonzero : itemsize <> 0.
Hypothesis stransfer_contract :
  masked_contract_at cast dst_itemsize src_itemsize ss ds itemsize stransfer.
Hypothesis maskand_meets : maskand_contract_at ns ws maskand.
Hypothesis run_outside : forall k, 0 <= k < total ->
  outside (N + k * ns) /\ outside (W + k * ws) /\
  (forall a, in_element (S + k * ss) src_itemsize a -> outside a) /\
  (forall a, in_element (D + k * ds) dst_itemsize a -> outside a).
Hypothesis run_apart : forall i j, 0 <= i < total -> 0 <= j < total ->
  i <> j ->
  ~ in_element (D + i * ds) dst_itemsize (N + j * ns) /\
  ~ in_element (D + i * ds) dst_itemsize (W + j * ws).

(** One innermost run, a buffer size at a time, against the transfer of
    its elements under their two masks. *)
Lemma buffered_loop_simulation : forall fuel k0 st m',
  total - Z.of_nat k0 <= Z.of_nat fuel ->
  agree (st_mem st) m' ->
  agree
    (st_mem
       (state_of
          (buffered_loop env fuel maskand stransfer buf itemsize src_itemsize
             ds ss ns ws (total - Z.of_nat k0)
             (D + Z.of_nat k0 * ds) (S + Z.of_nat k0 * ss)
             (N + Z.of_nat k0 * ns) (W + Z.of_nat k0 * ws) st)))
    (fold_left step
       (map (fun i => mkElement (D + Z.of_nat i * ds) (S + Z.of_nat i * ss)
                        [N + Z.of_nat i * ns; W + Z.of_nat i * ws])
          (seq k0 (Z.to_nat (total - Z.of_nat k0)))) m').
Proof.
  assert (HB : 0 < B) by (rewrite buffer_size; lia).
  assert (Hmin : forall count,
            (if count <? B then count else B) = Z.min count B).
  { intros count. destruct (Z.ltb_spec count B); lia. }
  assert (Hchunk : forall k0 st m',
            agree (st_mem st) m' ->
            agree
              (st_mem
                 (state_of
                    ((call_maskand_stransfer maskand buf itemsize
                        (N + Z.of_nat k0 * ns) ns (W + Z.of_nat k0 * ws) ws
                        (Z.min (total - Z.of_nat k0) B) ;;;
                      call_masked_stransfer stransfer
                        (D + Z.of_nat k0 * ds) ds (S + Z.of_nat k0 * ss) ss
                        buf itemsize (Z.min (total - Z.of_nat k0) B)
                        src_itemsize) st)))
              (fold_left step
                 (map (fun i =>
                         mkElement (D + Z.of_nat i * ds)
                           (S + Z.of_nat i * ss)
                           [N + Z.of_nat i * ns; W + Z.of_nat i * ws])
                    (seq k0 (Z.to_nat (Z.min (total - Z.of_nat k0) B))))
                 m')).
  { intros k0 st m' Hagree.
    rewrite bind_state, call_masked_stransfer_state,
      call_maskand_stransfer_state.
    rewrite stransfer_contract, maskand_meets.
    replace (seq k0 (Z.to_nat (Z.min (total - Z.of_nat k0) B)))
      with (seq (k0 + 0) (Z.to_nat (Z.min (total - Z.of_nat k0) B)))
      by (f_equal; lia).
    rewrite <- (map_seq_shift
                  (fun z => mkElement (D + z * ds) (S + z * ss)
                              [N + z * ns; W + z * ws])).
    assert (E : map (fun j =>
                       mkElement
                         (D + (Z.of_nat k0 + Z.of_nat j) * ds)
                         (S + (Z.of_nat k0 + Z.of_nat j) * ss)
                         [N + (Z.of_nat k0 + Z.of_nat j) * ns;
                          W + (Z.of_nat k0 + Z.of_nat j) * ws])
                  (seq 0 (Z.to_nat (Z.min (total - Z.of_nat k0) B)))
              = map (fun i =>
                       mkElement
                         (D + Z.of_nat k0 * ds + Z.of_nat i * ds)
                         (S + Z.of_nat k0 * ss + Z.of_nat i * ss)
                         [N + Z.of_nat k0 * ns + Z.of_nat i * ns;
                          W + Z.of_nat k0 * ws + Z.of_nat i * ws])
                  (seq 0 (Z.to_nat (Z.min (total - Z.of_nat k0) B)))).
    { apply map_ext. intros i. f_equal; try ring. f_equal; [ring |].
      f_equal. ring. }
    rewrite E.
    apply preservena_chunk_simulation; [assumption | lia | assumption | |].
    - intros i Hi.
      replace (N + Z.of_nat k0 * ns + i * ns)
        with (N + (Z.of_nat k0 + i) * ns) by ring.
      replace (W + Z.of_nat k0 * ws + i * ws)
        with (W + (Z.of_nat k0 + i) * ws) by ring.
      replace (S + Z.of_nat k0 * ss + i * ss)
        with (S + (Z.of_nat k0 + i) * ss) by ring.
      replace (D + Z.of_nat k0 * ds + i * ds)
        with (D + (Z.of_nat k0 + i) * ds) by ring.
      apply run_outside. lia.
    - intros i j Hi Hj Hne.
      replace (N + Z.of_nat k0 * ns + j * ns)
        with (N + (Z.of_nat k0 + j) * ns) by ring.
      replace (W + Z.of_nat k0 * ws + j * ws)
        with (W + (Z.of_nat k0 + j) * ws) by ring.
      replace (D + Z.of_nat k0 * ds + i * ds)
        with (D + (Z.of_nat k0 + i) * ds) by ring.
      apply run_apart; lia. }
  induction fuel as [| fuel IH]; intros k0 st m' Hfuel Hagree;
    cbn [buffered_loop]; rewrite <- buffer_size, Hmin;
    pose proof (Hchunk k0 st m' Hagree) as Hc;
    rewrite bind_state in Hc; rewrite !bind_state;
    match type of Hc with
    | agree (st_mem ?st1) _ => set (s1 := st1) in *
    end.
  - destruct (Z.ltb_spec 0 (total - Z.of_nat k0
                            - Z.min (total - Z.of_nat k0) B)) as [Hmore | _];
      [lia |].
    replace (Z.min (total - Z.of_nat k0) B) with (total - Z.of_nat k0) in Hc
      by lia.
    exact Hc.
  - destruct (Z.ltb_spec 0 (total - Z.of_nat k0
                            - Z.min (total - Z.of_nat k0) B))
      as [Hmore | Hlast].
    + replace (Z.min (total - Z.of_nat k0) B) with B in * by lia.
      set (b := Z.to_nat B) in *.
      assert (Eb : B = Z.of_nat b) by (subst b; lia).
      replace (total - Z.of_nat k0 - B)
        with (total - Z.of_nat (k0 + b)) by lia.
      replace (D + Z.of_nat k0 * ds + B * ds)
        with (D + Z.of_nat (k0 + b) * ds) by (rewrite Eb; lia).
      replace (S + Z.of_nat k0 * ss + B * ss)
        with (S + Z.of_nat (k0 + b) * ss) by (rewrite Eb; lia).
      replace (N + Z.of_nat k0 * ns + B * ns)
        with (N + Z.of_nat (k0 + b) * ns) by (rewrite Eb; lia).
      replace (W + Z.of_nat k0 * ws + B * ws)
        with (W + Z.of_nat (k0 + b) * ws) by (rewrite Eb; lia).
      replace (Z.to_nat (total - Z.of_nat k0))
        with (b + Z.to_nat (total - Z.of_nat (k0 + b)))%nat by lia.
      rewrite seq_app, map_app, fold_left_app.
      apply IH; [lia | exact Hc].
    + replace (Z.min (total - Z.of_nat k0) B) with (total - Z.of_nat k0)
        in Hc by lia.
      exact Hc.
Qed.

End Buffered_elements.

(** The buffered iteration as the routine runs it, from whatever start
    pointers and strides: outside the scratch buffer it leaves the memory
    that the transfer of its elements, each under its two masks, leaves. *)
Lemma preservena_iteration_elements env maskand stransfer cast dst_itemsize
    idims shape ds ss ns ws dst src na wm n0 buf itemsize src_itemsize s0 :
  let B := Z.pos (NPY_ARRAY_ASSIGN_BUFFERSIZE env) in
  let dst_at c0 cs := dst + c0 * nth 0 ds 0 + outer_offset idims cs ds in
  let src_at c0 cs := src + c0 * nth 0 ss 0 + outer_offset idims cs ss in
  let na_at c0 cs := na + c0 * nth 0 ns 0 + outer_offset idims cs ns in
  let wm_at c0 cs := wm + c0 * nth 0 ws 0 + outer_offset idims cs ws in
  masked_contract_at cast dst_itemsize src_itemsize
    (nth 0 ss 0) (nth 0 ds 0) itemsize stransfer ->
  maskand_contract_at (nth 0 ns 0) (nth 0 ws 0) maskand ->
  itemsize <> 0 ->
  (forall c0 cs, 0 <= c0 < n0 -> in_range shape idims cs ->
     outside_buffer buf itemsize B (na_at c0 cs) /\
     outside_buffer buf itemsize B (wm_at c0 cs) /\
     (forall a, in_element (src_at c0 cs) src_itemsize a ->
        outside_buffer buf itemsize B a) /\
     (forall a, in_element (dst_at c0 cs) dst_itemsize a ->
        outside_buffer buf itemsize B a)) ->
  (forall c0 cs c0' cs',
     0 <= c0 < n0 -> in_range shape idims cs ->
     0 <= c0' < n0 -> in_range shape idims cs' ->
     ~ (c0 = c0' /\ cs = cs') ->
     ~ in_element (dst_at c0 cs) dst_itemsize (na_at c0' cs') /\
     ~ in_element (dst_at c0 cs) dst_itemsize (wm_at c0' cs')) ->
  agree_outside buf itemsize B
    (st_mem
       (state_of
          (NPY_RAW_ITER idims shape [ds; ss; ns; ws] [dst; src; na; wm]
             (fun data =>
                process_innermost env maskand stransfer buf itemsize
                  src_itemsize (nth 0 ds 0) (nth 0 ss 0) (nth 0 ns 0)
                  (nth 0 ws 0) n0
                  (nth 0 data 0) (nth 1 data 0) (nth 2 data 0)
                  (nth 3 data 0))
             s0)))
    (fold_left (assign_element cast dst_itemsize src_itemsize)
       (map (fun p =>
               mkElement (address idims dst ds p) (address idims src ss p)
                 [address idims na ns p; address idims wm ws p])
          (positions n0 idims shape))
       (st_mem s0)).
Proof.
  intros B dst_at src_at na_at wm_at Hcontract Hand Hsize Hout Hapart.
  set (T := fun (d : list ptr) (m : memory) =>
              fold_left (assign_element cast dst_itemsize src_itemsize)
                (map (fun i =>
                        mkElement (nth 0 d 0 + Z.of_nat i * nth 0 ds 0)
                          (nth 1 d 0 + Z.of_nat i * nth 0 ss 0)
                          [nth 2 d 0 + Z.of_nat i * nth 0 ns 0;
                           nth 3 d 0 + Z.of_nat i * nth 0 ws 0])
                   (seq 0 (Z.to_nat n0))) m).
  assert (E : forall m0,
            fold_left (assign_element cast dst_itemsize src_itemsize)
              (map (fun p =>
                      mkElement (address idims dst ds p)
                        (address idims src ss p)
                        [address idims na ns p; address idims wm ws p])
                 (positions n0 idims shape)) m0
            = fold_left
                (fun m cs =>
                   T (offset_data idims cs [ds; ss; ns; ws]
                        [dst; src; na; wm]) m)
                (iter_coords idims shape) m0).
  { intros m0. unfold positions.
    rewrite flat_map_concat_map, concat_map, map_map.
    rewrite <- flat_map_concat_map, fold_left_flat_map.
    apply fold_left_ext_in. intros m cs _. unfold T.
    rewrite !map_map. f_equal. apply map_ext. intros i.
    unfold address, offset_data. cbn [combine map nth fst snd].
    f_equal; try ring. f_equal; [ring |]. f_equal. ring. }
  rewrite E.
  apply (@NPY_RAW_ITER_simulation memory
           (fun s m => agree_outside buf itemsize B (st_mem s) m) T);
    [reflexivity | | intros a _; reflexivity].
  intros cs s m Hcs Hagree. unfold process_innermost, T.
  unfold offset_data. cbn [combine map nth fst snd].
  pose proof (@buffered_loop_simulation cast dst_itemsize src_itemsize
                buf itemsize B env maskand stransfer
                (nth 0 ds 0) (nth 0 ss 0) (nth 0 ns 0) (nth 0 ws 0) n0
                (dst + outer_offset idims cs ds)
                (src + outer_offset idims cs ss)
                (na + outer_offset idims cs ns)
                (wm + outer_offset idims cs ws)
                eq_refl Hsize Hcontract Hand) as Hloop.
  specialize (fun H1 H2 => Hloop H1 H2 (Z.to_nat n0) 0%nat s m).
  change (Z.of_nat 0) with 0 in Hloop.
  rewrite Z.sub_0_r, !Z.mul_0_l, !Z.add_0_r in Hloop.
  apply Hloop; [| | lia | assumption].
  - intros k Hk.
    replace (na + outer_offset idims cs ns + k * nth 0 ns 0)
      with (na_at k cs) by (unfold na_at; ring).
    replace (wm + outer_offset idims cs ws + k * nth 0 ws 0)
      with (wm_at k cs) by (unfold wm_at; ring).
    replace (src + outer_offset idims cs ss + k * nth 0 ss 0)
      with (src_at k cs) by (unfold src_at; ring).
    replace (dst + outer_offset idims cs ds + k * nth 0 ds 0)
      with (dst_at k cs) by (unfold dst_at; ring).
    apply Hout; assumption.
  - intros i j Hi Hj Hne.
    replace (na + outer_offset idims cs ns + j * nth 0 ns 0)
      with (na_at j cs) by (unfold na_at; ring).
    replace (wm + outer_offset idims cs ws + j * nth 0 ws 0)
      with (wm_at j cs) by (unfold wm_at; ring).
    replace (dst + outer_offset idims cs ds + i * nth 0 ds 0)
      with (dst_at i cs) by (unfold dst_at; ring).
    apply Hapart; try assumption. intros [E' _]. contradiction.
Qed.

(** The memory [raw_array_wheremasked_assign_array_preservena] leaves
    outside its scratch buffer, for callables that meet their contracts:
    the elements of the prepared iteration transferred one after the
    other, each position once and each under its two masks. *)
Lemma raw_array_wheremasked_assign_array_preservena_elements env ndim shape
    dst_dtype dst_data dst_strides src_dtype src_data src_strides
    maskna_dtype maskna_data maskna_strides
    wheremask_dtype wheremask_data wheremask_strides s
    ndim' shape_it dst0 ds_it src0 ss_it na0 ns_it wm0 ws_it cast :
  let position c0 cs :=
    0 <= c0 < nth 0 shape_it 0 /\ in_range shape_it (outer_dims ndim') cs in
  let B := Z.pos (NPY_ARRAY_ASSIGN_BUFFERSIZE env) in
  let buf := PyArray_malloc env (B * elsize maskna_dtype) s in
  let outside := outside_buffer buf (elsize maskna_dtype) B in
  let dst_element := address (outer_dims ndim') dst0 ds_it in
  let src_element := address (outer_dims ndim') src0 ss_it in
  let na_byte := address (outer_dims ndim') na0 ns_it in
  let mask_byte := address (outer_dims ndim') wm0 ws_it in
  PyArray_PrepareFourRawArrayIter env ndim shape dst_data dst_strides
    src_data src_strides maskna_data maskna_strides
    wheremask_data wheremask_strides
  = Some (ndim', shape_it, dst0, ds_it, src0, ss_it, na0, ns_it,
          wm0, ws_it) ->
  (forall aligned ss ds ms, exists stransfer needs_api,
     PyArray_GetMaskedDTypeTransferFunction env aligned ss ds ms
       src_dtype dst_dtype maskna_dtype = Some (stransfer, needs_api) /\
     masked_contract_at cast (elsize dst_dtype) (elsize src_dtype)
       ss ds ms stransfer) ->
  (forall ns ws, exists maskand,
     PyArray_GetMaskAndFunction env ns maskna_dtype ws wheremask_dtype
     = Some maskand /\
     maskand_contract_at ns ws maskand) ->
  nth 0 src_strides 0
  = (if overlap_1d ndim' shape_it dst0 src0 ss_it
     then - nth 0 ss_it 0 else nth 0 ss_it 0) ->
  buf <> NULL ->
  elsize maskna_dtype <> 0 ->
  (forall c0 cs, position c0 cs ->
     outside (na_byte (c0, cs)) /\ outside (mask_byte (c0, cs)) /\
     (forall a, in_element (src_element (c0, cs)) (elsize src_dtype) a ->
        outside a) /\
     (forall a, in_element (dst_element (c0, cs)) (elsize dst_dtype) a ->
        outside a)) ->
  (forall c0 cs c0' cs', position c0 cs -> position c0' cs' ->
     ~ (c0 = c0' /\ cs = cs') ->
     ~ in_element (dst_element (c0, cs)) (elsize dst_dtype)
         (na_byte (c0', cs')) /\
     ~ in_element (dst_element (c0, cs)) (elsize dst_dtype)
         (mask_byte (c0', cs'))) ->
  exists L,
    NoDup L /\
    (forall c0 cs, In (c0, cs) L <-> position c0 cs) /\
    agree_outside buf (elsize maskna_dtype) B
      (st_mem
         (state_of
            (raw_array_wheremasked_assign_array_preservena env ndim shape
               dst_dtype dst_data dst_strides src_dtype src_data src_strides
               maskna_dtype maskna_data maskna_strides
               wheremask_dtype wheremask_data wheremask_strides s)))
      (fold_left (assign_element cast (elsize dst_dtype) (elsize src_dtype))
         (map (fun p =>
                 mkElement (dst_element p) (src_element p)
                   [na_byte p; mask_byte p]) L)
         (st_mem s)).
Proof.
  intros position B buf outside dst_element src_element na_byte mask_byte
    Hprep Hres Hand Hstride Hbuf Hsize Hout Hapart.
  unfold raw_array_wheremasked_assign_array_preservena.
  rewrite Hprep. cbv zeta. fold B.
  rewrite bind_state. unfold result_of at 1, state_of at 2. cbn [fst snd].
  fold buf. apply Z.eqb_neq in Hbuf. rewrite Hbuf.
  rewrite bind_state, GetMaskedDTypeTransferFunction_run.
  match goal with
  | |- context [PyArray_GetMaskedDTypeTransferFunction env ?al ?x ?y ?z
                  src_dtype dst_dtype maskna_dtype] =>
      destruct (Hres al x y z) as (stransfer & needs_api & -> & Hcontract)
  end.
  rewrite result_of_triple, state_of_triple.
  rewrite bind_state, GetMaskAndFunction_run.
  match goal with
  | |- context [PyArray_GetMaskAndFunction env ?x maskna_dtype ?y
                  wheremask_dtype] =>
      destruct (Hand x y) as (maskand & -> & Hmeets)
  end.
  rewrite result_of_triple, state_of_triple.
  rewrite bind_state.
  match goal with
  | |- context [state_of ((emit ?e ;;; return_status ?b) ?st)] =>
      change (state_of ((emit e ;;; return_status b) st))
        with (state_of (return_status b st))
  end.
  rewrite return_status_state.
  set (n0 := nth 0 shape_it 0) in *.
  (* the resolver was given the source stride of the loop *)
  rewrite Hstride in Hcontract. clear Hstride. revert Hcontract Hmeets.
  destruct (overlap_1d ndim' shape_it dst0 src0 ss_it) eqn:Hrev;
    intros Hcontract Hmeets.
  - (* one dimension, last element first *)
    rewrite <- (nth_negate0 ss_it) in Hcontract.
    apply overlap_1d_rank in Hrev.
    subst position dst_element src_element na_byte mask_byte outside.
    cbv beta in *. rewrite Hrev in *.
    change (outer_dims 1) with (@nil nat) in *.
    exists (map (fun i => (n0 - 1 - Z.of_nat i, @nil Z))
              (seq 0 (Z.to_nat n0))).
    split; [apply NoDup_reversed |]. split.
    { intros c0 cs. rewrite in_reversed. split.
      - intros [H ->]. split; [assumption | constructor].
      - intros [H Hcs]. apply in_range_nil in Hcs. auto. }
    assert (E : forall p st c0,
              p + (n0 - 1) * st + c0 * - st + 0
              = p + (n0 - 1 - c0) * st + 0) by (intros; ring).
    pose proof (@preservena_iteration_elements env maskand stransfer cast
                  (elsize dst_dtype) [] shape_it
                  (negate0 ds_it) (negate0 ss_it) (negate0 ns_it)
                  (negate0 ws_it)
                  (dst0 + (n0 - 1) * nth 0 ds_it 0)
                  (src0 + (n0 - 1) * nth 0 ss_it 0)
                  (na0 + (n0 - 1) * nth 0 ns_it 0)
                  (wm0 + (n0 - 1) * nth 0 ws_it 0)
                  n0 buf (elsize maskna_dtype) (elsize src_dtype) s
                  Hcontract Hmeets Hsize) as Hiter.
    cbv zeta in Hiter. fold B in Hiter.
    cbn [positions iter_coords flat_map] in Hiter.
    rewrite app_nil_r, !map_map in Hiter. rewrite map_map.
    unfold address in *. cbn [fst snd outer_offset] in *.
    erewrite map_ext; [apply Hiter | ]; cycle 2.
    { intros i. cbv beta. rewrite !nth_negate0.
      f_equal; try ring. f_equal; [ring |]. f_equal. ring. }
    all: rewrite ?nth_negate0.
    + intros c0 cs Hc0 Hcs. apply in_range_nil in Hcs. subst cs.
      cbn [outer_offset]. rewrite !E.
      apply (Hout (n0 - 1 - c0) []). split; [lia | constructor].
    + intros c0 cs c0' cs' Hc0 Hcs Hc0' Hcs' Hne.
      apply in_range_nil in Hcs, Hcs'. subst cs cs'.
      cbn [outer_offset]. rewrite !E.
      apply (Hapart (n0 - 1 - c0) [] (n0 - 1 - c0') []);
        try (split; [lia | constructor]).
      intros [E' _]. apply Hne. split; [lia | reflexivity].
  - exists (positions n0 (outer_dims ndim') shape_it).
    split; [apply NoDup_positions |]. split.
    { intros c0 cs. apply in_positions. }
    apply preservena_iteration_elements; try assumption.
    + intros c0 cs Hc0 Hcs. apply (Hout c0 cs). split; assumption.
    + intros c0 cs c0' cs' Hc0 Hcs Hc0' Hcs'.
      apply (Hapart c0 cs c0' cs'); split; assumption.
Qed.

(** X14.  [raw_array_wheremasked_assign_array_preservena] assigns where both
    masks are true, when the resolver was given the stride of the loop.
    The routine asks for the transfer callable with [src_strides[0]], the
    source stride of the caller's array (line 293), and runs the loop with
    the source stride of the prepared iteration, negated when the
    iteration is reversed; the callables are taken to meet their contracts
    for the strides they were resolved for only.  Given that the two
    source strides are the same - as they are in a run that is not
    reversed and whose preparer keeps the innermost source stride - a
    scratch buffer that was allocated and is apart from the destination
    elements, the source elements and the two masks, and positions that
    are apart in memory (a byte of one position's destination element
    belongs neither to the destination element nor to the source element
    of another position, and is neither its NA-mask byte nor its
    where-mask byte): every destination element holds the conversion of
    the source element of its position as that was before the call when
    its NA-mask byte and its where-mask byte were both true before the
    call, and its own bytes of before the call otherwise, for runs of any
    number of chunks.  Where the two strides differ nothing is claimed:
    the resolver was then asked for a stride the loop does not use. *)
Theorem preservena_assigns_exposed_elements
    (env : Collaborators) (ndim : nat) (shape : list Z)
    (dst_dtype : PyArray_Descr) (dst_data : ptr) (dst_strides : list Z)
    (src_dtype : PyArray_Descr) (src_data : ptr) (src_strides : list Z)
    (maskna_dtype : PyArray_Descr) (maskna_data : ptr)
    (maskna_strides : list Z)
    (wheremask_dtype : PyArray_Descr) (wheremask_data : ptr)
    (wheremask_strides : list Z) (s : state)
    (ndim' : nat) (shape_it : list Z) (dst0 : ptr) (ds_it : list Z)
    (src0 : ptr) (ss_it : list Z) (na0 : ptr) (ns_it : list Z)
    (wm0 : ptr) (ws_it : list Z) (cast : list Z -> list Z) :
  let position c0 cs :=
    0 <= c0 < nth 0 shape_it 0 /\ in_range shape_it (outer_dims ndim') cs in
  let dst_element c0 cs :=
    dst0 + c0 * nth 0 ds_it 0 + outer_offset (outer_dims ndim') cs ds_it in
  let src_element c0 cs :=
    src0 + c0 * nth 0 ss_it 0 + outer_offset (outer_dims ndim') cs ss_it in
  let na_byte c0 cs :=
    na0 + c0 * nth 0 ns_it 0 + outer_offset (outer_dims ndim') cs ns_it in
  let mask_byte c0 cs :=
    wm0 + c0 * nth 0 ws_it 0 + outer_offset (outer_dims ndim') cs ws_it in
  let B := Z.pos (NPY_ARRAY_ASSIGN_BUFFERSIZE env) in
  let scratch i :=
    PyArray_malloc env (B * elsize maskna_dtype) s
    + i * elsize maskna_dtype in
  let r :=
    raw_array_wheremasked_assign_array_preservena env ndim shape
      dst_dtype dst_data dst_strides src_dtype src_data src_strides
      maskna_dtype maskna_data maskna_strides
      wheremask_dtype wheremask_data wheremask_strides s in
  PyArray_PrepareFourRawArrayIter env ndim shape dst_data dst_strides
    src_data src_strides maskna_data maskna_strides
    wheremask_data wheremask_strides
  = Some (ndim', shape_it, dst0, ds_it, src0, ss_it, na0, ns_it,
          wm0, ws_it) ->
  (forall aligned ss ds ms, exists stransfer needs_api,
     PyArray_GetMaskedDTypeTransferFunction env aligned ss ds ms
       src_dtype dst_dtype maskna_dtype = Some (stransfer, needs_api) /\
     masked_contract_at cast (elsize dst_dtype) (elsize src_dtype)
       ss ds ms stransfer) ->
  (forall ns ws, exists maskand,
     PyArray_GetMaskAndFunction env ns maskna_dtype ws wheremask_dtype
     = Some maskand /\
     maskand_contract_at ns ws maskand) ->
  nth 0 src_strides 0
  = (if overlap_1d ndim' shape_it dst0 src0 ss_it
     then - nth 0 ss_it 0 else nth 0 ss_it 0) ->
  PyArray_malloc env (B * elsize maskna_dtype) s <> NULL ->
  elsize maskna_dtype <> 0 ->
  (forall i c0 cs, 0 <= i < B -> position c0 cs ->
     ~ in_element (dst_element c0 cs) (elsize dst_dtype) (scratch i) /\
     ~ in_element (src_element c0 cs) (elsize src_dtype) (scratch i) /\
     na_byte c0 cs <> scratch i /\ mask_byte c0 cs <> scratch i) ->
  (forall c0 cs c0' cs' a, position c0 cs -> position c0' cs' ->
     ~ (c0 = c0' /\ cs = cs') ->
     in_element (dst_element c0 cs) (elsize dst_dtype) a ->
     ~ in_element (dst_element c0' cs') (elsize dst_dtype) a /\
     ~ in_element (src_element c0' cs') (elsize src_dtype) a /\
     a <> na_byte c0' cs' /\ a <> mask_byte c0' cs') ->
  forall c0 cs b, position c0 cs -> 0 <= b < elsize dst_dtype ->
    st_mem (state_of r) (dst_element c0 cs + b)
    = if mask_true (st_mem s (na_byte c0 cs))
         && mask_true (st_mem s (mask_byte c0 cs))
      then nth (Z.to_nat b)
             (cast (load (st_mem s) (src_element c0 cs) (elsize src_dtype)))
             0
      else st_mem s (dst_element c0 cs + b).
Proof.
  intros position dst_element src_element na_byte mask_byte B scratch r
    Hprep Hres Hand Hstride Hbuf Hsize Hout Hapart c0 cs b Hpos Hb.
  destruct (@raw_array_wheremasked_assign_array_preservena_elements
              env ndim shape dst_dtype dst_data dst_strides
              src_dtype src_data src_strides
              maskna_dtype maskna_data maskna_strides
              wheremask_dtype wheremask_data wheremask_strides s
              ndim' shape_it dst0 ds_it src0 ss_it na0 ns_it wm0 ws_it cast
              Hprep Hres Hand Hstride Hbuf Hsize)
    as (L & Hnd & HL & Hmem).
  - intros c0' cs' Hpos'. unfold address. cbn [fst snd].
    repeat split.
    + intros i Hi. apply (Hout i c0' cs' Hi Hpos').
    + intros i Hi. apply (Hout i c0' cs' Hi Hpos').
    + intros a Ha i Hi ->.
      destruct (Hout i c0' cs' Hi Hpos') as (_ & H & _). contradiction.
    + intros a Ha i Hi ->.
      destruct (Hout i c0' cs' Hi Hpos') as (H & _). contradiction.
  - intros c1 cs1 c2 cs2 Hp1 Hp2 Hne. unfold address. cbn [fst snd].
    split; intros Hin;
      destruct (Hapart c1 cs1 c2 cs2 _ Hp1 Hp2 Hne Hin) as (_ & _ & H1 & H2);
      [apply H1 | apply H2]; reflexivity.
  - fold r in Hmem. rewrite Hmem.
    + pose proof (@assign_elements_result cast (elsize dst_dtype)
                    (elsize src_dtype) _
                    (fun p =>
                       mkElement (address (outer_dims ndim') dst0 ds_it p)
                         (address (outer_dims ndim') src0 ss_it p)
                         [address (outer_dims ndim') na0 ns_it p;
                          address (outer_dims ndim') wm0 ws_it p])
                    (c0, cs) b L (st_mem s) Hnd) as H.
      cbn [el_dst el_src el_masks guard forallb address fst snd] in H.
      rewrite ?andb_true_r in H.
      apply H; [apply HL; assumption | assumption |].
      intros [c0' cs'] a Hq Hne Ha. cbn [fst snd] in *.
      apply HL in Hq.
      destruct (Hapart c0' cs' c0 cs a Hq Hpos) as (H1 & H2 & H3 & H4);
        [intros [-> ->]; apply Hne; reflexivity | assumption |].
      repeat split; [assumption | assumption |].
      intros [E | [E | []]]; [apply H3 | apply H4]; symmetry; exact E.
    + intros i Hi E.
      destruct (Hout i c0 cs Hi Hpos) as (H & _). apply H.
      unfold address in E. cbn [fst snd] in E.
      unfold in_element, scratch, dst_element, B in *. lia.
Qed.

Lemma preservena_assigns_exposed_elements_witness :
  let r :=
    raw_array_wheremasked_assign_array_preservena numpy 1 [4]
      int8 32 [1] int8 0 [1] bool_ 16 [1] bool_ 24 [1] wheremask_state in
  st_mem (state_of r) (32 + 0 * 1 + outer_offset [] [] [1] + 0)
  = if mask_true (st_mem wheremask_state
                    (16 + 0 * 1 + outer_offset [] [] [1]))
       && mask_true (st_mem wheremask_state
                       (24 + 0 * 1 + outer_offset [] [] [1]))
    then nth (Z.to_nat 0)
           (load (st_mem wheremask_state)
              (0 + 0 * 1 + outer_offset [] [] [1]) 1) 0
    else st_mem wheremask_state (32 + 0 * 1 + outer_offset [] [] [1] + 0).
Proof.
  apply (@preservena_assigns_exposed_elements numpy 1%nat [4]
           int8 32 [1] int8 0 [1] bool_ 16 [1] bool_ 24 [1] wheremask_state
           1%nat [4] 32 [1] 0 [1] 16 [1] 24 [1] (fun bytes => bytes)).
  - reflexivity.
  - intros aligned ss ds ms. eexists _, _. split; [reflexivity |].
    apply masked_contract_at_any, masked_strided_transfer_contract.
  - intros ns ws. eexists. split; [reflexivity |].
    apply maskand_contract_at_any, maskand_transfer_contract.
  - reflexivity.
  - discriminate.
  - simpl. lia.
  - intros i c0 cs Hi [Hc0 Hcs].
    apply in_range_nil in Hcs. subst cs.
    change (outer_dims 1) with (@nil nat).
    unfold in_element.
    cbn [numpy copy_collaborators PyArray_malloc nth elsize int8 bool_
         outer_offset NPY_ARRAY_ASSIGN_BUFFERSIZE] in *.
    lia.
  - intros c0 cs c0' cs' a [Hc0 Hcs] [Hc0' Hcs'] Hne.
    apply in_range_nil in Hcs, Hcs'. subst cs cs'.
    change (outer_dims 1) with (@nil nat).
    unfold in_element. cbn [nth elsize int8 outer_offset] in *.
    assert (c0 <> c0') by (intros ->; apply Hne; split; reflexivity).
    lia.
  - split; [cbn [nth]; lia | constructor].
  - cbn [elsize int8]. lia.
Defined.

(** ** The assignment under a where-mask *)




(** ** The assignment of an NA-masked source to an NA-masked destination *)




(** ** [preservena] and destinations without NA mask *)

(** X17.  [preservena] has no effect on a destination without NA mask: for
    a source that is not 0-dimensional, the call with [preservena] set and
    the call with it clear return the same value, leave the same state and
    make the same calls, whatever the where-mask, the casting rule, the
    source's NA mask and [preservewhichna].  (A 0-dimensional source is
    handed, flag included, to the scalar assignment.) *)
Theorem preservena_ignored_without_maskna
    (env : Collaborators) (depth : nat) (dst src : PyArrayObject)
    (wheremask : option PyArrayObject) (casting : NPY_CASTING)
    (preservewhichna : option (list bool)) (s : state) :
  PyArray_NDIM src <> 0%nat ->
  PyArray_HASMASKNA dst = false ->
  PyArray_AssignArray env depth dst src wheremask casting true
    preservewhichna s
  = PyArray_AssignArray env depth dst src wheremask casting false
      preservewhichna s.
Proof.
  intros Hnd Hdst. apply Nat.eqb_neq in Hnd.
  destruct depth; cbn [PyArray_AssignArray]; rewrite Hnd, Hdst;
    unfold assign_broadcast, assign_unmasked, assign_wheremasked;
    cbn [negb orb]; reflexivity.
Qed.

Lemma preservena_ignored_without_maskna_witness :
  PyArray_AssignArray numpy 0 (view 32 [4] [1]) (view 0 [4] [1])
    (Some (view 24 [4] [1])) NPY_SAFE_CASTING true None wheremask_state
  = PyArray_AssignArray numpy 0 (view 32 [4] [1]) (view 0 [4] [1])
      (Some (view 24 [4] [1])) NPY_SAFE_CASTING false None wheremask_state.
Proof.
  apply (@preservena_ignored_without_maskna numpy 0%nat (view 32 [4] [1])
           (view 0 [4] [1]) (Some (view 24 [4] [1])) NPY_SAFE_CASTING None
           wheremask_state).
  - discriminate.
  - reflexivity.
Defined.

(** ** The assignment under a where-mask that keeps NA *)

(** X18.  An assignment under a where-mask that keeps NA assigns where the
    destination is exposed and the where-mask is true.  For a call with a
    where-mask and [preservena] set, on a destination with an NA mask and
    a source without one, of at least the destination's rank, that passes
    the checks, needs no temporary, whose source broadcasts to the
    destination and whose where-mask is free of NA and broadcasts: the
    call runs [raw_array_wheremasked_assign_array_preservena] on the
    destination's NA mask and the where-mask, with the strides the source
    has of its own, [PyArray_STRIDES(src)], not the broadcast ones (lines
    785-794); the routine reads as many of them as the destination has
    dimensions, which the source has by the hypothesis on its rank.  In
    the coordinates of the iteration prepared from those, given callables
    that meet their contracts for the strides they were resolved for, a
    source stride handed to the resolver that is the source stride of the
    loop, a scratch buffer that was allocated and is apart from the
    arrays, and positions that are apart in memory: every destination
    element holds the conversion of the source element of its position
    when its NA-mask byte and its where-mask byte were both true, and its
    own bytes of before otherwise. *)
Theorem assign_array_where_preservena_assigns
    (env : Collaborators) (depth : nat) (dst src wheremask : PyArrayObject)
    (casting : NPY_CASTING) (s s1 : state)
    (src_strides wheremask_strides : list Z)
    (ndim' : nat) (shape_it : list Z) (dst0 : ptr) (ds_it : list Z)
    (src0 : ptr) (ss_it : list Z) (na0 : ptr) (ns_it : list Z)
    (wm0 : ptr) (ws_it : list Z) (cast : list Z -> list Z) :
  let dst_itemsize := elsize (PyArray_DESCR dst) in
  let src_itemsize := elsize (PyArray_DESCR src) in
  let maskna_itemsize := elsize (PyArray_MASKNA_DTYPE dst) in
  let position c0 cs :=
    0 <= c0 < nth 0 shape_it 0 /\ in_range shape_it (outer_dims ndim') cs in
  let dst_element c0 cs :=
    dst0 + c0 * nth 0 ds_it 0 + outer_offset (outer_dims ndim') cs ds_it in
  let src_element c0 cs :=
    src0 + c0 * nth 0 ss_it 0 + outer_offset (outer_dims ndim') cs ss_it in
  let na_byte c0 cs :=
    na0 + c0 * nth 0 ns_it 0 + outer_offset (outer_dims ndim') cs ns_it in
  let mask_byte c0 cs :=
    wm0 + c0 * nth 0 ws_it 0 + outer_offset (outer_dims ndim') cs ws_it in
  let B := Z.pos (NPY_ARRAY_ASSIGN_BUFFERSIZE env) in
  let scratch i :=
    PyArray_malloc env (B * maskna_itemsize) s1 + i * maskna_itemsize in
  let r := PyArray_AssignArray env depth dst src (Some wheremask) casting
             true None s in
  PyArray_NDIM src <> 0%nat ->
  List.length (PyArray_STRIDES src) = PyArray_NDIM src ->
  (PyArray_NDIM dst <= PyArray_NDIM src)%nat ->
  same_view dst src = false ->
  PyArray_ISWRITEABLE dst = true ->
  PyArray_CanCastTypeTo env (PyArray_DESCR src) (PyArray_DESCR dst) casting
  = true ->
  PyArray_HASMASKNA dst = true ->
  PyArray_HASMASKNA src = false ->
  needs_temporary env dst src = false ->
  result_of (broadcast_src dst src s) = Some src_strides ->
  PyArray_ContainsNA env wheremask None s = (0, s1) ->
  result_of (broadcast_strides (PyArray_NDIM dst) (PyArray_DIMS dst)
               (PyArray_NDIM wheremask) (PyArray_DIMS wheremask)
               (PyArray_STRIDES wheremask) "where mask"%string s1)
  = Some wheremask_strides ->
  PyArray_PrepareFourRawArrayIter env
    (PyArray_NDIM dst) (PyArray_DIMS dst)
    (PyArray_DATA dst) (PyArray_STRIDES dst)
    (PyArray_DATA src) (PyArray_STRIDES src)
    (PyArray_MASKNA_DATA dst) (PyArray_MASKNA_STRIDES dst)
    (PyArray_DATA wheremask) wheremask_strides
  = Some (ndim', shape_it, dst0, ds_it, src0, ss_it, na0, ns_it,
          wm0, ws_it) ->
  (forall aligned ss ds ms, exists stransfer needs_api,
     PyArray_GetMaskedDTypeTransferFunction env aligned ss ds ms
       (PyArray_DESCR src) (PyArray_DESCR dst) (PyArray_MASKNA_DTYPE dst)
     = Some (stransfer, needs_api) /\
     masked_contract_at cast dst_itemsize src_itemsize ss ds ms stransfer) ->
  (forall ns ws, exists maskand,
     PyArray_GetMaskAndFunction env ns (PyArray_MASKNA_DTYPE dst)
       ws (PyArray_DESCR wheremask)
     = Some maskand /\
     maskand_contract_at ns ws maskand) ->
  nth 0 (PyArray_STRIDES src) 0
  = (if overlap_1d ndim' shape_it dst0 src0 ss_it
     then - nth 0 ss_it 0 else nth 0 ss_it 0) ->
  PyArray_malloc env (B * maskna_itemsize) s1 <> NULL ->
  maskna_itemsize <> 0 ->
  (forall i c0 cs, 0 <= i < B -> position c0 cs ->
     ~ in_element (dst_element c0 cs) dst_itemsize (scratch i) /\
     ~ in_element (src_element c0 cs) src_itemsize (scratch i) /\
     na_byte c0 cs <> scratch i /\ mask_byte c0 cs <> scratch i) ->
  (forall c0 cs c0' cs' a, position c0 cs -> position c0' cs' ->
     ~ (c0 = c0' /\ cs = cs') ->
     in_element (dst_element c0 cs) dst_itemsize a ->
     ~ in_element (dst_element c0' cs') dst_itemsize a /\
     ~ in_element (src_element c0' cs') src_itemsize a /\
     a <> na_byte c0' cs' /\ a <> mask_byte c0' cs') ->
  forall c0 cs b, position c0 cs -> 0 <= b < dst_itemsize ->
    st_mem (state_of r) (dst_element c0 cs + b)
    = if mask_true (st_mem s1 (na_byte c0 cs))
         && mask_true (st_mem s1 (mask_byte c0 cs))
      then nth (Z.to_nat b)
             (cast (load (st_mem s1) (src_element c0 cs) src_itemsize)) 0
      else st_mem s1 (dst_element c0 cs + b).
Proof.
  intros dst_itemsize src_itemsize maskna_itemsize position dst_element
    src_element na_byte mask_byte B scratch r Hnd Hlen Hrank Hsame Hw Hc
    Hdst Hsrc Htmp Hbroadcast Hscan Hwhere Hprep Hres Hand Hstride Hbuf
    Hsize Hout Hapart c0 cs b Hpos Hb.
  assert (Hrun :
    state_of r
    = state_of
        (raw_array_wheremasked_assign_array_preservena env
           (PyArray_NDIM dst) (PyArray_DIMS dst)
           (PyArray_DESCR dst) (PyArray_DATA dst) (PyArray_STRIDES dst)
           (PyArray_DESCR src) (PyArray_DATA src) (PyArray_STRIDES src)
           (PyArray_MASKNA_DTYPE dst) (PyArray_MASKNA_DATA dst)
           (PyArray_MASKNA_STRIDES dst)
           (PyArray_DESCR wheremask) (PyArray_DATA wheremask)
           wheremask_strides s1)).
  { subst r.
    rewrite (@assign_array_dispatch env depth dst src (Some wheremask)
               casting true None s false s []); try assumption.
    2: { apply assign_checks_pass. rewrite Hsrc. cbn.
         repeat split; assumption. }
    rewrite Hdst.
    unfold assign_broadcast. unfold bind at 1.
    rewrite broadcast_src_run, Hbroadcast.
    unfold bind at 1, ret at 1.
    unfold assign_wheremasked, ContainsNA.
    unfold bind at 1. unfold bind at 1, emit at 1, ask at 1. rewrite Hscan.
    cbn [Z.eqb negb orb]. unfold bind at 1.
    rewrite (broadcast_strides_ok _ _ _ _ _ _ _ Hwhere).
    unfold check, bind.
    destruct (raw_array_wheremasked_assign_array_preservena env
                _ _ _ _ _ _ _ _ _ _ _ _ _ _ s1) as [[code s2] calls].
    destruct (code <? 0); reflexivity. }
  rewrite Hrun.
  destruct (@raw_array_wheremasked_assign_array_preservena_elements
              env (PyArray_NDIM dst) (PyArray_DIMS dst)
              (PyArray_DESCR dst) (PyArray_DATA dst) (PyArray_STRIDES dst)
              (PyArray_DESCR src) (PyArray_DATA src) (PyArray_STRIDES src)
              (PyArray_MASKNA_DTYPE dst) (PyArray_MASKNA_DATA dst)
              (PyArray_MASKNA_STRIDES dst)
              (PyArray_DESCR wheremask) (PyArray_DATA wheremask)
              wheremask_strides s1
              ndim' shape_it dst0 ds_it src0 ss_it na0 ns_it wm0 ws_it cast
              Hprep Hres Hand Hstride Hbuf Hsize)
    as (L & Hnd' & HL & Hmem).
  - intros c0' cs' Hpos'. unfold address. cbn [fst snd].
    repeat split.
    + intros i Hi. apply (Hout i c0' cs' Hi Hpos').
    + intros i Hi. apply (Hout i c0' cs' Hi Hpos').
    + intros a Ha i Hi ->.
      destruct (Hout i c0' cs' Hi Hpos') as (_ & H & _). contradiction.
    + intros a Ha i Hi ->.
      destruct (Hout i c0' cs' Hi Hpos') as (H & _). contradiction.
  - intros c1 cs1 c2 cs2 Hp1 Hp2 Hne. unfold address. cbn [fst snd].
    split; intros Hin;
      destruct (Hapart c1 cs1 c2 cs2 _ Hp1 Hp2 Hne Hin) as (_ & _ & H1 & H2);
      [apply H1 | apply H2]; reflexivity.
  - rewrite Hmem.
    + pose proof (@assign_elements_result cast dst_itemsize src_itemsize _
                    (fun p =>
                       mkElement (address (outer_dims ndim') dst0 ds_it p)
                         (address (outer_dims ndim') src0 ss_it p)
                         [address (outer_dims ndim') na0 ns_it p;
                          address (outer_dims ndim') wm0 ws_it p])
                    (c0, cs) b L (st_mem s1) Hnd') as H.
      cbn [el_dst el_src el_masks guard forallb address fst snd] in H.
      rewrite ?andb_true_r in H.
      apply H; [apply HL; assumption | assumption |].
      intros [c0' cs'] a Hq Hne Ha. cbn [fst snd] in *.
      apply HL in Hq.
      destruct (Hapart c0' cs' c0 cs a Hq Hpos) as (H1 & H2 & H3 & H4);
        [intros [-> ->]; apply Hne; reflexivity | assumption |].
      repeat split; [assumption | assumption |].
      intros [E | [E | []]]; [apply H3 | apply H4]; symmetry; exact E.
    + intros i Hi E.
      destruct (Hout i c0 cs Hi Hpos) as (H & _). apply H.
      unfold address in E. cbn [fst snd] in E.
      unfold in_element, scratch, dst_element, B, maskna_itemsize in *. lia.
Qed.

Lemma assign_array_where_preservena_assigns_witness :
  let s := mkState (store (st_mem wheremask_state) 16 4 [1; 1; 0; 1]) None in
  let r := PyArray_AssignArray numpy 0 (masked 16 [1] (view 32 [4] [1]))
             (view 0 [4] [1]) (Some (view 24 [4] [1])) NPY_SAFE_CASTING
             true None s in
  st_mem (state_of r) (32 + 2 * 1 + outer_offset [] [] [1] + 0)
  = if mask_true (st_mem s (16 + 2 * 1 + outer_offset [] [] [1]))
       && mask_true (st_mem s (24 + 2 * 1 + outer_offset [] [] [1]))
    then nth (Z.to_nat 0)
           (load (st_mem s) (0 + 2 * 1 + outer_offset [] [] [1]) 1) 0
    else st_mem s (32 + 2 * 1 + outer_offset [] [] [1] + 0).
Proof.
  intros s.
  apply (@assign_array_where_preservena_assigns numpy 0%nat
           (masked 16 [1] (view 32 [4] [1])) (view 0 [4] [1])
           (view 24 [4] [1]) NPY_SAFE_CASTING s s [1] [1]
           1%nat [4] 32 [1] 0 [1] 16 [1] 24 [1] (fun b => b));
    try reflexivity.
  - discriminate.
  - intros aligned ss ds ms. eexists _, _. split; [reflexivity |].
    apply masked_contract_at_any, masked_strided_transfer_contract.
  - intros ns ws. eexists. split; [reflexivity |].
    apply maskand_contract_at_any, maskand_transfer_contract.
  - discriminate.
  - discriminate.
  - intros i c0 cs Hi [Hc0 Hcs].
    apply in_range_nil in Hcs. subst cs.
    change (outer_dims 1) with (@nil nat).
    unfold in_element.
    cbn [numpy copy_collaborators PyArray_malloc nth elsize int8 bool_
         outer_offset NPY_ARRAY_ASSIGN_BUFFERSIZE PyArray_MASKNA_DTYPE
         PyArray_DESCR masked view] in *.
    lia.
  - intros c0 cs c0' cs' a [Hc0 Hcs] [Hc0' Hcs'] Hne.
    apply in_range_nil in Hcs, Hcs'. subst cs cs'.
    change (outer_dims 1) with (@nil nat).
    unfold in_element.
    cbn [nth elsize int8 outer_offset PyArray_DESCR masked view] in *.
    assert (c0 <> c0') by (intros ->; apply Hne; split; reflexivity).
    lia.
  - split; [cbn [nth]; lia | constructor].
  - cbn [elsize int8 PyArray_DESCR masked view]. lia.
Defined.

(** ** [preservena] and a source with an NA mask *)

(** X19.  [preservena] keeps what is NA, also under a source with an NA
    mask.  A call without where-mask and with [preservena] set, for a
    destination and a source that both have an NA mask (the source not
    0-dimensional, no temporary needed, the source's mask broadcastable),
    first assigns the source's mask to the destination's mask with the
    destination's mask as where-mask of that very assignment, then the
    values under the destination's mask as it is by then (lines 628-658).
    In the coordinates of the two prepared iterations, with callables that
    keep what their mask tells them to keep, no guarding byte stored in
    the element of another position, and every mask element of the
    destination guarded by the NA byte it holds: a byte that belongs to no
    mask element and to no element of the destination that the
    destination's NA mask exposed before the call has the value it had -
    an NA element keeps both its NA flag and its payload - whatever the
    casting rule, [preservewhichna] and the outcome of the call. *)
Theorem preservena_keeps_na_under_masked_source
    (env : Collaborators) (depth : nat) (dst src : PyArrayObject)
    (casting : NPY_CASTING) (preservewhichna : option (list bool))
    (s : state) (src_maskna_strides : list Z)
    (mdim : nat) (mshape : list Z) (dm0 : ptr) (dms_it : list Z)
    (sm0 : ptr) (sms_it : list Z) (mw0 : ptr) (mws_it : list Z)
    (ndim' : nat) (shape_it : list Z) (dst0 : ptr) (ds_it : list Z)
    (src0 : ptr) (ss_it : list Z) (na0 : ptr) (ns_it : list Z) :
  let dst_itemsize := elsize (PyArray_DESCR dst) in
  let dst_masksize := elsize (PyArray_MASKNA_DTYPE dst) in
  let mask_position c0 cs :=
    0 <= c0 < nth 0 mshape 0 /\ in_range mshape (outer_dims mdim) cs in
  let dst_mask c0 cs :=
    dm0 + c0 * nth 0 dms_it 0 + outer_offset (outer_dims mdim) cs dms_it in
  let mask_guard c0 cs :=
    mw0 + c0 * nth 0 mws_it 0 + outer_offset (outer_dims mdim) cs mws_it in
  let position c0 cs :=
    0 <= c0 < nth 0 shape_it 0 /\ in_range shape_it (outer_dims ndim') cs in
  let dst_element c0 cs :=
    dst0 + c0 * nth 0 ds_it 0 + outer_offset (outer_dims ndim') cs ds_it in
  let na_byte c0 cs :=
    na0 + c0 * nth 0 ns_it 0 + outer_offset (outer_dims ndim') cs ns_it in
  let r := PyArray_AssignArray env depth dst src None casting true
             preservewhichna s in
  PyArray_NDIM src <> 0%nat ->
  PyArray_HASMASKNA dst = true ->
  PyArray_HASMASKNA src = true ->
  needs_temporary env dst src = false ->
  result_of (broadcast_strides (PyArray_NDIM dst) (PyArray_DIMS dst)
               (PyArray_NDIM src) (PyArray_DIMS src)
               (PyArray_MASKNA_STRIDES src) "input array"%string s)
  = Some src_maskna_strides ->
  PyArray_PrepareThreeRawArrayIter env
    (PyArray_NDIM dst) (PyArray_DIMS dst)
    (PyArray_MASKNA_DATA dst) (PyArray_MASKNA_STRIDES dst)
    (PyArray_MASKNA_DATA src) src_maskna_strides
    (PyArray_MASKNA_DATA dst) (PyArray_MASKNA_STRIDES dst)
  = Some (mdim, mshape, dm0, dms_it, sm0, sms_it, mw0, mws_it) ->
  PyArray_PrepareThreeRawArrayIter env
    (PyArray_NDIM dst) (PyArray_DIMS dst)
    (PyArray_DATA dst) (PyArray_STRIDES dst)
    (PyArray_DATA src) (PyArray_STRIDES src)
    (PyArray_MASKNA_DATA dst) (PyArray_MASKNA_STRIDES dst)
  = Some (ndim', shape_it, dst0, ds_it, src0, ss_it, na0, ns_it) ->
  (forall aligned ss ds ms stransfer needs_api,
     PyArray_GetMaskedDTypeTransferFunction env aligned ss ds ms
       (PyArray_MASKNA_DTYPE src) (PyArray_MASKNA_DTYPE dst)
       (PyArray_MASKNA_DTYPE dst)
     = Some (stransfer, needs_api) ->
     masked_frame dst_masksize stransfer) ->
  (forall aligned ss ds ms stransfer needs_api,
     PyArray_GetMaskedDTypeTransferFunction env aligned ss ds ms
       (PyArray_DESCR src) (PyArray_DESCR dst) (PyArray_MASKNA_DTYPE dst)
     = Some (stransfer, needs_api) ->
     masked_frame dst_itemsize stransfer) ->
  (forall c0 cs c0' cs', mask_position c0 cs -> mask_position c0' cs' ->
     ~ (c0 = c0' /\ cs = cs') ->
     ~ in_element (dst_mask c0 cs) dst_masksize (mask_guard c0' cs')) ->
  (forall c0 cs c0' cs', position c0 cs -> position c0' cs' ->
     ~ (c0 = c0' /\ cs = cs') ->
     ~ in_element (dst_element c0 cs) dst_itemsize (na_byte c0' cs')) ->
  (forall c0 cs c0' cs', mask_position c0 cs -> position c0' cs' ->
     in_element (dst_mask c0 cs) dst_masksize (na_byte c0' cs') ->
     mask_guard c0 cs = na_byte c0' cs') ->
  forall a,
    (forall c0 cs, mask_position c0 cs ->
       in_element (dst_mask c0 cs) dst_masksize a ->
       mask_true (st_mem s (mask_guard c0 cs)) = false) ->
    (forall c0 cs, position c0 cs ->
       in_element (dst_element c0 cs) dst_itemsize a ->
       mask_true (st_mem s (na_byte c0 cs)) = false) ->
    st_mem (state_of r) a = st_mem s a.
Proof.
  intros dst_itemsize dst_masksize mask_position dst_mask mask_guard
    position dst_element na_byte r Hnd Hdst Hsrc Htmp Hmask Hprep1 Hprep2
    Hres1 Hres2 Hstable1 Hstable2 Hlink a Hna1 Hna2. subst r.
  destruct (same_view dst src) eqn:Hsame.
  { apply Nat.eqb_neq in Hnd.
    destruct depth; cbn [PyArray_AssignArray]; rewrite Hnd, Hsame;
      reflexivity. }
  destruct (@assign_checks_memory env dst src None casting preservewhichna s)
    as [Hmem Hpass].
  { rewrite Hsrc, Hdst. reflexivity. }
  destruct (assign_checks env dst src None casting preservewhichna s)
    as [[[shm | l] s1] check_calls] eqn:Hchecks.
  2: { rewrite (@assign_checks_goto env depth dst src None casting true
                  preservewhichna s l s1 check_calls) by assumption.
       unfold state_of in *. cbn [fst snd] in *. rewrite Hmem.
       reflexivity. }
  destruct (Hpass shm eq_refl) as (-> & -> & Hs1).
  unfold state_of in Hs1. cbn [fst snd] in Hs1. subst s1.
  rewrite (@assign_array_dispatch env depth dst src None casting true None s
             (PyArray_HASMASKNA src) s check_calls) by assumption.
  rewrite Hsrc, Hdst.
  unfold assign_broadcast. unfold bind at 1.
  rewrite broadcast_src_run.
  destruct (result_of (broadcast_src dst src s)) as [src_strides |];
    [| reflexivity].
  unfold bind at 1.
  rewrite (broadcast_strides_ok _ _ _ _ _ _ _ Hmask).
  unfold assign_unmasked. cbn [negb orb]. unfold check.
  unfold bind at 1.
  (* the assignment of the mask *)
  assert (Hframe1 : forall x,
            (forall c0 cs, mask_position c0 cs ->
               in_element (dst_mask c0 cs) dst_masksize x ->
               mask_true (st_mem s (mask_guard c0 cs)) = false) ->
            st_mem
              (state_of
                 (raw_array_wheremasked_assign_array env
                    (PyArray_NDIM dst) (PyArray_DIMS dst)
                    (PyArray_MASKNA_DTYPE dst) (PyArray_MASKNA_DATA dst)
                    (PyArray_MASKNA_STRIDES dst)
                    (PyArray_MASKNA_DTYPE src) (PyArray_MASKNA_DATA src)
                    src_maskna_strides
                    (PyArray_MASKNA_DTYPE dst) (PyArray_MASKNA_DATA dst)
                    (PyArray_MASKNA_STRIDES dst) s)) x
            = st_mem s x).
  { intros x Hx.
    apply (@raw_array_wheremasked_assign_array_frame env _ _ _ _ _ _ _ _
             _ _ _ s mdim mshape dm0 dms_it sm0 sms_it mw0 mws_it x
             Hprep1 Hres1 Hstable1 Hx). }
  destruct (raw_array_wheremasked_assign_array env
              (PyArray_NDIM dst) (PyArray_DIMS dst)
              (PyArray_MASKNA_DTYPE dst) (PyArray_MASKNA_DATA dst)
              (PyArray_MASKNA_STRIDES dst)
              (PyArray_MASKNA_DTYPE src) (PyArray_MASKNA_DATA src)
              src_maskna_strides
              (PyArray_MASKNA_DTYPE dst) (PyArray_MASKNA_DATA dst)
              (PyArray_MASKNA_STRIDES dst) s) as [[code1 s1] calls1].
  unfold state_of in Hframe1. cbn [fst snd] in Hframe1.
  destruct (code1 <? 0); [apply Hframe1; assumption |].
  unfold bind at 1.
  (* the assignment of the values, under the mask as it is now *)
  assert (Hna2' : forall c0 cs, position c0 cs ->
            in_element (dst_element c0 cs) dst_itemsize a ->
            mask_true (st_mem s1 (na_byte c0 cs)) = false).
  { intros c0 cs Hpos Hin. rewrite Hframe1; [apply Hna2; assumption |].
    intros c0' cs' Hpos' Hin'.
    rewrite (Hlink c0' cs' c0 cs Hpos' Hpos Hin').
    apply Hna2; assumption. }
  pose proof (@raw_array_wheremasked_assign_array_frame env
                (PyArray_NDIM dst) (PyArray_DIMS dst)
                (PyArray_DESCR dst) (PyArray_DATA dst) (PyArray_STRIDES dst)
                (PyArray_DESCR src) (PyArray_DATA src) (PyArray_STRIDES src)
                (PyArray_MASKNA_DTYPE dst) (PyArray_MASKNA_DATA dst)
                (PyArray_MASKNA_STRIDES dst) s1
                ndim' shape_it dst0 ds_it src0 ss_it na0 ns_it a
                Hprep2 Hres2 Hstable2 Hna2') as Hframe2.
  destruct (raw_array_wheremasked_assign_array env
              (PyArray_NDIM dst) (PyArray_DIMS dst)
              (PyArray_DESCR dst) (PyArray_DATA dst) (PyArray_STRIDES dst)
              (PyArray_DESCR src) (PyArray_DATA src) (PyArray_STRIDES src)
              (PyArray_MASKNA_DTYPE dst) (PyArray_MASKNA_DATA dst)
              (PyArray_MASKNA_STRIDES dst) s1) as [[code2 s2] calls2].
  unfold state_of in Hframe2. cbn [fst snd] in Hframe2.
  assert (Hgoal : st_mem s2 a = st_mem s a).
  { rewrite Hframe2. apply Hframe1. assumption. }
  destruct (code2 <? 0); exact Hgoal.
Qed.

Lemma preservena_keeps_na_under_masked_source_witness :
  let dst := masked 40 [1] (view 32 [4] [1]) in
  let s := mkState (store (st_mem one_na_state) 40 4 [1; 1; 0; 1]) None in
  let r := PyArray_AssignArray numpy 0 dst one_na_src None
             NPY_SAFE_CASTING true None s in
  st_mem (state_of r) 34 = st_mem s 34.
Proof.
  apply (@preservena_keeps_na_under_masked_source numpy 0%nat
           (masked 40 [1] (view 32 [4] [1])) one_na_src
           NPY_SAFE_CASTING None
           (mkState (store (st_mem one_na_state) 40 4 [1; 1; 0; 1]) None)
           [1]
           1%nat [4] 40 [1] 16 [1] 40 [1]
           1%nat [4] 32 [1] 0 [1] 40 [1]).
  - simpl. lia.
  - reflexivity.
  - reflexivity.
  - reflexivity.
  - reflexivity.
  - reflexivity.
  - reflexivity.
  - intros aligned ss ds ms stransfer needs_api H.
    injection H as <- _. apply masked_strided_transfer_frame.
  - intros aligned ss ds ms stransfer needs_api H.
    injection H as <- _. apply masked_strided_transfer_frame.
  - intros c0 cs c0' cs' [Hc0 Hcs] [Hc0' Hcs'] Hne.
    apply in_range_nil in Hcs, Hcs'. subst cs cs'.
    change (outer_dims 1) with (@nil nat).
    unfold in_element. cbn [nth elsize bool_ outer_offset view masked
                            PyArray_MASKNA_DTYPE] in *.
    assert (c0 <> c0') by (intros ->; apply Hne; split; reflexivity).
    lia.
  - intros c0 cs c0' cs' [Hc0 Hcs] [Hc0' Hcs'] _.
    apply in_range_nil in Hcs, Hcs'. subst cs cs'.
    change (outer_dims 1) with (@nil nat).
    unfold in_element. cbn [nth elsize int8 outer_offset view masked
                            PyArray_DESCR] in *. lia.
  - intros c0 cs c0' cs' [Hc0 Hcs] [Hc0' Hcs'].
    apply in_range_nil in Hcs, Hcs'. subst cs cs'.
    change (outer_dims 1) with (@nil nat).
    unfold in_element. cbn [nth elsize bool_ outer_offset view masked
                            PyArray_MASKNA_DTYPE] in *. lia.
  - intros c0 cs [Hc0 Hcs] Hin.
    apply in_range_nil in Hcs. subst cs.
    change (outer_dims 1) with (@nil nat) in *.
    unfold in_element in Hin.
    cbn [nth elsize bool_ outer_offset view masked PyArray_MASKNA_DTYPE]
      in *.
    lia.
  - intros c0 cs [Hc0 Hcs] Hin.
    apply in_range_nil in Hcs. subst cs.
    change (outer_dims 1) with (@nil nat) in *.
    unfold in_element in Hin.
    cbn [nth elsize int8 outer_offset view masked PyArray_DESCR] in *.
    assert (c0 = 2) as -> by lia. reflexivity.
Defined.

(** The run of the witness: the source's second element is NA, the
    destination's third.  The destination's third element keeps its mask
    and its value; its second element becomes NA and keeps its value. *)
Example preservena_keeps_na_under_masked_source_run :
  let dst := masked 40 [1] (view 32 [4] [1]) in
  let s := mkState (store (st_mem one_na_state) 40 4 [1; 1; 0; 1]) None in
  let r := PyArray_AssignArray numpy 0 dst one_na_src None
             NPY_SAFE_CASTING true None s in
  result_of r = Some 0 /\
  map (st_mem (state_of r)) [32; 33; 34; 35] = [0; 33; 34; 3] /\
  map (st_mem (state_of r)) [40; 41; 42; 43] = [1; 0; 0; 1].
Proof. vm_compute. repeat split. Qed.

(** ** The buffered routine, chunk by chunk *)

Lemma flat_map_map {A B C} (f : B -> list C) (g : A -> B) l :
  flat_map f (map g l) = flat_map (fun x => f (g x)) l.
Proof.
  induction l as [| x l IH]; cbn [map flat_map]; [reflexivity |].
  rewrite IH. reflexivity.
Qed.

Lemma flat_map_nested {A B C} (f : B -> list C) (g : A -> list B) l :
  flat_map f (flat_map g l) = flat_map (fun x => flat_map f (g x)) l.
Proof.
  induction l as [| x l IH]; cbn [flat_map]; [reflexivity |].
  rewrite flat_map_app, IH. reflexivity.
Qed.

Lemma for_loop_log (L : Z -> list event) body :
  (forall c s, log_of (body c s) = L c) ->
  forall n i s,
  log_of (for_loop n (Z.of_nat i) body s)
  = flat_map (fun c => L (Z.of_nat c)) (seq i n).
Proof.
  intros Hbody. induction n as [| n IH]; intros i s; [reflexivity |].
  cbn [for_loop seq flat_map]. rewrite bind_log, Hbody.
  replace (Z.of_nat i + 1) with (Z.of_nat (S i)) by lia.
  rewrite IH. reflexivity.
Qed.

(** The calls of the raw iteration, for a body whose calls depend on its
    data pointers only: the calls of the steps, one step after the other. *)
Lemma NPY_RAW_ITER_log (L : list ptr -> list event) body shape strides :
  (forall d s, log_of (body d s) = L d) ->
  forall idims data s,
  List.length data = List.length strides ->
  log_of (NPY_RAW_ITER idims shape strides data body s)
  = flat_map (fun cs => L (offset_data idims cs strides data))
      (iter_coords idims shape).
Proof.
  intros Hbody. induction idims as [| idim rest IH]; intros data s Hlen;
    cbn [NPY_RAW_ITER iter_coords].
  - cbn [flat_map]. rewrite Hbody, offset_data_nil, app_nil_r by assumption.
    reflexivity.
  - change (for_loop ?n 0 ?b) with (for_loop n (Z.of_nat 0) b).
    rewrite (for_loop_log
               (fun c =>
                  flat_map
                    (fun cs =>
                       L (offset_data rest cs strides
                            (advance data strides idim c)))
                    (iter_coords rest shape))).
    + rewrite flat_map_nested. apply flat_map_ext. intros c.
      rewrite flat_map_map. apply flat_map_ext. intros cs.
      rewrite offset_data_advance. reflexivity.
    + intros c s'. apply IH. rewrite length_advance by assumption.
      reflexivity.
Qed.

(** The state after the raw iteration: the steps, one after the other. *)
Lemma NPY_RAW_ITER_state (T : list ptr -> state -> state) body shape
    strides :
  (forall d s, state_of (body d s) = T d s) ->
  forall idims data s,
  List.length data = List.length strides ->
  state_of (NPY_RAW_ITER idims shape strides data body s)
  = fold_left (fun st cs => T (offset_data idims cs strides data) st)
      (iter_coords idims shape) s.
Proof.
  intros Hbody idims data s Hlen.
  apply (@NPY_RAW_ITER_simulation state (fun s st => s = st) T);
    [assumption | | reflexivity].
  intros cs s' st _ <-. apply Hbody.
Qed.

Section Chunked_state.

Variable env : Collaborators.
Variables (maskand : PyArray_StridedBinaryOp)
          (stransfer : PyArray_MaskedStridedUnaryOp).
Variables (buf : ptr) (itemsize src_itemsize : Z).
Variables (ds ss ns ws : Z).

Local Abbreviation B := (Z.pos (NPY_ARRAY_ASSIGN_BUFFERSIZE env)).
Local Abbreviation chunk :=
  (chunk_step maskand stransfer buf itemsize src_itemsize ds ss ns ws).

(** The loop never runs out of [fuel] when started with at least [count],
    and it leaves the state of the chunks of the run, one after the
    other. *)
Lemma buffered_loop_state : forall fuel count D S N W st,
  count <= Z.of_nat fuel ->
  state_of (buffered_loop env fuel maskand stransfer buf itemsize
              src_itemsize ds ss ns ws count D S N W st)
  = fold_left
      (fun st k =>
         chunk (D + Z.of_nat k * B * ds) (S + Z.of_nat k * B * ss)
           (N + Z.of_nat k * B * ns) (W + Z.of_nat k * B * ws)
           (chunk_size B count k) st)
      (seq 0 (chunk_count B count)) st.
Proof.
  assert (HB : 0 < B) by lia.
  assert (Hfirst : forall count D S N W st,
            state_of
              ((call_maskand_stransfer maskand buf itemsize N ns W ws
                  (Z.min count B) ;;;
                call_masked_stransfer stransfer D ds S ss buf itemsize
                  (Z.min count B) src_itemsize) st)
            = chunk (D + Z.of_nat 0 * B * ds) (S + Z.of_nat 0 * B * ss)
                (N + Z.of_nat 0 * B * ns) (W + Z.of_nat 0 * B * ws)
                (chunk_size B count 0) st).
  { intros count D S N W st.
    rewrite bind_state, call_masked_stransfer_state,
      call_maskand_stransfer_state.
    unfold chunk_step, chunk_size. cbn [Z.of_nat].
    rewrite !Z.mul_0_l, !Z.add_0_r, Z.sub_0_r. reflexivity. }
  assert (Hshift : forall count D S N W k st,
            chunk (D + Z.of_nat (Datatypes.S k) * B * ds)
              (S + Z.of_nat (Datatypes.S k) * B * ss)
              (N + Z.of_nat (Datatypes.S k) * B * ns)
              (W + Z.of_nat (Datatypes.S k) * B * ws)
              (chunk_size B count (Datatypes.S k)) st
            = chunk (D + B * ds + Z.of_nat k * B * ds)
                (S + B * ss + Z.of_nat k * B * ss)
                (N + B * ns + Z.of_nat k * B * ns)
                (W + B * ws + Z.of_nat k * B * ws)
                (chunk_size B (count - B) k) st).
  { intros count D S N W k st.
    unfold chunk_step, chunk_size. rewrite Nat2Z.inj_succ.
    replace (count - Z.succ (Z.of_nat k) * B)
      with (count - B - Z.of_nat k * B) by ring.
    f_equal; try ring. f_equal; ring. }
  induction fuel as [| fuel IH]; intros count D S N W st Hf;
    cbn [buffered_loop]; rewrite buffered_count_min by assumption;
    rewrite bind_state.
  - assert (Hc : count <= B) by lia.
    rewrite chunk_count_last by assumption.
    cbn [seq fold_left]. rewrite <- Hfirst.
    rewrite !bind_state.
    replace (0 <? count - Z.min count B) with false
      by (symmetry; apply Z.ltb_ge; lia).
    reflexivity.
  - destruct (Z.le_gt_cases count B) as [Hc | Hc].
    + rewrite chunk_count_last by assumption.
      cbn [seq fold_left]. rewrite <- Hfirst.
      rewrite !bind_state.
      replace (0 <? count - Z.min count B) with false
        by (symmetry; apply Z.ltb_ge; lia).
      reflexivity.
    + rewrite chunk_count_more by assumption.
      rewrite <- cons_seq, <- seq_shift. cbn [fold_left].
      rewrite <- Hfirst. rewrite fold_left_map.
      rewrite !bind_state.
      replace (0 <? count - Z.min count B) with true
        by (symmetry; apply Z.ltb_lt; lia).
      replace (Z.min count B) with B by lia.
      rewrite IH by lia.
      apply fold_left_ext_in. intros st' k _.
      symmetry. apply Hshift.
Qed.

End Chunked_state.

(** C9.  [raw_array_wheremasked_assign_array_preservena] works through
    every innermost run a buffer size at a time.  Once the iteration is
    prepared, the scratch buffer allocated and the two callables resolved,
    with [B] the capacity of the buffer and for any callables:
    - the calls of the routine are the allocation, the two resolutions,
      then for every innermost run, in the order of the raw iteration, the
      calls of its chunks [0 .. n-1] in order, and last the release of the
      buffer; the calls of a chunk are the combination of the NA mask and
      the where-mask of that chunk into the scratch buffer, then the
      transfer under the buffered mask, both for the chunk's count of
      elements and with all four data pointers advanced from the start of
      the run by the counts of the chunks before times their own stride;
    - the state the routine leaves is the state these chunks leave one
      after the other, each chunk handing the state its combination
      callable leaves to its transfer callable ([chunk_step]);
    - a chunk's count is the minimum of what remains of the run and [B],
      and the counts add up to the run's count: the chunks cover the run
      exactly, without overlap;
    - for a combination callable that meets its contract and a buffer
      apart from the mask bytes of the chunk, the state handed to the
      transfer of a chunk has in element [i] of the buffer the conjunction
      of the NA-mask byte and the where-mask byte of element [i] of that
      chunk. *)
Theorem preservena_run_in_chunks
    (env : Collaborators) (ndim : nat) (shape : list Z)
    (dst_dtype : PyArray_Descr) (dst_data : ptr) (dst_strides : list Z)
    (src_dtype : PyArray_Descr) (src_data : ptr) (src_strides : list Z)
    (maskna_dtype : PyArray_Descr) (maskna_data : ptr)
    (maskna_strides : list Z)
    (wheremask_dtype : PyArray_Descr) (wheremask_data : ptr)
    (wheremask_strides : list Z) (s : state)
    (ndim' : nat) (shape_it : list Z) (dst0 : ptr) (ds_it : list Z)
    (src0 : ptr) (ss_it : list Z) (na0 : ptr) (ns_it : list Z)
    (wm0 : ptr) (ws_it : list Z)
    (stransfer : PyArray_MaskedStridedUnaryOp) (needs_api : bool)
    (maskand : PyArray_StridedBinaryOp) :
  let B := Z.pos (NPY_ARRAY_ASSIGN_BUFFERSIZE env) in
  let itemsize := elsize maskna_dtype in
  let buffer := PyArray_malloc env (B * itemsize) s in
  let aligned :=
    raw_array_is_aligned env ndim dst_data dst_strides (alignment dst_dtype)
    && raw_array_is_aligned env ndim src_data src_strides
         (alignment src_dtype) in
  (* the chunks of a run of [count] elements *)
  let count := nth 0 shape_it 0 in
  let n := chunk_count B count in
  let size := chunk_size B count in
  let before k := fold_right Z.add 0 (map size (seq 0 k)) in
  (* the strides and the start pointers of the loop, after the reversal *)
  let reversed := overlap_1d ndim' shape_it dst0 src0 ss_it in
  let strides st := if reversed then negate0 st else st in
  let first p st := if reversed then p + (count - 1) * nth 0 st 0 else p in
  let stride st := nth 0 (strides st) 0 in
  (* the pointer of an array at chunk [k] of the run at outer coordinates
     [cs] *)
  let at_chunk p st cs k :=
    first p st + outer_offset (outer_dims ndim') cs (strides st)
    + before k * stride st in
  let calls cs k :=
    [Call_maskand_stransfer buffer itemsize
       (at_chunk na0 ns_it cs k) (stride ns_it)
       (at_chunk wm0 ws_it cs k) (stride ws_it) (size k);
     Call_masked_stransfer
       (at_chunk dst0 ds_it cs k) (stride ds_it)
       (at_chunk src0 ss_it cs k) (stride ss_it)
       buffer itemsize (size k) (elsize src_dtype)] in
  let step cs st k :=
    chunk_step maskand stransfer buffer itemsize (elsize src_dtype)
      (stride ds_it) (stride ss_it) (stride ns_it) (stride ws_it)
      (at_chunk dst0 ds_it cs k) (at_chunk src0 ss_it cs k)
      (at_chunk na0 ns_it cs k) (at_chunk wm0 ws_it cs k) (size k) st in
  let runs := iter_coords (outer_dims ndim') shape_it in
  let r :=
    raw_array_wheremasked_assign_array_preservena env ndim shape
      dst_dtype dst_data dst_strides src_dtype src_data src_strides
      maskna_dtype maskna_data maskna_strides
      wheremask_dtype wheremask_data wheremask_strides s in
  PyArray_PrepareFourRawArrayIter env ndim shape dst_data dst_strides
    src_data src_strides maskna_data maskna_strides
    wheremask_data wheremask_strides
  = Some (ndim', shape_it, dst0, ds_it, src0, ss_it, na0, ns_it,
          wm0, ws_it) ->
  buffer <> NULL ->
  PyArray_GetMaskedDTypeTransferFunction env aligned
    (nth 0 src_strides 0) (stride ds_it) itemsize
    src_dtype dst_dtype maskna_dtype = Some (stransfer, needs_api) ->
  PyArray_GetMaskAndFunction env (stride ns_it) maskna_dtype
    (stride ws_it) wheremask_dtype = Some maskand ->
  log_of r
  = Call_malloc (B * itemsize) buffer
    :: Call_GetMaskedDTypeTransferFunction aligned
         (nth 0 src_strides 0) (stride ds_it) itemsize
         src_dtype dst_dtype maskna_dtype
    :: Call_GetMaskAndFunction (stride ns_it) maskna_dtype
         (stride ws_it) wheremask_dtype
    :: flat_map (fun cs => flat_map (calls cs) (seq 0 n)) runs
    ++ [Call_free buffer] /\
  state_of r
  = fold_left (fun st cs => fold_left (step cs) (seq 0 n) st) runs s /\
  (forall k, (k < n)%nat -> size k = Z.min (count - before k) B) /\
  before n = count /\
  (forall cs k i st,
     (k < n)%nat -> 0 <= i < size k ->
     maskand_contract_at (stride ns_it) (stride ws_it) maskand ->
     itemsize <> 0 ->
     (forall j j', 0 <= j < size k -> 0 <= j' < size k ->
        at_chunk na0 ns_it cs k + j' * stride ns_it
        <> buffer + j * itemsize /\
        at_chunk wm0 ws_it cs k + j' * stride ws_it
        <> buffer + j * itemsize) ->
     st_mem
       (maskand buffer itemsize
          (at_chunk na0 ns_it cs k) (stride ns_it)
          (at_chunk wm0 ws_it cs k) (stride ws_it) (size k) st)
       (buffer + i * itemsize)
     = if mask_true (st_mem st (at_chunk na0 ns_it cs k + i * stride ns_it))
          && mask_true
               (st_mem st (at_chunk wm0 ws_it cs k + i * stride ws_it))
       then 1 else 0).
Proof.
  intros B itemsize buffer aligned count n size before reversed strides
    first stride at_chunk calls step runs r Hprep Hbuf Hres Hand.
  assert (HB : 0 < B) by (subst B; lia).
  assert (Hbefore : forall k, (k < n)%nat -> before k = Z.of_nat k * B).
  { intros k Hk. subst before size. cbv beta.
    apply chunk_starts; assumption. }
  apply Z.eqb_neq in Hbuf.
  (* the calls and the state of one innermost run *)
  set (L := fun d : list ptr =>
              flat_map
                (chunk_calls B buffer itemsize (elsize src_dtype)
                   (stride ds_it) (stride ss_it) (stride ns_it)
                   (stride ws_it) count
                   (nth 0 d 0) (nth 1 d 0) (nth 2 d 0) (nth 3 d 0))
                (seq 0 n)).
  set (T := fun (d : list ptr) (st : state) =>
              fold_left
                (fun st k =>
                   chunk_step maskand stransfer buffer itemsize
                     (elsize src_dtype)
                     (stride ds_it) (stride ss_it) (stride ns_it)
                     (stride ws_it)
                     (nth 0 d 0 + Z.of_nat k * B * stride ds_it)
                     (nth 1 d 0 + Z.of_nat k * B * stride ss_it)
                     (nth 2 d 0 + Z.of_nat k * B * stride ns_it)
                     (nth 3 d 0 + Z.of_nat k * B * stride ws_it)
                     (chunk_size B count k) st)
                (seq 0 n) st).
  assert (Hrun :
    r = let '(u, s1, loop_calls) :=
          NPY_RAW_ITER (outer_dims ndim') shape_it
            [strides ds_it; strides ss_it; strides ns_it; strides ws_it]
            [first dst0 ds_it; first src0 ss_it; first na0 ns_it;
             first wm0 ws_it]
            (fun data =>
               process_innermost env maskand stransfer buffer itemsize
                 (elsize src_dtype)
                 (stride ds_it) (stride ss_it) (stride ns_it) (stride ws_it)
                 count
                 (nth 0 data 0) (nth 1 data 0) (nth 2 data 0) (nth 3 data 0))
            s in
        (if needs_api && is_some (st_err s1) then -1 else 0, s1,
         Call_malloc (B * itemsize) buffer
         :: Call_GetMaskedDTypeTransferFunction aligned
              (nth 0 src_strides 0) (stride ds_it) itemsize
              src_dtype dst_dtype maskna_dtype
         :: Call_GetMaskAndFunction (stride ns_it) maskna_dtype
              (stride ws_it) wheremask_dtype
         :: loop_calls ++ [Call_free buffer])).
  { subst r. unfold raw_array_wheremasked_assign_array_preservena.
    rewrite Hprep. cbv zeta. fold B. fold itemsize.
    unfold bind at 1. fold buffer. rewrite Hbuf.
    unfold stride, strides, first, reversed, count, aligned in *.
    unfold bind at 1. rewrite GetMaskedDTypeTransferFunction_run, Hres.
    unfold bind at 1. rewrite GetMaskAndFunction_run, Hand.
    unfold bind at 1.
    destruct (NPY_RAW_ITER _ _ _ _ _ s) as [[u s1] loop_calls].
    unfold return_status. unfold bind, emit, PyErr_Occurred, ret.
    cbv beta iota zeta. cbn [app]. rewrite ?app_nil_r. unfold is_some.
    destruct (st_err s1); reflexivity. }
  assert (Hlog : forall d st,
            log_of
              (process_innermost env maskand stransfer buffer itemsize
                 (elsize src_dtype)
                 (stride ds_it) (stride ss_it) (stride ns_it) (stride ws_it)
                 count
                 (nth 0 d 0) (nth 1 d 0) (nth 2 d 0) (nth 3 d 0) st)
            = L d).
  { intros d st. unfold process_innermost.
    rewrite buffered_loop_log by lia. reflexivity. }
  assert (Hstate : forall d st,
            state_of
              (process_innermost env maskand stransfer buffer itemsize
                 (elsize src_dtype)
                 (stride ds_it) (stride ss_it) (stride ns_it) (stride ws_it)
                 count
                 (nth 0 d 0) (nth 1 d 0) (nth 2 d 0) (nth 3 d 0) st)
            = T d st).
  { intros d st. unfold process_innermost.
    rewrite buffered_loop_state by lia. reflexivity. }
  pose proof (@NPY_RAW_ITER_log L _ shape_it
                [strides ds_it; strides ss_it; strides ns_it; strides ws_it]
                Hlog (outer_dims ndim')
                [first dst0 ds_it; first src0 ss_it; first na0 ns_it;
                 first wm0 ws_it] s eq_refl) as Hlogs.
  pose proof (@NPY_RAW_ITER_state T _ shape_it
                [strides ds_it; strides ss_it; strides ns_it; strides ws_it]
                Hstate (outer_dims ndim')
                [first dst0 ds_it; first src0 ss_it; first na0 ns_it;
                 first wm0 ws_it] s eq_refl) as Hstates.
  destruct (NPY_RAW_ITER (outer_dims ndim') shape_it _ _ _ s)
    as [[u s1] loop_calls].
  unfold log_of, state_of in Hlogs, Hstates. cbn [fst snd] in Hlogs, Hstates.
  rewrite Hrun. unfold log_of, state_of. cbn [fst snd].
  split; [| split; [| split; [| split]]].
  - do 3 f_equal. f_equal. rewrite Hlogs. fold runs.
    apply flat_map_ext. intros cs. unfold L.
    apply flat_map_ext_seq. intros k Hk.
    unfold chunk_calls, calls, at_chunk, offset_data.
    cbn [combine map nth fst snd]. fold size.
    rewrite (Hbefore k Hk). reflexivity.
  - rewrite Hstates. fold runs.
    apply fold_left_ext_in. intros st cs _. unfold T.
    apply fold_left_ext_in. intros st' k Hk. apply in_seq in Hk.
    unfold step, at_chunk, offset_data.
    cbn [combine map nth fst snd]. fold size.
    rewrite (Hbefore k) by lia. reflexivity.
  - intros k Hk. rewrite (Hbefore k Hk). reflexivity.
  - subst before size. cbv beta.
    apply chunk_sizes_sum; [assumption | reflexivity].
  - intros cs k i st Hk Hi Hcontract Hsize Hapart.
    rewrite Hcontract.
    apply maskand_loop_combines; [assumption | | lia].
    intros i' j' Hi' Hj'. apply Hapart; lia.
Qed.

Lemma preservena_run_in_chunks_witness :
  let env := copy_collaborators 1000 4 in
  let ndim := 1%nat in
  let shape := [10] in
  let dst_dtype := int8 in
  let dst_data := 100 in
  let dst_strides := [1] in
  let src_dtype := int8 in
  let src_data := 200 in
  let src_strides := [1] in
  let maskna_dtype := bool_ in
  let maskna_data := 300 in
  let maskna_strides := [1] in
  let wheremask_dtype := bool_ in
  let wheremask_data := 400 in
  let wheremask_strides := [1] in
  let s := arange_state in
  let ndim' := 1%nat in
  let shape_it := [10] in
  let dst0 := 100 in
  let ds_it := [1] in
  let src0 := 200 in
  let ss_it := [1] in
  let na0 := 300 in
  let ns_it := [1] in
  let wm0 := 400 in
  let ws_it := [1] in
  let stransfer := masked_strided_transfer (fun b => b) 1 in
  let maskand := maskand_transfer in
  let B := Z.pos (NPY_ARRAY_ASSIGN_BUFFERSIZE env) in
  let itemsize := elsize maskna_dtype in
  let buffer := PyArray_malloc env (B * itemsize) s in
  let aligned :=
    raw_array_is_aligned env ndim dst_data dst_strides (alignment dst_dtype)
    && raw_array_is_aligned env ndim src_data src_strides
         (alignment src_dtype) in
  (* the chunks of a run of [count] elements *)
  let count := nth 0 shape_it 0 in
  let n := chunk_count B count in
  let size := chunk_size B count in
  let before k := fold_right Z.add 0 (map size (seq 0 k)) in
  (* the strides and the start pointers of the loop, after the reversal *)
  let reversed := overlap_1d ndim' shape_it dst0 src0 ss_it in
  let strides st := if reversed then negate0 st else st in
  let first p st := if reversed then p + (count - 1) * nth 0 st 0 else p in
  let stride st := nth 0 (strides st) 0 in
  (* the pointer of an array at chunk [k] of the run at outer coordinates
     [cs] *)
  let at_chunk p st cs k :=
    first p st + outer_offset (outer_dims ndim') cs (strides st)
    + before k * stride st in
  let calls cs k :=
    [Call_maskand_stransfer buffer itemsize
       (at_chunk na0 ns_it cs k) (stride ns_it)
       (at_chunk wm0 ws_it cs k) (stride ws_it) (size k);
     Call_masked_stransfer
       (at_chunk dst0 ds_it cs k) (stride ds_it)
       (at_chunk src0 ss_it cs k) (stride ss_it)
       buffer itemsize (size k) (elsize src_dtype)] in
  let step cs st k :=
    chunk_step maskand stransfer buffer itemsize (elsize src_dtype)
      (stride ds_it) (stride ss_it) (stride ns_it) (stride ws_it)
      (at_chunk dst0 ds_it cs k) (at_chunk src0 ss_it cs k)
      (at_chunk na0 ns_it cs k) (at_chunk wm0 ws_it cs k) (size k) st in
  let runs := iter_coords (outer_dims ndim') shape_it in
  let r :=
    raw_array_wheremasked_assign_array_preservena env ndim shape
      dst_dtype dst_data dst_strides src_dtype src_data src_strides
      maskna_dtype maskna_data maskna_strides
      wheremask_dtype wheremask_data wheremask_strides s in
  log_of r
  = Call_malloc (B * itemsize) buffer
    :: Call_GetMaskedDTypeTransferFunction aligned
         (nth 0 src_strides 0) (stride ds_it) itemsize
         src_dtype dst_dtype maskna_dtype
    :: Call_GetMaskAndFunction (stride ns_it) maskna_dtype
         (stride ws_it) wheremask_dtype
    :: flat_map (fun cs => flat_map (calls cs) (seq 0 n)) runs
    ++ [Call_free buffer] /\
  state_of r
  = fold_left (fun st cs => fold_left (step cs) (seq 0 n) st) runs s /\
  (forall k, (k < n)%nat -> size k = Z.min (count - before k) B) /\
  before n = count /\
  (forall cs k i st,
     (k < n)%nat -> 0 <= i < size k ->
     maskand_contract_at (stride ns_it) (stride ws_it) maskand ->
     itemsize <> 0 ->
     (forall j j', 0 <= j < size k -> 0 <= j' < size k ->
        at_chunk na0 ns_it cs k + j' * stride ns_it
        <> buffer + j * itemsize /\
        at_chunk wm0 ws_it cs k + j' * stride ws_it
        <> buffer + j * itemsize) ->
     st_mem
       (maskand buffer itemsize
          (at_chunk na0 ns_it cs k) (stride ns_it)
          (at_chunk wm0 ws_it cs k) (stride ws_it) (size k) st)
       (buffer + i * itemsize)
     = if mask_true (st_mem st (at_chunk na0 ns_it cs k + i * stride ns_it))
          && mask_true
               (st_mem st (at_chunk wm0 ws_it cs k + i * stride ws_it))
       then 1 else 0).
Proof.
  apply (@preservena_run_in_chunks (copy_collaborators 1000 4) 1%nat [10]
           int8 100 [1] int8 200 [1] bool_ 300 [1] bool_ 400 [1]
           arange_state 1%nat [10] 100 [1] 200 [1] 300 [1] 400 [1]
           (masked_strided_transfer (fun b => b) 1) false maskand_transfer).
  - reflexivity.
  - discriminate.
  - reflexivity.
  - reflexivity.
Defined.

(** The run of the witness, a run of 10 elements with a buffer of 4: the
    routine allocates, resolves, makes the calls of chunks of 4, 4 and 2
    elements and releases the buffer. *)
Example preservena_run_in_chunks_run :
  log_of
    (raw_array_wheremasked_assign_array_preservena
       (copy_collaborators 1000 4) 1 [10] int8 100 [1] int8 200 [1]
       bool_ 300 [1] bool_ 400 [1] arange_state)
  = [Call_malloc 4 1000;
     Call_GetMaskedDTypeTransferFunction true 1 1 1 int8 int8 bool_;
     Call_GetMaskAndFunction 1 bool_ 1 bool_;
     Call_maskand_stransfer 1000 1 300 1 400 1 4;
     Call_masked_stransfer 100 1 200 1 1000 1 4 1;
     Call_maskand_stransfer 1000 1 304 1 404 1 4;
     Call_masked_stransfer 104 1 204 1 1000 1 4 1;
     Call_maskand_stransfer 1000 1 308 1 408 1 2;
     Call_masked_stransfer 108 1 208 1 1000 1 2 1;
     Call_free 1000].
Proof. reflexivity. Qed.
